(** * go-fil-markets: deal state machines

    A shallow embedding of the retrieval client transition table
    (retrievalmarket/impl/clientstates/client_fsm.go) and of the storage
    provider state handlers
    (storagemarket/impl/providerstates/provider_states.go), with the
    properties of the specification proved or refuted on them.

    Conventions.
    - Go's [uint64] and [int64] are integers in [Z]; every operation that can
      leave the range has its wrap-around written out ([Uint64.add],
      [Int64.ofUint64]).
    - A [big.Int] / [abi.TokenAmount] that the code never compares with nil
      is a [Z]; one that the code tests with [Nil()] is an [option Z].
    - A Go [error] is the text of its message; [option error] is Go's
      possibly-nil error.
    - A run-time panic (division by zero, index out of range) is a result of
      its own, never a value. *)

From Stdlib Require Import ZArith List String Ascii Bool Lia.
From Stdlib Require Import DecimalString.
Import ListNotations.

#[local] Open Scope string_scope.
#[local] Open Scope Z_scope.

(** * Part I: the model *)

(** ** Machine integers *)

Module Uint64.

Definition modulus : Z := 2 ^ 64.
Definition max : Z := modulus - 1.

Definition inRange (x : Z) : Prop := 0 <= x < modulus.

(** [x + y] on two [uint64]: Go wraps silently. *)
Definition add (x y : Z) : Z := (x + y) mod modulus.

End Uint64.

Module Int64.

(** [int64(x)] for a [uint64] x: the two's complement reinterpretation. *)
Definition ofUint64 (x : Z) : Z :=
  if x <? 2 ^ 63 then x else x - 2 ^ 64.

End Int64.

(** ** Arbitrary-precision integers (go-state-types/big over math/big) *)

Module big.

Definition Int : Type := Z.

Definition Add (a b : Int) : Int := a + b.
Definition Sub (a b : Int) : Int := a - b.
Definition Mul (a b : Int) : Int := a * b.

(** [big.Min]: [a] when [a.LessThan(b)], else [b]. *)
Definition Min (a b : Int) : Int := if a <? b then a else b.

Definition LessThan (a b : Int) : bool := a <? b.
Definition GreaterThan (a b : Int) : bool := a >? b.
Definition IsZero (a : Int) : bool := a =? 0.

(** math/big's [Div] is Euclidean division (the remainder is never
    negative) and panics on a zero divisor: [None] is that panic. *)
Definition Div (a b : Int) : option Int :=
  if b =? 0 then None
  else Some (if b <? 0 then - (a / - b) else a / b).

(** The [Uint64] method: the low 64 bits of the magnitude.  math/big
    documents the result only for values that fit in a [uint64]. *)
Definition Uint64 (a : Int) : Z := Z.abs a mod Uint64.modulus.

(** [String()] and the [%d] / [%s] verbs: decimal digits, a leading minus
    sign for negative numbers. *)
Definition String (a : Int) : string := NilZero.string_of_int (Z.to_int a).

End big.

(** ** Opaque identifiers

    CIDs, addresses and peer ids are compared for equality only; their
    textual form stands for them. *)

Module address.

Definition Address : Type := string.

End address.

Definition PeerID : Type := string.
Definition error : Type := string.
Definition TokenAmount : Type := big.Int.

Module cid.

(** [cid.Prefix]: what a CID says about its own encoding. *)
Record PrefixT : Type := mkPrefix {
  Version : Z;
  Codec : Z;
  MhType : Z;
  MhLength : Z
}.

(** A CID: [Undef], the zero value, or a prefix with a digest. *)
Inductive Cid : Type :=
| Undef
| Of (prefix : PrefixT) (digest : string).

Definition Defined (c : Cid) : bool :=
  match c with
  | Undef => false
  | Of _ _ => true
  end.

Definition Prefix_eqb (p q : PrefixT) : bool :=
  (Version p =? Version q) && (Codec p =? Codec q)
  && (MhType p =? MhType q) && (MhLength p =? MhLength q).

(** [c.String()].  Only its identity matters here. *)
Definition String (c : Cid) : string :=
  match c with
  | Undef => ""
  | Of _ digest => digest
  end.

Definition eqb (c d : Cid) : bool :=
  match c, d with
  | Undef, Undef => true
  | Of p x, Of q y => Prefix_eqb p q && String.eqb x y
  | _, _ => false
  end.

End cid.

Definition Cid : Type := cid.Cid.

Module datatransfer.

Record ChannelID : Type := mkChannelID {
  Initiator : PeerID;
  Responder : PeerID;
  ID : Z
}.

(** The zero value. *)
Definition noChannel : ChannelID := mkChannelID "" "" 0.

End datatransfer.

(** ** Retrieval market: the client deal record (package retrievalmarket) *)

Module rm.

Definition DealID : Type := Z.

Record PaymentInfoT : Type := mkPaymentInfo {
  PayCh : address.Address;
  Lane : Z
}.

(** The deal statuses that client_fsm.go names. *)
Inductive DealStatus : Type :=
| DealStatusNew
| DealStatusRetryLegacy
| DealStatusWaitForAcceptance
| DealStatusWaitForAcceptanceLegacy
| DealStatusAccepted
| DealStatusPaymentChannelCreating
| DealStatusPaymentChannelAllocatingLane
| DealStatusPaymentChannelAddingFunds
| DealStatusOngoing
| DealStatusFundsNeeded
| DealStatusFundsNeededLastPayment
| DealStatusBlocksComplete
| DealStatusSendFunds
| DealStatusSendFundsLastPayment
| DealStatusCheckFunds
| DealStatusInsufficientFunds
| DealStatusFinalizing
| DealStatusCheckComplete
| DealStatusCompleted
| DealStatusErrored
| DealStatusRejected
| DealStatusDealNotFound
| DealStatusFailing
| DealStatusCancelling
| DealStatusCancelled.

Definition DealStatus_eq_dec (a b : DealStatus) : {a = b} + {a <> b}.
Proof. decide equality. Defined.

Definition DealStatus_eqb (a b : DealStatus) : bool :=
  if DealStatus_eq_dec a b then true else false.

(** [ClientDealState].  The embedded [DealProposal] and its embedded
    [Params] are flattened: Go promotes their fields, and the table reads
    them as [deal.PricePerByte], [deal.UnsealPrice] and so on.
    [TotalReceived], [BytesPaidFor], [CurrentInterval], [PaymentInterval]
    and [PaymentIntervalIncrease] are [uint64]; the token amounts are the
    non-nil big integers that [Client.Retrieve] stores. *)
Record ClientDealState : Type := mkClientDealState {
  PayloadCID : Cid;
  ID : DealID;
  PricePerByte : TokenAmount;
  PaymentInterval : Z;
  PaymentIntervalIncrease : Z;
  UnsealPrice : TokenAmount;
  StoreID : option Z;
  ChannelID : datatransfer.ChannelID;
  LastPaymentRequested : bool;
  AllBlocksReceived : bool;
  TotalFunds : TokenAmount;
  ClientWallet : address.Address;
  MinerWallet : address.Address;
  PaymentInfo : option PaymentInfoT;
  Status : DealStatus;
  Sender : PeerID;
  TotalReceived : Z;
  Message : string;
  BytesPaidFor : Z;
  CurrentInterval : Z;
  PaymentRequested : TokenAmount;
  FundsSpent : TokenAmount;
  UnsealFundsPaid : TokenAmount;
  WaitMsgCID : option Cid;
  LegacyProtocol : bool
}.

(** Field assignment [deal.F = v]. *)
Definition set_ChannelID (v : datatransfer.ChannelID) (d : ClientDealState) : ClientDealState :=
  mkClientDealState (PayloadCID d) (ID d) (PricePerByte d)
    (PaymentInterval d) (PaymentIntervalIncrease d) (UnsealPrice d)
    (StoreID d) v (LastPaymentRequested d) (AllBlocksReceived d)
    (TotalFunds d) (ClientWallet d) (MinerWallet d) (PaymentInfo d)
    (Status d) (Sender d) (TotalReceived d) (Message d) (BytesPaidFor d)
    (CurrentInterval d) (PaymentRequested d) (FundsSpent d)
    (UnsealFundsPaid d) (WaitMsgCID d) (LegacyProtocol d).

Definition set_Message (v : string) (d : ClientDealState) : ClientDealState :=
  mkClientDealState (PayloadCID d) (ID d) (PricePerByte d)
    (PaymentInterval d) (PaymentIntervalIncrease d) (UnsealPrice d)
    (StoreID d) (ChannelID d) (LastPaymentRequested d) (AllBlocksReceived d)
    (TotalFunds d) (ClientWallet d) (MinerWallet d) (PaymentInfo d)
    (Status d) (Sender d) (TotalReceived d) v (BytesPaidFor d)
    (CurrentInterval d) (PaymentRequested d) (FundsSpent d)
    (UnsealFundsPaid d) (WaitMsgCID d) (LegacyProtocol d).

Definition set_LegacyProtocol (v : bool) (d : ClientDealState) : ClientDealState :=
  mkClientDealState (PayloadCID d) (ID d) (PricePerByte d)
    (PaymentInterval d) (PaymentIntervalIncrease d) (UnsealPrice d)
    (StoreID d) (ChannelID d) (LastPaymentRequested d) (AllBlocksReceived d)
    (TotalFunds d) (ClientWallet d) (MinerWallet d) (PaymentInfo d)
    (Status d) (Sender d) (TotalReceived d) (Message d) (BytesPaidFor d)
    (CurrentInterval d) (PaymentRequested d) (FundsSpent d)
    (UnsealFundsPaid d) (WaitMsgCID d) v.

Definition set_WaitMsgCID (v : option Cid) (d : ClientDealState) : ClientDealState :=
  mkClientDealState (PayloadCID d) (ID d) (PricePerByte d)
    (PaymentInterval d) (PaymentIntervalIncrease d) (UnsealPrice d)
    (StoreID d) (ChannelID d) (LastPaymentRequested d) (AllBlocksReceived d)
    (TotalFunds d) (ClientWallet d) (MinerWallet d) (PaymentInfo d)
    (Status d) (Sender d) (TotalReceived d) (Message d) (BytesPaidFor d)
    (CurrentInterval d) (PaymentRequested d) (FundsSpent d)
    (UnsealFundsPaid d) v (LegacyProtocol d).

Definition set_PaymentInfo (v : option PaymentInfoT) (d : ClientDealState) : ClientDealState :=
  mkClientDealState (PayloadCID d) (ID d) (PricePerByte d)
    (PaymentInterval d) (PaymentIntervalIncrease d) (UnsealPrice d)
    (StoreID d) (ChannelID d) (LastPaymentRequested d) (AllBlocksReceived d)
    (TotalFunds d) (ClientWallet d) (MinerWallet d) v (Status d) (Sender d)
    (TotalReceived d) (Message d) (BytesPaidFor d) (CurrentInterval d)
    (PaymentRequested d) (FundsSpent d) (UnsealFundsPaid d) (WaitMsgCID d)
    (LegacyProtocol d).

Definition set_PaymentRequested (v : TokenAmount) (d : ClientDealState) : ClientDealState :=
  mkClientDealState (PayloadCID d) (ID d) (PricePerByte d)
    (PaymentInterval d) (PaymentIntervalIncrease d) (UnsealPrice d)
    (StoreID d) (ChannelID d) (LastPaymentRequested d) (AllBlocksReceived d)
    (TotalFunds d) (ClientWallet d) (MinerWallet d) (PaymentInfo d)
    (Status d) (Sender d) (TotalReceived d) (Message d) (BytesPaidFor d)
    (CurrentInterval d) v (FundsSpent d) (UnsealFundsPaid d) (WaitMsgCID d)
    (LegacyProtocol d).

Definition set_LastPaymentRequested (v : bool) (d : ClientDealState) : ClientDealState :=
  mkClientDealState (PayloadCID d) (ID d) (PricePerByte d)
    (PaymentInterval d) (PaymentIntervalIncrease d) (UnsealPrice d)
    (StoreID d) (ChannelID d) v (AllBlocksReceived d) (TotalFunds d)
    (ClientWallet d) (MinerWallet d) (PaymentInfo d) (Status d) (Sender d)
    (TotalReceived d) (Message d) (BytesPaidFor d) (CurrentInterval d)
    (PaymentRequested d) (FundsSpent d) (UnsealFundsPaid d) (WaitMsgCID d)
    (LegacyProtocol d).

Definition set_AllBlocksReceived (v : bool) (d : ClientDealState) : ClientDealState :=
  mkClientDealState (PayloadCID d) (ID d) (PricePerByte d)
    (PaymentInterval d) (PaymentIntervalIncrease d) (UnsealPrice d)
    (StoreID d) (ChannelID d) (LastPaymentRequested d) v (TotalFunds d)
    (ClientWallet d) (MinerWallet d) (PaymentInfo d) (Status d) (Sender d)
    (TotalReceived d) (Message d) (BytesPaidFor d) (CurrentInterval d)
    (PaymentRequested d) (FundsSpent d) (UnsealFundsPaid d) (WaitMsgCID d)
    (LegacyProtocol d).

Definition set_TotalReceived (v : Z) (d : ClientDealState) : ClientDealState :=
  mkClientDealState (PayloadCID d) (ID d) (PricePerByte d)
    (PaymentInterval d) (PaymentIntervalIncrease d) (UnsealPrice d)
    (StoreID d) (ChannelID d) (LastPaymentRequested d) (AllBlocksReceived d)
    (TotalFunds d) (ClientWallet d) (MinerWallet d) (PaymentInfo d)
    (Status d) (Sender d) v (Message d) (BytesPaidFor d) (CurrentInterval d)
    (PaymentRequested d) (FundsSpent d) (UnsealFundsPaid d) (WaitMsgCID d)
    (LegacyProtocol d).

Definition set_FundsSpent (v : TokenAmount) (d : ClientDealState) : ClientDealState :=
  mkClientDealState (PayloadCID d) (ID d) (PricePerByte d)
    (PaymentInterval d) (PaymentIntervalIncrease d) (UnsealPrice d)
    (StoreID d) (ChannelID d) (LastPaymentRequested d) (AllBlocksReceived d)
    (TotalFunds d) (ClientWallet d) (MinerWallet d) (PaymentInfo d)
    (Status d) (Sender d) (TotalReceived d) (Message d) (BytesPaidFor d)
    (CurrentInterval d) (PaymentRequested d) v (UnsealFundsPaid d)
    (WaitMsgCID d) (LegacyProtocol d).

Definition set_BytesPaidFor (v : Z) (d : ClientDealState) : ClientDealState :=
  mkClientDealState (PayloadCID d) (ID d) (PricePerByte d)
    (PaymentInterval d) (PaymentIntervalIncrease d) (UnsealPrice d)
    (StoreID d) (ChannelID d) (LastPaymentRequested d) (AllBlocksReceived d)
    (TotalFunds d) (ClientWallet d) (MinerWallet d) (PaymentInfo d)
    (Status d) (Sender d) (TotalReceived d) (Message d) v
    (CurrentInterval d) (PaymentRequested d) (FundsSpent d)
    (UnsealFundsPaid d) (WaitMsgCID d) (LegacyProtocol d).

Definition set_CurrentInterval (v : Z) (d : ClientDealState) : ClientDealState :=
  mkClientDealState (PayloadCID d) (ID d) (PricePerByte d)
    (PaymentInterval d) (PaymentIntervalIncrease d) (UnsealPrice d)
    (StoreID d) (ChannelID d) (LastPaymentRequested d) (AllBlocksReceived d)
    (TotalFunds d) (ClientWallet d) (MinerWallet d) (PaymentInfo d)
    (Status d) (Sender d) (TotalReceived d) (Message d) (BytesPaidFor d) v
    (PaymentRequested d) (FundsSpent d) (UnsealFundsPaid d) (WaitMsgCID d)
    (LegacyProtocol d).

Definition set_UnsealFundsPaid (v : TokenAmount) (d : ClientDealState) : ClientDealState :=
  mkClientDealState (PayloadCID d) (ID d) (PricePerByte d)
    (PaymentInterval d) (PaymentIntervalIncrease d) (UnsealPrice d)
    (StoreID d) (ChannelID d) (LastPaymentRequested d) (AllBlocksReceived d)
    (TotalFunds d) (ClientWallet d) (MinerWallet d) (PaymentInfo d)
    (Status d) (Sender d) (TotalReceived d) (Message d) (BytesPaidFor d)
    (CurrentInterval d) (PaymentRequested d) (FundsSpent d) v (WaitMsgCID d)
    (LegacyProtocol d).

Definition set_Status (v : DealStatus) (d : ClientDealState) : ClientDealState :=
  mkClientDealState (PayloadCID d) (ID d) (PricePerByte d)
    (PaymentInterval d) (PaymentIntervalIncrease d) (UnsealPrice d)
    (StoreID d) (ChannelID d) (LastPaymentRequested d) (AllBlocksReceived d)
    (TotalFunds d) (ClientWallet d) (MinerWallet d) (PaymentInfo d) v
    (Sender d) (TotalReceived d) (Message d) (BytesPaidFor d)
    (CurrentInterval d) (PaymentRequested d) (FundsSpent d)
    (UnsealFundsPaid d) (WaitMsgCID d) (LegacyProtocol d).

(** The events of [ClientEvents], each with the arguments its action takes. *)
Inductive ClientEvent : Type :=
| ClientEventOpen
| ClientEventWriteDealProposalErrored (err : error)
| ClientEventDealProposed (channelID : datatransfer.ChannelID)
| ClientEventDealRejected (message : string)
| ClientEventDealNotFound (message : string)
| ClientEventDealAccepted
| ClientEventUnknownResponseReceived (status : DealStatus)
| ClientEventPaymentChannelErrored (err : error)
| ClientEventPaymentChannelCreateInitiated (msgCID : Cid)
| ClientEventPaymentChannelAddingFunds (msgCID : Cid) (payCh : address.Address)
| ClientEventPaymentChannelReady (payCh : address.Address)
| ClientEventAllocateLaneErrored (err : error)
| ClientEventLaneAllocated (lane : Z)
| ClientEventDataTransferError (err : error)
| ClientEventLastPaymentRequested (paymentOwed : TokenAmount)
| ClientEventPaymentRequested (paymentOwed : TokenAmount)
| ClientEventUnsealPaymentRequested (paymentOwed : TokenAmount)
| ClientEventAllBlocksReceived
| ClientEventBlocksReceived (totalReceived : Z)
| ClientEventSendFunds
| ClientEventFundsExpended (shortfall : TokenAmount)
| ClientEventBadPaymentRequested (message : string)
| ClientEventCreateVoucherFailed (err : error)
| ClientEventVoucherShortfall (shortfall : TokenAmount)
| ClientEventWriteDealPaymentErrored (err : error)
| ClientEventPaymentSent
| ClientEventComplete
| ClientEventCompleteVerified
| ClientEventEarlyTermination
| ClientEventCancelComplete
| ClientEventProviderCancelled
| ClientEventCancel
| ClientEventRecheckFunds.

End rm.

(** ** The transition-table combinators (package fsm of go-statemachine)

    [From(s).To(t)], [FromMany(ss...).To(t)], [FromAny().To(t)]; a
    destination is a state, [ToNoChange] (same state, the state handler
    runs again) or [ToJustRecord] (same state, no handler). *)

Module fsm.

Inductive Source (S : Type) : Type :=
| From (s : S)
| FromMany (ss : list S)
| FromAny.

Inductive Dest (S : Type) : Type :=
| To (s : S)
| ToNoChange
| ToJustRecord.

Arguments From {S} s.
Arguments FromMany {S} ss.
Arguments FromAny {S}.
Arguments To {S} s.
Arguments ToNoChange {S}.
Arguments ToJustRecord {S}.

Section Lookup.

Variable S : Type.
Variable eqb : S -> S -> bool.

(** A clause names the state explicitly. *)
Definition namesState (src : Source S) (s : S) : bool :=
  match src with
  | From s' => eqb s' s
  | FromMany ss => existsb (fun s' => eqb s' s) ss
  | FromAny => false
  end.

Definition isFromAny (src : Source S) : bool :=
  match src with
  | FromAny => true
  | _ => false
  end.

(** The processor looks the pair (event, current state) up first and falls
    back to the event's [FromAny] clause; [None] is a pair the table does
    not declare. *)
Definition destination (clauses : list (Source S * Dest S)) (s : S)
  : option (Dest S) :=
  match find (fun c => namesState (fst c) s) clauses with
  | Some c => Some (snd c)
  | None =>
      match find (fun c => isFromAny (fst c)) clauses with
      | Some c => Some (snd c)
      | None => None
      end
  end.

End Lookup.

Arguments namesState {S} eqb src s.
Arguments isFromAny {S} src.
Arguments destination {S} eqb clauses s.

(** What an action does to the record: it returns it mutated, or the
    function panics. *)
Inductive ActionResult (D : Type) : Type :=
| ActionOk (d : D)
| ActionPanic (why : string).

Arguments ActionOk {D} d.
Arguments ActionPanic {D} why.

(** What applying one event gives. *)
Inductive ApplyResult (D : Type) : Type :=
| Applied (d : D)
| InvalidTransition
| Panicked (why : string).

Arguments Applied {D} d.
Arguments InvalidTransition {D}.
Arguments Panicked {D} why.

End fsm.

(** ** The retrieval client table (package clientstates, client_fsm.go) *)

Module clientstates.

Import rm fsm.

Definition recordReceived (deal : ClientDealState) (totalReceived : Z)
  : ActionResult ClientDealState :=
  ActionOk (set_TotalReceived totalReceived deal).

Definition paymentChannelCreationStates : list DealStatus :=
  [ DealStatusWaitForAcceptance;
    DealStatusWaitForAcceptanceLegacy;
    DealStatusAccepted;
    DealStatusPaymentChannelCreating;
    DealStatusPaymentChannelAllocatingLane ].

(** The action of [ClientEventPaymentSent].  The assignments are in the
    order of the source; the division panics on a zero price. *)
Definition onPaymentSent (deal : ClientDealState)
  : ActionResult ClientDealState :=
  let deal1 :=
    set_FundsSpent (big.Add (FundsSpent deal) (PaymentRequested deal)) deal in
  let paymentForUnsealing :=
    big.Min (PaymentRequested deal1)
            (big.Sub (UnsealPrice deal1) (UnsealFundsPaid deal1)) in
  match big.Div (big.Sub (PaymentRequested deal1) paymentForUnsealing)
                (PricePerByte deal1) with
  | None => ActionPanic "division by zero"
  | Some q =>
      let bytesPaidFor := big.Uint64 q in
      let deal2 :=
        if bytesPaidFor >=? CurrentInterval deal1
        then set_CurrentInterval
               (Uint64.add (CurrentInterval deal1)
                           (PaymentIntervalIncrease deal1)) deal1
        else deal1 in
      let deal3 :=
        set_BytesPaidFor (Uint64.add (BytesPaidFor deal2) bytesPaidFor) deal2 in
      let deal4 :=
        set_UnsealFundsPaid
          (big.Add (UnsealFundsPaid deal3) paymentForUnsealing) deal3 in
      ActionOk (set_PaymentRequested 0 deal4)
  end.

(** The action shared by the three payment-request events. *)
Definition addPaymentRequested (paymentOwed : TokenAmount)
  (deal : ClientDealState) : ClientDealState :=
  set_PaymentRequested (big.Add (PaymentRequested deal) paymentOwed) deal.

Definition onProviderCancelled (deal : ClientDealState) : ClientDealState :=
  if negb (DealStatus_eqb (Status deal) DealStatusFailing)
     && negb (DealStatus_eqb (Status deal) DealStatusCancelling)
  then set_Message "Provider cancelled retrieval due to error" deal
  else deal.

Definition setPaymentInfoIfNil (payCh : address.Address) (deal : ClientDealState)
  : ClientDealState :=
  match PaymentInfo deal with
  | None => set_PaymentInfo (Some (mkPaymentInfo payCh 0)) deal
  | Some _ => deal
  end.

Section Table.

(** [rm.DealStatuses], the table of status names: it is declared outside
    the files at hand and only one message reads it. *)
Variable DealStatuses : DealStatus -> string.

(** The [Action] of every event; an event declared without one leaves the
    record as it is. *)
Definition action (evt : ClientEvent) (deal : ClientDealState)
  : ActionResult ClientDealState :=
  match evt with
  | ClientEventOpen => ActionOk deal
  | ClientEventWriteDealProposalErrored err =>
      ActionOk (set_Message ("proposing deal: " ++ err) deal)
  | ClientEventDealProposed channelID =>
      ActionOk (set_Message "" (set_ChannelID channelID deal))
  | ClientEventDealRejected message =>
      ActionOk (set_LegacyProtocol true
                  (set_Message ("deal rejected: " ++ message) deal))
  | ClientEventDealNotFound message =>
      ActionOk (set_Message ("deal not found: " ++ message) deal)
  | ClientEventDealAccepted => ActionOk deal
  | ClientEventUnknownResponseReceived status =>
      ActionOk (set_Message
                  ("Unexpected deal response status: " ++ DealStatuses status)
                  deal)
  | ClientEventPaymentChannelErrored err =>
      ActionOk (set_Message ("error from payment channel: " ++ err) deal)
  | ClientEventPaymentChannelCreateInitiated msgCID =>
      ActionOk (set_WaitMsgCID (Some msgCID) deal)
  | ClientEventPaymentChannelAddingFunds msgCID payCh =>
      ActionOk (setPaymentInfoIfNil payCh (set_WaitMsgCID (Some msgCID) deal))
  | ClientEventPaymentChannelReady payCh =>
      ActionOk (set_Message ""
                  (set_WaitMsgCID None (setPaymentInfoIfNil payCh deal)))
  | ClientEventAllocateLaneErrored err =>
      ActionOk (set_Message ("allocating payment lane: " ++ err) deal)
  | ClientEventLaneAllocated lane =>
      match PaymentInfo deal with
      | None => ActionPanic "nil pointer dereference"
      | Some info =>
          ActionOk (set_PaymentInfo (Some (mkPaymentInfo (PayCh info) lane))
                      deal)
      end
  | ClientEventDataTransferError err =>
      ActionOk (set_Message ("error generated by data transfer: " ++ err) deal)
  | ClientEventLastPaymentRequested paymentOwed =>
      ActionOk (set_LastPaymentRequested true
                  (addPaymentRequested paymentOwed deal))
  | ClientEventPaymentRequested paymentOwed =>
      ActionOk (addPaymentRequested paymentOwed deal)
  | ClientEventUnsealPaymentRequested paymentOwed =>
      ActionOk (addPaymentRequested paymentOwed deal)
  | ClientEventAllBlocksReceived =>
      ActionOk (set_AllBlocksReceived true deal)
  | ClientEventBlocksReceived totalReceived =>
      recordReceived deal totalReceived
  | ClientEventSendFunds => ActionOk deal
  | ClientEventFundsExpended shortfall =>
      ActionOk (set_Message
                  ("not enough current or pending funds in payment channel, shortfall of "
                   ++ big.String shortfall) deal)
  | ClientEventBadPaymentRequested message =>
      ActionOk (set_Message message deal)
  | ClientEventCreateVoucherFailed err =>
      ActionOk (set_Message ("creating payment voucher: " ++ err) deal)
  | ClientEventVoucherShortfall _ => ActionOk deal
  | ClientEventWriteDealPaymentErrored err =>
      ActionOk (set_Message ("writing deal payment: " ++ err) deal)
  | ClientEventPaymentSent => onPaymentSent deal
  | ClientEventComplete => ActionOk deal
  | ClientEventCompleteVerified => ActionOk deal
  | ClientEventEarlyTermination =>
      ActionOk (set_Message
                  "Provider sent complete status without sending all data" deal)
  | ClientEventCancelComplete => ActionOk deal
  | ClientEventProviderCancelled => ActionOk (onProviderCancelled deal)
  | ClientEventCancel => ActionOk (set_Message "Retrieval Cancelled" deal)
  | ClientEventRecheckFunds => ActionOk deal
  end.

End Table.

(** [ClientEvents]: the [From ... To ...] clauses of every event, in the
    order of the source. *)
Definition ClientEvents (evt : ClientEvent)
  : list (Source DealStatus * Dest DealStatus) :=
  match evt with
  | ClientEventOpen =>
      [ (From DealStatusNew, ToNoChange) ]
  | ClientEventWriteDealProposalErrored _ =>
      [ (FromAny, To DealStatusErrored) ]
  | ClientEventDealProposed _ =>
      [ (From DealStatusNew, To DealStatusWaitForAcceptance);
        (From DealStatusRetryLegacy, To DealStatusWaitForAcceptanceLegacy) ]
  | ClientEventDealRejected _ =>
      [ (From DealStatusWaitForAcceptance, To DealStatusRetryLegacy);
        (From DealStatusWaitForAcceptanceLegacy, To DealStatusRejected) ]
  | ClientEventDealNotFound _ =>
      [ (FromMany [DealStatusWaitForAcceptance;
                   DealStatusWaitForAcceptanceLegacy],
         To DealStatusDealNotFound) ]
  | ClientEventDealAccepted =>
      [ (FromMany [DealStatusWaitForAcceptance;
                   DealStatusWaitForAcceptanceLegacy],
         To DealStatusAccepted) ]
  | ClientEventUnknownResponseReceived _ =>
      [ (FromAny, To DealStatusFailing) ]
  | ClientEventPaymentChannelErrored _ =>
      [ (FromMany [DealStatusAccepted; DealStatusPaymentChannelCreating;
                   DealStatusPaymentChannelAddingFunds],
         To DealStatusFailing) ]
  | ClientEventPaymentChannelCreateInitiated _ =>
      [ (From DealStatusAccepted, To DealStatusPaymentChannelCreating) ]
  | ClientEventPaymentChannelAddingFunds _ _ =>
      [ (FromMany [DealStatusAccepted],
         To DealStatusPaymentChannelAllocatingLane);
        (FromMany [DealStatusCheckFunds],
         To DealStatusPaymentChannelAddingFunds) ]
  | ClientEventPaymentChannelReady _ =>
      [ (From DealStatusPaymentChannelCreating,
         To DealStatusPaymentChannelAllocatingLane);
        (From DealStatusPaymentChannelAddingFunds, To DealStatusOngoing);
        (From DealStatusCheckFunds, To DealStatusOngoing) ]
  | ClientEventAllocateLaneErrored _ =>
      [ (FromMany [DealStatusPaymentChannelAllocatingLane],
         To DealStatusFailing) ]
  | ClientEventLaneAllocated _ =>
      [ (From DealStatusPaymentChannelAllocatingLane, To DealStatusOngoing) ]
  | ClientEventDataTransferError _ =>
      [ (FromAny, To DealStatusErrored) ]
  | ClientEventLastPaymentRequested _ =>
      [ (FromMany [DealStatusOngoing; DealStatusFundsNeededLastPayment;
                   DealStatusFundsNeeded],
         To DealStatusFundsNeededLastPayment);
        (From DealStatusBlocksComplete, To DealStatusSendFundsLastPayment);
        (FromMany paymentChannelCreationStates, ToJustRecord) ]
  | ClientEventPaymentRequested _ =>
      [ (FromMany [DealStatusOngoing; DealStatusBlocksComplete;
                   DealStatusFundsNeeded],
         To DealStatusFundsNeeded);
        (FromMany paymentChannelCreationStates, ToJustRecord) ]
  | ClientEventUnsealPaymentRequested _ =>
      [ (FromMany [DealStatusWaitForAcceptance;
                   DealStatusWaitForAcceptanceLegacy],
         To DealStatusAccepted) ]
  | ClientEventAllBlocksReceived =>
      [ (FromMany [DealStatusOngoing; DealStatusBlocksComplete],
         To DealStatusBlocksComplete);
        (FromMany paymentChannelCreationStates, ToJustRecord);
        (FromMany [DealStatusSendFunds; DealStatusFundsNeeded], ToJustRecord);
        (From DealStatusFundsNeededLastPayment,
         To DealStatusSendFundsLastPayment) ]
  | ClientEventBlocksReceived _ =>
      [ (FromMany [DealStatusOngoing; DealStatusFundsNeeded;
                   DealStatusFundsNeededLastPayment],
         ToNoChange);
        (FromMany paymentChannelCreationStates, ToJustRecord) ]
  | ClientEventSendFunds =>
      [ (From DealStatusFundsNeeded, To DealStatusSendFunds);
        (From DealStatusFundsNeededLastPayment,
         To DealStatusSendFundsLastPayment) ]
  | ClientEventFundsExpended _ =>
      [ (FromMany [DealStatusCheckFunds], To DealStatusInsufficientFunds) ]
  | ClientEventBadPaymentRequested _ =>
      [ (FromMany [DealStatusSendFunds; DealStatusSendFundsLastPayment],
         To DealStatusFailing) ]
  | ClientEventCreateVoucherFailed _ =>
      [ (FromMany [DealStatusSendFunds; DealStatusSendFundsLastPayment],
         To DealStatusFailing) ]
  | ClientEventVoucherShortfall _ =>
      [ (FromMany [DealStatusSendFunds; DealStatusSendFundsLastPayment],
         To DealStatusCheckFunds) ]
  | ClientEventWriteDealPaymentErrored _ =>
      [ (FromAny, To DealStatusErrored) ]
  | ClientEventPaymentSent =>
      [ (From DealStatusSendFunds, To DealStatusOngoing);
        (From DealStatusSendFundsLastPayment, To DealStatusFinalizing) ]
  | ClientEventComplete =>
      [ (From DealStatusOngoing, To DealStatusCheckComplete);
        (From DealStatusFinalizing, To DealStatusCompleted) ]
  | ClientEventCompleteVerified =>
      [ (From DealStatusCheckComplete, To DealStatusCompleted) ]
  | ClientEventEarlyTermination =>
      [ (From DealStatusCheckComplete, To DealStatusErrored) ]
  | ClientEventCancelComplete =>
      [ (From DealStatusFailing, To DealStatusErrored);
        (From DealStatusCancelling, To DealStatusCancelled) ]
  | ClientEventProviderCancelled =>
      [ (From DealStatusFailing, ToJustRecord);
        (From DealStatusCancelling, ToJustRecord);
        (FromAny, To DealStatusErrored) ]
  | ClientEventCancel =>
      [ (FromAny, To DealStatusCancelling) ]
  | ClientEventRecheckFunds =>
      [ (From DealStatusInsufficientFunds, To DealStatusCheckFunds) ]
  end.

(** [ClientFinalityStates]: terminal states after which no further events
    are received. *)
Definition ClientFinalityStates : list DealStatus :=
  [ DealStatusErrored;
    DealStatusCompleted;
    DealStatusCancelled;
    DealStatusRejected;
    DealStatusDealNotFound ].

Definition isFinalityState (s : DealStatus) : bool :=
  existsb (DealStatus_eqb s) ClientFinalityStates.

Section Machine.

Variable DealStatuses : DealStatus -> string.

(** The event processor on one event: look the destination up from the
    current status, run the action on the record, then store the new
    status.  The action runs before the status changes, so it reads the
    status the event arrived in. *)
Definition Apply (deal : ClientDealState) (evt : ClientEvent)
  : ApplyResult ClientDealState :=
  match destination DealStatus_eqb (ClientEvents evt) (Status deal) with
  | None => InvalidTransition
  | Some dest =>
      match action DealStatuses evt deal with
      | ActionPanic why => Panicked why
      | ActionOk deal' =>
          match dest with
          | To s => Applied (set_Status s deal')
          | ToNoChange => Applied deal'
          | ToJustRecord => Applied deal'
          end
      end
  end.

(** What a delivery of an event leaves behind. *)
Inductive Delivery : Type :=
| Terminated
| Dropped
| Transitioned (deal : ClientDealState)
| Crashed (why : string).

(** Modelled from the spec: the engine that runs the table (go-statemachine)
    is not among the sources.  The client is built with
    [FinalityStates: ClientFinalityStates]; a finality state is "a state from
    which no event is accepted" (Glossary) and "terminal (finality) states
    are absorbing" (section 2), so a deal in one receives nothing; elsewhere
    the event goes through the table, and "if the pair is absent, the event
    is dropped with a warning" (section 4.1). *)
Definition Send (deal : ClientDealState) (evt : ClientEvent) : Delivery :=
  if isFinalityState (Status deal) then Terminated
  else
    match Apply deal evt with
    | Applied deal' => Transitioned deal'
    | InvalidTransition => Dropped
    | Panicked why => Crashed why
    end.

(** The record after a delivery: what it was, unless the event was applied. *)
Definition after (deal : ClientDealState) (r : Delivery) : ClientDealState :=
  match r with
  | Transitioned deal' => deal'
  | _ => deal
  end.

(** Events delivered one after the other; a crash or a terminated deal ends
    the run. *)
Fixpoint deliverAll (deal : ClientDealState) (evts : list ClientEvent)
  : Delivery :=
  match evts with
  | [] => Transitioned deal
  | evt :: rest =>
      match Send deal evt with
      | Transitioned deal' => deliverAll deal' rest
      | Dropped => deliverAll deal rest
      | Terminated => Terminated
      | Crashed why => Crashed why
      end
  end.

End Machine.

(** A run of payments: each amount is first requested (the action of
    [ClientEventPaymentRequested]) and then sent. *)
Fixpoint payments (deal : ClientDealState) (owed : list TokenAmount)
  : ActionResult ClientDealState :=
  match owed with
  | [] => ActionOk deal
  | paymentOwed :: rest =>
      match onPaymentSent (addPaymentRequested paymentOwed deal) with
      | ActionOk deal' => payments deal' rest
      | ActionPanic why => ActionPanic why
      end
  end.

(** The payment ratchet as the specification words it (section 4.4), in
    unbounded arithmetic: [deal'] is [deal] after the five steps. *)
Definition ratchetSpec (deal deal' : ClientDealState) : Prop :=
  let paymentForUnsealing :=
    Z.min (PaymentRequested deal) (UnsealPrice deal - UnsealFundsPaid deal) in
  let bytesPaidFor :=
    (PaymentRequested deal - paymentForUnsealing) / PricePerByte deal in
  FundsSpent deal' = FundsSpent deal + PaymentRequested deal
  /\ CurrentInterval deal' =
       (if bytesPaidFor >=? CurrentInterval deal
        then CurrentInterval deal + PaymentIntervalIncrease deal
        else CurrentInterval deal)
  /\ BytesPaidFor deal' = BytesPaidFor deal + bytesPaidFor
  /\ UnsealFundsPaid deal' = UnsealFundsPaid deal + paymentForUnsealing
  /\ PaymentRequested deal' = 0.

(** The record [Client.Retrieve] starts a deal with (retrievalimpl). *)
Definition newClientDealState (payloadCID : Cid) (dealID : DealID)
  (pricePerByte : TokenAmount) (paymentInterval paymentIntervalIncrease : Z)
  (unsealPrice totalFunds : TokenAmount) (sender : PeerID)
  (clientWallet minerWallet : address.Address) (storeID : option Z)
  : ClientDealState :=
  {| PayloadCID := payloadCID;
     ID := dealID;
     PricePerByte := pricePerByte;
     PaymentInterval := paymentInterval;
     PaymentIntervalIncrease := paymentIntervalIncrease;
     UnsealPrice := unsealPrice;
     StoreID := storeID;
     ChannelID := datatransfer.noChannel;
     LastPaymentRequested := false;
     AllBlocksReceived := false;
     TotalFunds := totalFunds;
     ClientWallet := clientWallet;
     MinerWallet := minerWallet;
     PaymentInfo := None;
     Status := DealStatusNew;
     Sender := sender;
     TotalReceived := 0;
     Message := "";
     BytesPaidFor := 0;
     CurrentInterval := paymentInterval;
     PaymentRequested := 0;
     FundsSpent := 0;
     UnsealFundsPaid := 0;
     WaitMsgCID := None;
     LegacyProtocol := false |}.

(** The type invariant of the [uint64] fields. *)
Definition uint64Fields (deal : ClientDealState) : Prop :=
  Uint64.inRange (PaymentInterval deal)
  /\ Uint64.inRange (PaymentIntervalIncrease deal)
  /\ Uint64.inRange (TotalReceived deal)
  /\ Uint64.inRange (BytesPaidFor deal)
  /\ Uint64.inRange (CurrentInterval deal).

End clientstates.

(** ** Storage market: proposals and the provider's deal record *)

Module abi.

(** [abi.ChainEpoch] is an [int64], [abi.PaddedPieceSize] and [abi.DealID]
    are [uint64]. *)
Definition ChainEpoch : Type := Z.
Definition PaddedPieceSize : Type := Z.
Definition DealID : Type := Z.
Definition SectorNumber : Type := Z.

End abi.

Module exitcode.

Definition ExitCode : Type := Z.
Definition Ok : ExitCode := 0.

End exitcode.

Module market.

(** [market.DealProposal] (specs-actors); the token amounts are the non-nil
    big integers a decoded proposal holds. *)
Record DealProposal : Type := mkDealProposal {
  PieceCID : Cid;
  PieceSize : abi.PaddedPieceSize;
  VerifiedDeal : bool;
  Client : address.Address;
  Provider : address.Address;
  Label : string;
  StartEpoch : abi.ChainEpoch;
  EndEpoch : abi.ChainEpoch;
  StoragePricePerEpoch : TokenAmount;
  ProviderCollateral : TokenAmount;
  ClientCollateral : TokenAmount
}.

(** [market.PublishStorageDealsReturn]. *)
Record PublishStorageDealsReturn : Type := mkPublishStorageDealsReturn {
  IDs : list abi.DealID
}.

End market.

Module filestore.

Definition Path : Type := string.

Record File : Type := mkFile {
  FilePath : Path;
  Size : Z
}.

End filestore.

Module storagemarket.

Definition Signature : Type := string.
Definition TipSetToken : Type := string.

(** The provider-side deal states of section 4.2. *)
Inductive StorageDealStatus : Type :=
| StorageDealUnknown
| StorageDealValidating
| StorageDealAcceptWait
| StorageDealWaitingForData
| StorageDealTransferring
| StorageDealVerifyData
| StorageDealReserveProviderFunds
| StorageDealProviderFunding
| StorageDealPublish
| StorageDealPublishing
| StorageDealStaged
| StorageDealAwaitingPreCommit
| StorageDealSealing
| StorageDealFinalizing
| StorageDealActive
| StorageDealExpired
| StorageDealSlashed
| StorageDealRejecting
| StorageDealFailing
| StorageDealError.

Definition StorageDealStatus_eq_dec (a b : StorageDealStatus)
  : {a = b} + {a <> b}.
Proof. decide equality. Defined.

Definition StorageDealStatus_eqb (a b : StorageDealStatus) : bool :=
  if StorageDealStatus_eq_dec a b then true else false.

Record DataRef : Type := mkDataRef {
  TransferType : string;
  Root : Cid
}.

Record StorageAsk : Type := mkStorageAsk {
  Price : TokenAmount;
  VerifiedPrice : TokenAmount;
  MinPieceSize : abi.PaddedPieceSize;
  MaxPieceSize : abi.PaddedPieceSize
}.

Record Balance : Type := mkBalance {
  Locked : TokenAmount;
  Available : TokenAmount
}.

Record PackingResult : Type := mkPackingResult {
  PackedSectorNumber : abi.SectorNumber;
  Offset : abi.PaddedPieceSize;
  PackedSize : abi.PaddedPieceSize
}.

(** [MinerDeal].  [ClientDealProposal] is flattened into [Proposal] and
    [ClientSignature]; [FundsReserved] is a token amount that may be nil;
    [AddFundsCid], [PublishCid], [StoreID] and [TransferChannelId] are
    pointers. *)
Record MinerDeal : Type := mkMinerDeal {
  Proposal : market.DealProposal;
  ClientSignature : Signature;
  ProposalCid : Cid;
  AddFundsCid : option Cid;
  PublishCid : option Cid;
  Miner : PeerID;
  Client : PeerID;
  State : StorageDealStatus;
  PiecePath : filestore.Path;
  MetadataPath : filestore.Path;
  SlashEpoch : abi.ChainEpoch;
  FastRetrieval : bool;
  Message : string;
  StoreID : option Z;
  FundsReserved : option TokenAmount;
  Ref : DataRef;
  AvailableForRetrieval : bool;
  DealID : abi.DealID;
  TransferChannelId : option datatransfer.ChannelID;
  SectorNumber : abi.SectorNumber
}.

(** Field assignment [deal.F = v]. *)
Definition set_AddFundsCid (v : option Cid) (d : MinerDeal) : MinerDeal :=
  mkMinerDeal (Proposal d) (ClientSignature d) (ProposalCid d) v
    (PublishCid d) (Miner d) (Client d) (State d) (PiecePath d)
    (MetadataPath d) (SlashEpoch d) (FastRetrieval d) (Message d) (StoreID d)
    (FundsReserved d) (Ref d) (AvailableForRetrieval d) (DealID d)
    (TransferChannelId d) (SectorNumber d).

Definition set_PublishCid (v : option Cid) (d : MinerDeal) : MinerDeal :=
  mkMinerDeal (Proposal d) (ClientSignature d) (ProposalCid d) (AddFundsCid d)
    v (Miner d) (Client d) (State d) (PiecePath d) (MetadataPath d)
    (SlashEpoch d) (FastRetrieval d) (Message d) (StoreID d) (FundsReserved d)
    (Ref d) (AvailableForRetrieval d) (DealID d) (TransferChannelId d)
    (SectorNumber d).

Definition set_State (v : StorageDealStatus) (d : MinerDeal) : MinerDeal :=
  mkMinerDeal (Proposal d) (ClientSignature d) (ProposalCid d) (AddFundsCid d)
    (PublishCid d) (Miner d) (Client d) v (PiecePath d) (MetadataPath d)
    (SlashEpoch d) (FastRetrieval d) (Message d) (StoreID d) (FundsReserved d)
    (Ref d) (AvailableForRetrieval d) (DealID d) (TransferChannelId d)
    (SectorNumber d).

Definition set_PiecePath (v : filestore.Path) (d : MinerDeal) : MinerDeal :=
  mkMinerDeal (Proposal d) (ClientSignature d) (ProposalCid d) (AddFundsCid d)
    (PublishCid d) (Miner d) (Client d) (State d) v (MetadataPath d)
    (SlashEpoch d) (FastRetrieval d) (Message d) (StoreID d) (FundsReserved d)
    (Ref d) (AvailableForRetrieval d) (DealID d) (TransferChannelId d)
    (SectorNumber d).

Definition set_MetadataPath (v : filestore.Path) (d : MinerDeal) : MinerDeal :=
  mkMinerDeal (Proposal d) (ClientSignature d) (ProposalCid d) (AddFundsCid d)
    (PublishCid d) (Miner d) (Client d) (State d) (PiecePath d) v
    (SlashEpoch d) (FastRetrieval d) (Message d) (StoreID d) (FundsReserved d)
    (Ref d) (AvailableForRetrieval d) (DealID d) (TransferChannelId d)
    (SectorNumber d).

Definition set_SlashEpoch (v : abi.ChainEpoch) (d : MinerDeal) : MinerDeal :=
  mkMinerDeal (Proposal d) (ClientSignature d) (ProposalCid d) (AddFundsCid d)
    (PublishCid d) (Miner d) (Client d) (State d) (PiecePath d)
    (MetadataPath d) v (FastRetrieval d) (Message d) (StoreID d)
    (FundsReserved d) (Ref d) (AvailableForRetrieval d) (DealID d)
    (TransferChannelId d) (SectorNumber d).

Definition set_Message (v : string) (d : MinerDeal) : MinerDeal :=
  mkMinerDeal (Proposal d) (ClientSignature d) (ProposalCid d) (AddFundsCid d)
    (PublishCid d) (Miner d) (Client d) (State d) (PiecePath d)
    (MetadataPath d) (SlashEpoch d) (FastRetrieval d) v (StoreID d)
    (FundsReserved d) (Ref d) (AvailableForRetrieval d) (DealID d)
    (TransferChannelId d) (SectorNumber d).

Definition set_FundsReserved (v : option TokenAmount) (d : MinerDeal) : MinerDeal :=
  mkMinerDeal (Proposal d) (ClientSignature d) (ProposalCid d) (AddFundsCid d)
    (PublishCid d) (Miner d) (Client d) (State d) (PiecePath d)
    (MetadataPath d) (SlashEpoch d) (FastRetrieval d) (Message d) (StoreID d)
    v (Ref d) (AvailableForRetrieval d) (DealID d) (TransferChannelId d)
    (SectorNumber d).

Definition set_AvailableForRetrieval (v : bool) (d : MinerDeal) : MinerDeal :=
  mkMinerDeal (Proposal d) (ClientSignature d) (ProposalCid d) (AddFundsCid d)
    (PublishCid d) (Miner d) (Client d) (State d) (PiecePath d)
    (MetadataPath d) (SlashEpoch d) (FastRetrieval d) (Message d) (StoreID d)
    (FundsReserved d) (Ref d) v (DealID d) (TransferChannelId d)
    (SectorNumber d).

Definition set_DealID (v : abi.DealID) (d : MinerDeal) : MinerDeal :=
  mkMinerDeal (Proposal d) (ClientSignature d) (ProposalCid d) (AddFundsCid d)
    (PublishCid d) (Miner d) (Client d) (State d) (PiecePath d)
    (MetadataPath d) (SlashEpoch d) (FastRetrieval d) (Message d) (StoreID d)
    (FundsReserved d) (Ref d) (AvailableForRetrieval d) v
    (TransferChannelId d) (SectorNumber d).

Definition set_TransferChannelId (v : option datatransfer.ChannelID) (d : MinerDeal) : MinerDeal :=
  mkMinerDeal (Proposal d) (ClientSignature d) (ProposalCid d) (AddFundsCid d)
    (PublishCid d) (Miner d) (Client d) (State d) (PiecePath d)
    (MetadataPath d) (SlashEpoch d) (FastRetrieval d) (Message d) (StoreID d)
    (FundsReserved d) (Ref d) (AvailableForRetrieval d) (DealID d) v
    (SectorNumber d).

Definition set_SectorNumber (v : abi.SectorNumber) (d : MinerDeal) : MinerDeal :=
  mkMinerDeal (Proposal d) (ClientSignature d) (ProposalCid d) (AddFundsCid d)
    (PublishCid d) (Miner d) (Client d) (State d) (PiecePath d)
    (MetadataPath d) (SlashEpoch d) (FastRetrieval d) (Message d) (StoreID d)
    (FundsReserved d) (Ref d) (AvailableForRetrieval d) (DealID d)
    (TransferChannelId d) v.

(** The events the state handlers trigger, with their arguments, and the
    events of the data-transfer adapter (section 4.7). *)
Inductive ProviderEvent : Type :=
| ProviderEventOpen
| ProviderEventNodeErrored (err : error)
| ProviderEventDealRejected (err : error)
| ProviderEventDealDeciding
| ProviderEventRejectionSent
| ProviderEventDataRequested
| ProviderEventDataTransferInitiated (channelId : datatransfer.ChannelID)
| ProviderEventDataTransferCompleted
| ProviderEventDataTransferFailed (err : error)
| ProviderEventDataTransferRestartFailed (err : error)
| ProviderEventDataVerificationFailed (err : error)
    (path metadataPath : filestore.Path)
| ProviderEventVerifiedData (path metadataPath : filestore.Path)
| ProviderEventFundsReserved (fundsReserved : TokenAmount)
| ProviderEventFundsReleased (fundsReleased : TokenAmount)
| ProviderEventFundingInitiated (mcid : Cid)
| ProviderEventFunded
| ProviderEventDealPublishInitiated (mcid : Cid)
| ProviderEventDealPublishError (err : error)
| ProviderEventSendResponseFailed (err : error)
| ProviderEventDealPublished (dealID : abi.DealID) (finalCid : Cid)
| ProviderEventFileStoreErrored (err : error)
| ProviderEventDealHandoffFailed (err : error)
| ProviderEventPieceStoreErrored (err : error)
| ProviderEventDealHandedOff
| ProviderEventDealPrecommitFailed (err : error)
| ProviderEventDealPrecommitted (sectorNumber : abi.SectorNumber)
| ProviderEventDealActivationFailed (err : error)
| ProviderEventDealActivated
| ProviderEventFinalized
| ProviderEventDealCompletionFailed (err : error)
| ProviderEventDealExpired
| ProviderEventDealSlashed (slashEpoch : abi.ChainEpoch)
| ProviderEventFailed.

End storagemarket.

Module network.

(** [TagPriority] is the priority for deal streams. *)
Definition TagPriority : Z := 100.

(** [network.Response]. *)
Record Response : Type := mkResponse {
  ResponseState : storagemarket.StorageDealStatus;
  ResponseMessage : string;
  ResponseProposal : Cid
}.

(** What the connection manager of the libp2p host is asked to do. *)
Inductive ConnManagerCall : Type :=
| ConnTagPeer (p : PeerID) (tag : string) (priority : Z)
| ConnUntagPeer (p : PeerID) (tag : string).

(** [libp2pStorageMarketNetwork.TagPeer] and [UntagPeer]. *)
Definition TagPeer (p : PeerID) (id : string) : ConnManagerCall :=
  ConnTagPeer p id TagPriority.

Definition UntagPeer (p : PeerID) (id : string) : ConnManagerCall :=
  ConnUntagPeer p id.

End network.

(** ** The provider state handlers (package providerstates) *)

Module providerstates.

Import storagemarket.

(** [DealMaxLabelSize]. *)
Definition DealMaxLabelSize : Z := 256.

(** *** What a handler does

    A handler talks to its environment and to the machine's context; the
    log keeps, in order, every call that can be observed from outside and
    every event triggered. *)
Inductive Effect : Type :=
| EnvTagPeer (p : PeerID) (tag : string)
| EnvUntagPeer (p : PeerID) (tag : string)
| NodeGetChainHead
| NodeVerifySignature (signer : address.Address)
| NodeDealProviderCollateralBounds (size : abi.PaddedPieceSize)
    (isVerified : bool)
| NodeGetBalance (addr : address.Address)
| NodeGetDataCap (addr : address.Address)
| NodeGetMinerWorkerAddress (addr : address.Address)
| NodeReserveFunds (wallet addr : address.Address) (amt : TokenAmount)
| NodeReleaseFunds (addr : address.Address) (amt : TokenAmount)
| NodePublishDeals
| NodeWaitForMessage (mcid : Cid)
| NodeOnDealComplete (size : Z)
| NodeOnDealSectorPreCommitted (dealID : abi.DealID)
| NodeOnDealSectorCommitted (dealID : abi.DealID)
| NodeOnDealExpiredOrSlashed (dealID : abi.DealID)
| EnvRunCustomDecisionLogic
| EnvSendSignedResponse (resp : network.Response)
| EnvDisconnect (proposalCid : Cid)
| EnvGeneratePieceCommitment
| EnvGeneratePieceReader
| EnvRestartDataTransfer (chID : datatransfer.ChannelID)
| EnvDeleteStore (storeID : Z)
| FileStoreOpen (path : filestore.Path)
| FileStoreDelete (path : filestore.Path)
| ReaderClose
| LoadBlockLocations (path : filestore.Path)
| PieceStoreAddPieceBlockLocations (pieceCID : Cid)
| PieceStoreAddDealForPiece (pieceCID : Cid) (dealID : abi.DealID)
| Trigger (evt : ProviderEvent).

(** How a piece of handler code ends: it goes on with a value, the handler
    returns, or the goroutine panics. *)
Inductive Outcome (A : Type) : Type :=
| Next (a : A)
| Return
| Panic (why : string).

Arguments Next {A} a.
Arguments Return {A}.
Arguments Panic {A} why.

Definition M (A : Type) : Type := list Effect * Outcome A.

Definition ret {A : Type} (a : A) : M A := ([], Next a).

Definition bind {A B : Type} (m : M A) (k : A -> M B) : M B :=
  match m with
  | (log, Next a) => let (log', o) := k a in ((log ++ log')%list, o)
  | (log, Return) => (log, Return)
  | (log, Panic why) => (log, Panic why)
  end.

(** One observable call. *)
Definition call (e : Effect) : M unit := ([e], Next tt).

(** [return ctx.Trigger(evt, ...)]. *)
Definition returnTrigger {A : Type} (evt : ProviderEvent) : M A :=
  ([Trigger evt], Return).

(** [_ = ctx.Trigger(evt, ...)]: the handler goes on. *)
Definition trigger (evt : ProviderEvent) : M unit := ([Trigger evt], Next tt).

Definition panic {A : Type} (why : string) : M A := ([], Panic why).

Definition done {A : Type} : M A := ([], Return).

(** [v, err := f(...); if err != nil { return ctx.Trigger(evt(err)) }]. *)
Definition orTrigger {A : Type} (r : error + A) (evt : error -> ProviderEvent)
  : M A :=
  match r with
  | inl err => returnTrigger (evt err)
  | inr v => ret v
  end.

(** [if cond { return ctx.Trigger(evt) }]. *)
Definition triggerIf (cond : bool) (evt : ProviderEvent) : M unit :=
  if cond then returnTrigger evt else ret tt.

Definition when (cond : bool) (m : M unit) : M unit :=
  if cond then m else ret tt.

Declare Scope handler_scope.
Delimit Scope handler_scope with handler.

Notation "x <- m ;; k" := (bind m (fun x => k))
  (at level 61, m at next level, right associativity) : handler_scope.
Notation "' pat <- m ;; k" := (bind m (fun x => match x with pat => k end))
  (at level 61, pat pattern, m at next level, right associativity)
  : handler_scope.
Notation "m ;; k" := (bind m (fun _ => k))
  (at level 61, right associativity) : handler_scope.

#[local] Open Scope handler_scope.

(** The log and the outcome of a whole handler. *)
Definition logOf {A : Type} (m : M A) : list Effect := fst m.
Definition outcomeOf {A : Type} (m : M A) : Outcome A := snd m.

(** The events a log triggers, in order. *)
Definition triggered (log : list Effect) : list ProviderEvent :=
  flat_map (fun e => match e with Trigger evt => [evt] | _ => [] end) log.

(** *** The environment

    What the node answers when a handler waits on it: the callback is run
    with these arguments, or the call returns without running it. *)
Inductive WaitForMessageResult : Type :=
| Landed (code : exitcode.ExitCode)
    (retval : error + market.PublishStorageDealsReturn)
    (finalCid : Cid) (err : option error)
| NotCalledBack.

Inductive PreCommitResult : Type :=
| PreCommitSyncError (err : error)
| PreCommitCallback (sectorNumber : abi.SectorNumber) (isActive : bool)
    (err : option error)
| PreCommitPending.

Inductive CommitResult : Type :=
| CommitSyncError (err : error)
| CommitCallback (err : option error)
| CommitPending.

Inductive CompletionResult : Type :=
| CompletionSyncError (err : error)
| ExpiredCallback (err : option error)
| SlashedCallback (slashEpoch : abi.ChainEpoch) (err : option error)
| CompletionPending.

(** [storagemarket.StorageProviderNode].  [retval] of [Landed] is the
    receipt's bytes as [UnmarshalCBOR] reads them. *)
Record StorageProviderNode : Type := mkNode {
  GetChainHead : error + (TipSetToken * abi.ChainEpoch);
  VerifySignature :
    Signature -> address.Address -> market.DealProposal -> TipSetToken ->
    error + bool;
  DealProviderCollateralBounds :
    abi.PaddedPieceSize -> bool -> error + (TokenAmount * TokenAmount);
  GetBalance : address.Address -> TipSetToken -> error + Balance;
  GetDataCap : address.Address -> TipSetToken -> error + option big.Int;
  GetMinerWorkerAddress :
    address.Address -> TipSetToken -> error + address.Address;
  ReserveFunds :
    address.Address -> address.Address -> TokenAmount -> error + Cid;
  ReleaseFunds : address.Address -> TokenAmount -> option error;
  PublishDeals : MinerDeal -> error + Cid;
  WaitForMessage : Cid -> WaitForMessageResult;
  OnDealComplete : MinerDeal -> Z -> error + PackingResult;
  OnDealSectorPreCommitted : abi.DealID -> PreCommitResult;
  OnDealSectorCommitted : abi.DealID -> CommitResult;
  OnDealExpiredOrSlashed : abi.DealID -> CompletionResult
}.

(** How the write behind a piece reader ends: the context is done first, or
    the error channel delivers. *)
Inductive WriteResult : Type :=
| ContextDone
| WriteFinished (err : option error).

Record PieceReader : Type := mkPieceReader {
  ReaderSize : Z;
  CloseError : option error;
  WriteOutcome : WriteResult
}.

(** [ProviderDealEnvironment], the dependencies of every handler.
    [TagPeer] and [UntagPeer] answer nothing and are seen in the log only. *)
Record ProviderDealEnvironment : Type := mkEnvironment {
  RestartDataTransferChannel : datatransfer.ChannelID -> option error;
  Address : address.Address;
  Node : StorageProviderNode;
  Ask : StorageAsk;
  DeleteStore : Z -> option error;
  GeneratePieceCommitment : option Z -> Cid -> error + (Cid * filestore.Path);
  GeneratePieceReader : option Z -> Cid -> error + PieceReader;
  SendSignedResponse : network.Response -> option error;
  Disconnect : Cid -> option error;
  FileStoreOpenFile : filestore.Path -> error + filestore.File;
  FileStoreDeleteFile : filestore.Path -> option error;
  LoadBlockLocationsFrom : filestore.Path -> option error;
  AddPieceBlockLocations : Cid -> option error;
  AddDealForPiece : Cid -> abi.DealID -> option error;
  RunCustomDecisionLogic : MinerDeal -> bool * string * option error
}.

(** What the handlers take from the actors' libraries (specs-actors,
    go-state-types), which are no part of this repository. *)
Record Actors : Type := mkActors {
  PieceCIDPrefix : cid.PrefixT;
  Validate : abi.PaddedPieceSize -> option error;
  DealDurationBounds : abi.PaddedPieceSize -> abi.ChainEpoch * abi.ChainEpoch;
  Duration : market.DealProposal -> abi.ChainEpoch;
  ClientBalanceRequirement : market.DealProposal -> TokenAmount;
  ExitCodeString : exitcode.ExitCode -> string
}.

(** Modelled from the spec: [providerutils.VerifyProposal] is not among the
    sources.  Check 2 of section 4.5 reports a proposal whose signature does
    not verify as "could not verify signature"; an error of the verifier is
    passed on, as its sibling [clientutils.VerifyResponse] does. *)
Definition VerifyProposal (node : StorageProviderNode) (deal : MinerDeal)
  (tok : TipSetToken) : option error :=
  match VerifySignature node (ClientSignature deal)
          (market.Client (Proposal deal)) (Proposal deal) tok with
  | inl err => Some err
  | inr false => Some "could not verify signature"
  | inr true => None
  end.

Section Handlers.

Variable actors : Actors.

(** [ValidateDealProposal] validates a proposed deal against the provider
    criteria. *)
Definition ValidateDealProposal (environment : ProviderDealEnvironment)
  (deal : MinerDeal) : M unit :=
  let rejected (msg : string) := ProviderEventDealRejected msg in
  call (EnvTagPeer (Client deal) (cid.String (ProposalCid deal))) ;;
  call NodeGetChainHead ;;
  '(tok, curEpoch) <-
    orTrigger (GetChainHead (Node environment))
      (fun err => rejected ("node error getting most recent state id: " ++ err)) ;;
  call (NodeVerifySignature (market.Client (Proposal deal))) ;;
  orTrigger
    match VerifyProposal (Node environment) deal tok with
    | Some err => inl err
    | None => inr tt
    end
    (fun err => rejected ("verifying StorageDealProposal: " ++ err)) ;;
  let proposal := Proposal deal in
  triggerIf
    (negb (String.eqb (market.Provider proposal) (Address environment)))
    (rejected "incorrect provider for deal") ;;
  triggerIf
    (Z.of_nat (String.length (market.Label proposal)) >? DealMaxLabelSize)
    (rejected ("deal label can be at most " ++ big.String DealMaxLabelSize
               ++ " bytes, is "
               ++ big.String (Z.of_nat (String.length (market.Label proposal))))) ;;
  orTrigger
    match Validate actors (market.PieceSize proposal) with
    | Some err => inl err
    | None => inr tt
    end
    (fun err => rejected ("proposal piece size is invalid: " ++ err)) ;;
  triggerIf (negb (cid.Defined (market.PieceCID proposal)))
    (rejected "proposal PieceCID undefined") ;;
  triggerIf
    match market.PieceCID proposal with
    | cid.Of prefix _ => negb (cid.Prefix_eqb prefix (PieceCIDPrefix actors))
    | cid.Undef => false
    end
    (rejected "proposal PieceCID had wrong prefix") ;;
  triggerIf (market.EndEpoch proposal <=? market.StartEpoch proposal)
    (rejected "proposal end before proposal start") ;;
  triggerIf (curEpoch >? market.StartEpoch proposal)
    (rejected "deal start epoch has already elapsed") ;;
  let '(minDuration, maxDuration) :=
    DealDurationBounds actors (market.PieceSize proposal) in
  triggerIf
    ((Duration actors proposal <? minDuration)
     || (Duration actors proposal >? maxDuration))
    (rejected ("deal duration out of bounds (min, max, provided): "
               ++ big.String minDuration ++ ", " ++ big.String maxDuration
               ++ ", " ++ big.String (Duration actors proposal))) ;;
  call (NodeDealProviderCollateralBounds (market.PieceSize proposal)
          (market.VerifiedDeal proposal)) ;;
  '(pcMin, pcMax) <-
    orTrigger
      (DealProviderCollateralBounds (Node environment)
         (market.PieceSize proposal) (market.VerifiedDeal proposal))
      (fun err => rejected ("node error getting collateral bounds: " ++ err)) ;;
  triggerIf (big.LessThan (market.ProviderCollateral proposal) pcMin)
    (rejected ("proposed provider collateral below minimum: "
               ++ big.String (market.ProviderCollateral proposal)
               ++ " < " ++ big.String pcMin)) ;;
  triggerIf (big.GreaterThan (market.ProviderCollateral proposal) pcMax)
    (rejected ("proposed provider collateral above maximum: "
               ++ big.String (market.ProviderCollateral proposal)
               ++ " > " ++ big.String pcMax)) ;;
  let askPrice :=
    if market.VerifiedDeal (Proposal deal)
    then VerifiedPrice (Ask environment)
    else Price (Ask environment) in
  minPrice <-
    match big.Div
            (big.Mul askPrice (Int64.ofUint64 (market.PieceSize proposal)))
            (2 ^ 30) with
    | Some q => ret q
    | None => panic "division by zero"
    end ;;
  triggerIf (big.LessThan (market.StoragePricePerEpoch proposal) minPrice)
    (rejected ("storage price per epoch less than asking price: "
               ++ big.String (market.StoragePricePerEpoch proposal)
               ++ " < " ++ big.String minPrice)) ;;
  triggerIf (market.PieceSize proposal <? MinPieceSize (Ask environment))
    (rejected ("piece size less than minimum required size: "
               ++ big.String (market.PieceSize proposal) ++ " < "
               ++ big.String (MinPieceSize (Ask environment)))) ;;
  triggerIf (market.PieceSize proposal >? MaxPieceSize (Ask environment))
    (rejected ("piece size more than maximum allowed size: "
               ++ big.String (market.PieceSize proposal) ++ " > "
               ++ big.String (MaxPieceSize (Ask environment)))) ;;
  call (NodeGetBalance (market.Client proposal)) ;;
  clientMarketBalance <-
    orTrigger (GetBalance (Node environment) (market.Client proposal) tok)
      (fun err =>
         rejected ("node error getting client market balance failed: " ++ err)) ;;
  triggerIf
    (big.LessThan (Available clientMarketBalance)
       (ClientBalanceRequirement actors proposal))
    (rejected ("clientMarketBalance.Available too small: "
               ++ big.String (Available clientMarketBalance) ++ " < "
               ++ big.String (ClientBalanceRequirement actors proposal))) ;;
  when (market.VerifiedDeal proposal)
    (call (NodeGetDataCap (market.Client proposal)) ;;
     dataCap <-
       orTrigger (GetDataCap (Node environment) (market.Client proposal) tok)
         (fun err =>
            rejected ("node error fetching verified data cap: " ++ err)) ;;
     match dataCap with
     | None =>
         returnTrigger
           (rejected
              "node error fetching verified data cap: data cap missing -- client not verified")
     | Some dataCap =>
         let pieceSize := market.PieceSize proposal in
         triggerIf (big.LessThan dataCap pieceSize)
           (rejected
              "verified deal DataCap too small for proposed piece size")
     end) ;;
  returnTrigger ProviderEventDealDeciding.

(** [DecideOnProposal] allows custom decision logic to run before accepting
    a deal. *)
Definition DecideOnProposal (environment : ProviderDealEnvironment)
  (deal : MinerDeal) : M unit :=
  call EnvRunCustomDecisionLogic ;;
  let '(accept, reason, err) := RunCustomDecisionLogic environment deal in
  orTrigger
    match err with
    | Some e => inl e
    | None => inr tt
    end
    (fun e =>
       ProviderEventDealRejected ("custom deal decision logic failed: " ++ e)) ;;
  triggerIf (negb accept) (ProviderEventDealRejected reason) ;;
  let response :=
    network.mkResponse StorageDealWaitingForData "" (ProposalCid deal) in
  call (EnvSendSignedResponse response) ;;
  orTrigger
    match SendSignedResponse environment response with
    | Some e => inl e
    | None => inr tt
    end
    ProviderEventSendResponseFailed ;;
  call (EnvDisconnect (ProposalCid deal)) ;;
  returnTrigger ProviderEventDataRequested.

(** [VerifyData] verifies that data received for a deal matches the
    pieceCID in the proposal. *)
Definition VerifyData (environment : ProviderDealEnvironment)
  (deal : MinerDeal) : M unit :=
  call EnvGeneratePieceCommitment ;;
  '(pieceCid, metadataPath) <-
    orTrigger
      (GeneratePieceCommitment environment (StoreID deal) (Root (Ref deal)))
      (fun err =>
         ProviderEventDataVerificationFailed
           ("error generating CommP: " ++ err) "" "") ;;
  triggerIf (negb (cid.eqb pieceCid (market.PieceCID (Proposal deal))))
    (ProviderEventDataVerificationFailed
       "proposal CommP doesn't match calculated CommP" "" metadataPath) ;;
  returnTrigger (ProviderEventVerifiedData "" metadataPath).

(** [ReserveProviderFunds] adds funds, as needed, so the miner has adequate
    collateral for the deal. *)
Definition ReserveProviderFunds (environment : ProviderDealEnvironment)
  (deal : MinerDeal) : M unit :=
  let node := Node environment in
  call NodeGetChainHead ;;
  '(tok, _) <-
    orTrigger (GetChainHead node)
      (fun err => ProviderEventNodeErrored ("acquiring chain head: " ++ err)) ;;
  call (NodeGetMinerWorkerAddress (market.Provider (Proposal deal))) ;;
  waddr <-
    orTrigger
      (GetMinerWorkerAddress node (market.Provider (Proposal deal)) tok)
      (fun err => ProviderEventNodeErrored ("looking up miner worker: " ++ err)) ;;
  call (NodeReserveFunds waddr (market.Provider (Proposal deal))
          (market.ProviderCollateral (Proposal deal))) ;;
  mcid <-
    orTrigger
      (ReserveFunds node waddr (market.Provider (Proposal deal))
         (market.ProviderCollateral (Proposal deal)))
      (fun err => ProviderEventNodeErrored ("reserving funds: " ++ err)) ;;
  trigger
    (ProviderEventFundsReserved (market.ProviderCollateral (Proposal deal))) ;;
  triggerIf (negb (cid.Defined mcid)) ProviderEventFunded ;;
  returnTrigger (ProviderEventFundingInitiated mcid).

(** [WaitForFunding] waits for a message posted to add funds to appear on
    chain. *)
Definition WaitForFunding (environment : ProviderDealEnvironment)
  (deal : MinerDeal) : M unit :=
  match AddFundsCid deal with
  | None => panic "nil pointer dereference"
  | Some addFundsCid =>
      call (NodeWaitForMessage addFundsCid) ;;
      match WaitForMessage (Node environment) addFundsCid with
      | NotCalledBack => done
      | Landed code _ _ err =>
          orTrigger
            match err with
            | Some e => inl e
            | None => inr tt
            end
            (fun e => ProviderEventNodeErrored ("AddFunds errored: " ++ e)) ;;
          triggerIf (negb (code =? exitcode.Ok))
            (ProviderEventNodeErrored
               ("AddFunds exit code: " ++ ExitCodeString actors code)) ;;
          returnTrigger ProviderEventFunded
      end
  end.

(** [PublishDeal] sends a message to publish a deal on chain. *)
Definition PublishDeal (environment : ProviderDealEnvironment)
  (deal : MinerDeal) : M unit :=
  let smDeal :=
    mkMinerDeal (Proposal deal) (ClientSignature deal) (ProposalCid deal)
      None None "" (Client deal) (State deal) "" "" 0 false "" None None
      (Ref deal) false 0 None 0 in
  call NodePublishDeals ;;
  mcid <-
    orTrigger (PublishDeals (Node environment) smDeal)
      (fun err => ProviderEventNodeErrored ("publishing deal: " ++ err)) ;;
  returnTrigger (ProviderEventDealPublishInitiated mcid).

(** [RestartDataTransfer] restarts a data transfer that was earlier
    initiated by the client.  The goroutine it starts is run to its end
    here. *)
Definition RestartDataTransfer (environment : ProviderDealEnvironment)
  (deal : MinerDeal) : M unit :=
  match TransferChannelId deal with
  | None =>
      returnTrigger
        (ProviderEventDataTransferRestartFailed
           "channelId on provider deal is nil")
  | Some chID =>
      call (EnvRestartDataTransfer chID) ;;
      match RestartDataTransferChannel environment chID with
      | Some err =>
          trigger (ProviderEventDataTransferRestartFailed err) ;; done
      | None => done
      end
  end.

(** [releaseReservedFunds]: the funds are released when [FundsReserved] is
    neither nil nor zero; an error of the node is logged and nothing else. *)
Definition releaseReservedFunds (environment : ProviderDealEnvironment)
  (deal : MinerDeal) : M unit :=
  match FundsReserved deal with
  | None => ret tt
  | Some fundsReserved =>
      if negb (big.IsZero fundsReserved)
      then
        call (NodeReleaseFunds (market.Provider (Proposal deal))
                fundsReserved) ;;
        trigger (ProviderEventFundsReleased fundsReserved)
      else ret tt
  end.

(** [WaitForPublish] waits for the publish message on chain and sends the
    deal id back to the client.  [retval.IDs[0]] is evaluated when the last
    trigger is called, after the funds were released. *)
Definition WaitForPublish (environment : ProviderDealEnvironment)
  (deal : MinerDeal) : M unit :=
  match PublishCid deal with
  | None => panic "nil pointer dereference"
  | Some publishCid =>
      call (NodeWaitForMessage publishCid) ;;
      match WaitForMessage (Node environment) publishCid with
      | NotCalledBack => done
      | Landed code unmarshalled finalCid err =>
          orTrigger
            match err with
            | Some e => inl e
            | None => inr tt
            end
            (fun e =>
               ProviderEventDealPublishError
                 ("PublishStorageDeals errored: " ++ e)) ;;
          triggerIf (negb (code =? exitcode.Ok))
            (ProviderEventDealPublishError
               ("PublishStorageDeals exit code: "
                ++ ExitCodeString actors code)) ;;
          retval <-
            orTrigger unmarshalled
              (fun e =>
                 ProviderEventDealPublishError
                   ("PublishStorageDeals error unmarshalling result: " ++ e)) ;;
          releaseReservedFunds environment deal ;;
          match market.IDs retval with
          | [] => panic "index out of range [0] with length 0"
          | dealID :: _ =>
              returnTrigger (ProviderEventDealPublished dealID finalCid)
          end
      end
  end.

Definition handoffDeal (environment : ProviderDealEnvironment)
  (deal : MinerDeal) (size : Z) : M (error + PackingResult) :=
  call (NodeOnDealComplete size) ;;
  ret (OnDealComplete (Node environment)
         (mkMinerDeal (Proposal deal) (ClientSignature deal) (ProposalCid deal)
            None (PublishCid deal) "" (Client deal) (State deal) "" "" 0
            (FastRetrieval deal) "" None None (Ref deal) false (DealID deal)
            None 0)
         size).

Definition recordPiece (environment : ProviderDealEnvironment)
  (deal : MinerDeal) : M (option error) :=
  loaded <-
    (if negb (String.eqb (MetadataPath deal) "")
     then
       call (LoadBlockLocations (MetadataPath deal)) ;;
       ret (LoadBlockLocationsFrom environment (MetadataPath deal))
     else ret None) ;;
  match loaded with
  | Some err => ret (Some ("failed to load block locations: " ++ err))
  | None =>
      call (PieceStoreAddPieceBlockLocations
              (market.PieceCID (Proposal deal))) ;;
      match AddPieceBlockLocations environment
              (market.PieceCID (Proposal deal)) with
      | Some err =>
          ret (Some ("failed to add piece block locations: " ++ err))
      | None =>
          call (PieceStoreAddDealForPiece (market.PieceCID (Proposal deal))
                  (DealID deal)) ;;
          match AddDealForPiece environment
                  (market.PieceCID (Proposal deal)) (DealID deal) with
          | Some err => ret (Some ("failed to add deal for piece: " ++ err))
          | None => ret None
          end
      end
  end.

(** [HandoffDeal] hands off a published deal for sealing and commitment in
    a sector. *)
Definition HandoffDeal (environment : ProviderDealEnvironment)
  (deal : MinerDeal) : M unit :=
  packing <-
    (if negb (String.eqb (PiecePath deal) "")
     then
       call (FileStoreOpen (PiecePath deal)) ;;
       file <-
         orTrigger (FileStoreOpenFile environment (PiecePath deal))
           (fun err =>
              ProviderEventFileStoreErrored
                ("reading piece at path " ++ PiecePath deal ++ ": " ++ err)) ;;
       handoffDeal environment deal (filestore.Size file)
     else
       call EnvGeneratePieceReader ;;
       pieceReader <-
         orTrigger
           (GeneratePieceReader environment (StoreID deal) (Root (Ref deal)))
           ProviderEventDealHandoffFailed ;;
       packing <- handoffDeal environment deal (ReaderSize pieceReader) ;;
       call ReaderClose ;;
       orTrigger
         match CloseError pieceReader with
         | Some e => inl e
         | None => inr tt
         end
         ProviderEventDealHandoffFailed ;;
       match WriteOutcome pieceReader with
       | ContextDone =>
           returnTrigger (ProviderEventDealHandoffFailed "write never finished")
       | WriteFinished (Some e) =>
           returnTrigger (ProviderEventDealHandoffFailed e)
       | WriteFinished None => ret packing
       end) ;;
  _ <- orTrigger packing ProviderEventDealHandoffFailed ;;
  recorded <- recordPiece environment deal ;;
  match recorded with
  | Some err => trigger (ProviderEventPieceStoreErrored err)
  | None => ret tt
  end ;;
  returnTrigger ProviderEventDealHandedOff.

(** [CleanupDeal] clears the filestore once the data is in a sealed
    sector. *)
Definition CleanupDeal (environment : ProviderDealEnvironment)
  (deal : MinerDeal) : M unit :=
  when (negb (String.eqb (PiecePath deal) ""))
    (call (FileStoreDelete (PiecePath deal))) ;;
  when (negb (String.eqb (MetadataPath deal) ""))
    (call (FileStoreDelete (MetadataPath deal))) ;;
  match StoreID deal with
  | Some storeID => call (EnvDeleteStore storeID)
  | None => ret tt
  end ;;
  returnTrigger ProviderEventFinalized.

(** [VerifyDealPreCommitted] verifies that a deal has been pre-committed. *)
Definition VerifyDealPreCommitted (environment : ProviderDealEnvironment)
  (deal : MinerDeal) : M unit :=
  call (NodeOnDealSectorPreCommitted (DealID deal)) ;;
  match OnDealSectorPreCommitted (Node environment) (DealID deal) with
  | PreCommitSyncError err =>
      returnTrigger (ProviderEventDealPrecommitFailed err)
  | PreCommitCallback _ _ (Some err) =>
      trigger (ProviderEventDealPrecommitFailed err) ;; done
  | PreCommitCallback _ true None =>
      trigger ProviderEventDealActivated ;; done
  | PreCommitCallback sectorNumber false None =>
      trigger (ProviderEventDealPrecommitted sectorNumber) ;; done
  | PreCommitPending => done
  end.

(** [VerifyDealActivated] verifies that a deal has been committed to a
    sector and activated. *)
Definition VerifyDealActivated (environment : ProviderDealEnvironment)
  (deal : MinerDeal) : M unit :=
  call (NodeOnDealSectorCommitted (DealID deal)) ;;
  match OnDealSectorCommitted (Node environment) (DealID deal) with
  | CommitSyncError err =>
      returnTrigger (ProviderEventDealActivationFailed err)
  | CommitCallback (Some err) =>
      trigger (ProviderEventDealActivationFailed err) ;; done
  | CommitCallback None => trigger ProviderEventDealActivated ;; done
  | CommitPending => done
  end.

(** [WaitForDealCompletion] waits for the deal to be slashed or to expire. *)
Definition WaitForDealCompletion (environment : ProviderDealEnvironment)
  (deal : MinerDeal) : M unit :=
  call (EnvUntagPeer (Client deal) (cid.String (ProposalCid deal))) ;;
  call (NodeOnDealExpiredOrSlashed (DealID deal)) ;;
  match OnDealExpiredOrSlashed (Node environment) (DealID deal) with
  | CompletionSyncError err =>
      returnTrigger (ProviderEventDealCompletionFailed err)
  | ExpiredCallback (Some err) =>
      trigger (ProviderEventDealCompletionFailed
                 ("deal expiration err: " ++ err)) ;; done
  | ExpiredCallback None => trigger ProviderEventDealExpired ;; done
  | SlashedCallback _ (Some err) =>
      trigger (ProviderEventDealCompletionFailed
                 ("deal slashing err: " ++ err)) ;; done
  | SlashedCallback slashEpoch None =>
      trigger (ProviderEventDealSlashed slashEpoch) ;; done
  | CompletionPending => done
  end.

(** [RejectDeal] sends a failure response before terminating a deal. *)
Definition RejectDeal (environment : ProviderDealEnvironment)
  (deal : MinerDeal) : M unit :=
  let response :=
    network.mkResponse StorageDealFailing (Message deal) (ProposalCid deal) in
  call (EnvSendSignedResponse response) ;;
  orTrigger
    match SendSignedResponse environment response with
    | Some e => inl e
    | None => inr tt
    end
    ProviderEventSendResponseFailed ;;
  call (EnvDisconnect (ProposalCid deal)) ;;
  returnTrigger ProviderEventRejectionSent.

(** [FailDeal] cleans up before terminating a deal. *)
Definition FailDeal (environment : ProviderDealEnvironment)
  (deal : MinerDeal) : M unit :=
  call (EnvUntagPeer (Client deal) (cid.String (ProposalCid deal))) ;;
  when (negb (String.eqb (PiecePath deal) ""))
    (call (FileStoreDelete (PiecePath deal))) ;;
  when (negb (String.eqb (MetadataPath deal) ""))
    (call (FileStoreDelete (MetadataPath deal))) ;;
  match StoreID deal with
  | Some storeID => call (EnvDeleteStore storeID)
  | None => ret tt
  end ;;
  releaseReservedFunds environment deal ;;
  returnTrigger ProviderEventFailed.

End Handlers.

End providerstates.

(** ** The admission policy as the specification orders it (section 4.5)

    Every check is what the specification says must hold, the message the
    rejection carries when it does not, and what evaluating it asks of the
    node.  Where section 4.5 gives no message (checks 10, 12, 13, 14) or
    only its beginning (checks 1, 9), the text is the one the handler
    writes. *)

Module policy.

Import storagemarket providerstates.

Record Check : Type := mkCheck {
  holds : bool;
  message : string;
  asks : list Effect
}.

(** The first failing check decides; when none fails the deal goes on to
    the decision. *)
Definition verdict (checks : list Check) : ProviderEvent :=
  match find (fun c => negb (holds c)) checks with
  | Some c => ProviderEventDealRejected (message c)
  | None => ProviderEventDealDeciding
  end.

(** What is asked of the node when checks are evaluated in order and no
    check is evaluated after the first that fails. *)
Fixpoint evaluated (checks : list Check) : list Effect :=
  match checks with
  | [] => []
  | c :: rest => (asks c ++ (if holds c then evaluated rest else []))%list
  end.

(** The whole run of the policy on a proposal: the peer is tagged, the
    checks are evaluated, the verdict is triggered. *)
Definition run (deal : MinerDeal) (checks : list Check) : M unit :=
  ((EnvTagPeer (Client deal) (cid.String (ProposalCid deal))
    :: evaluated checks ++ [Trigger (verdict checks)])%list,
   Return).

Section Checks.

Variable actors : Actors.
Variable environment : ProviderDealEnvironment.
Variable deal : MinerDeal.

Definition proposal : market.DealProposal := Proposal deal.
Definition node : StorageProviderNode := Node environment.

(** The chain head, when the node gives one. *)
Definition tok : TipSetToken :=
  match GetChainHead node with
  | inr (t, _) => t
  | inl _ => ""
  end.

Definition curEpoch : abi.ChainEpoch :=
  match GetChainHead node with
  | inr (_, e) => e
  | inl _ => 0
  end.

Definition askPrice : TokenAmount :=
  if market.VerifiedDeal proposal
  then VerifiedPrice (Ask environment)
  else Price (Ask environment).

(** 1. Chain head retrievable. *)
Definition check1 : Check :=
  {| holds := match GetChainHead node with inr _ => true | inl _ => false end;
     message :=
       "node error getting most recent state id: "
       ++ match GetChainHead node with inl err => err | inr _ => "" end;
     asks := [NodeGetChainHead] |}.

(** 2. Proposal signature verifies. *)
Definition check2 : Check :=
  {| holds :=
       match VerifyProposal node deal tok with
       | None => true
       | Some _ => false
       end;
     message := "verifying StorageDealProposal: could not verify signature";
     asks := [NodeVerifySignature (market.Client proposal)] |}.

(** 3. [proposal.Provider == self.Address]. *)
Definition check3 : Check :=
  {| holds := String.eqb (market.Provider proposal) (Address environment);
     message := "incorrect provider for deal";
     asks := [] |}.

(** 4. [len(Label) <= 256]. *)
Definition check4 : Check :=
  {| holds := Z.of_nat (String.length (market.Label proposal)) <=? 256;
     message :=
       "deal label can be at most 256 bytes, is "
       ++ big.String (Z.of_nat (String.length (market.Label proposal)));
     asks := [] |}.

(** 5. [PieceSize.Validate()]. *)
Definition check5 : Check :=
  {| holds :=
       match Validate actors (market.PieceSize proposal) with
       | None => true
       | Some _ => false
       end;
     message :=
       "proposal piece size is invalid: padded piece size must be a power of 2";
     asks := [] |}.

(** 6. [PieceCID] defined and has expected prefix. *)
Definition check6 : Check :=
  {| holds :=
       match market.PieceCID proposal with
       | cid.Of prefix _ => cid.Prefix_eqb prefix (PieceCIDPrefix actors)
       | cid.Undef => false
       end;
     message := "proposal PieceCID had wrong prefix";
     asks := [] |}.

(** 7. [EndEpoch > StartEpoch]. *)
Definition check7 : Check :=
  {| holds := market.EndEpoch proposal >? market.StartEpoch proposal;
     message := "proposal end before proposal start";
     asks := [] |}.

(** 8. [StartEpoch > curEpoch]. *)
Definition check8 : Check :=
  {| holds := market.StartEpoch proposal >? curEpoch;
     message := "deal start epoch has already elapsed";
     asks := [] |}.

(** 9. [Duration] within [[min, max]]. *)
Definition check9 : Check :=
  let bounds := DealDurationBounds actors (market.PieceSize proposal) in
  {| holds :=
       (fst bounds <=? Duration actors proposal)
       && (Duration actors proposal <=? snd bounds);
     message :=
       "deal duration out of bounds (min, max, provided): "
       ++ big.String (fst bounds) ++ ", " ++ big.String (snd bounds)
       ++ ", " ++ big.String (Duration actors proposal);
     asks := [] |}.

(** 10. Provider collateral within chain-derived bounds. *)
Definition check10 : Check :=
  let collateral := market.ProviderCollateral proposal in
  let bounds :=
    DealProviderCollateralBounds node (market.PieceSize proposal)
      (market.VerifiedDeal proposal) in
  {| holds :=
       match bounds with
       | inr (pcMin, pcMax) => (pcMin <=? collateral) && (collateral <=? pcMax)
       | inl _ => false
       end;
     message :=
       match bounds with
       | inl err => "node error getting collateral bounds: " ++ err
       | inr (pcMin, pcMax) =>
           if collateral <? pcMin
           then "proposed provider collateral below minimum: "
                ++ big.String collateral ++ " < " ++ big.String pcMin
           else "proposed provider collateral above maximum: "
                ++ big.String collateral ++ " > " ++ big.String pcMax
       end;
     asks :=
       [NodeDealProviderCollateralBounds (market.PieceSize proposal)
          (market.VerifiedDeal proposal)] |}.

(** 11. [StoragePricePerEpoch >= ask.Price * PieceSize / 2^30], using the
    verified ask price if [VerifiedDeal]. *)
Definition check11 : Check :=
  let minPrice := askPrice * market.PieceSize proposal / 2 ^ 30 in
  {| holds := market.StoragePricePerEpoch proposal >=? minPrice;
     message :=
       "storage price per epoch less than asking price: "
       ++ big.String (market.StoragePricePerEpoch proposal)
       ++ " < " ++ big.String minPrice;
     asks := [] |}.

(** 12. [MinPieceSize <= PieceSize <= MaxPieceSize]. *)
Definition check12 : Check :=
  let size := market.PieceSize proposal in
  {| holds :=
       (MinPieceSize (Ask environment) <=? size)
       && (size <=? MaxPieceSize (Ask environment));
     message :=
       if size <? MinPieceSize (Ask environment)
       then "piece size less than minimum required size: "
            ++ big.String size ++ " < "
            ++ big.String (MinPieceSize (Ask environment))
       else "piece size more than maximum allowed size: "
            ++ big.String size ++ " > "
            ++ big.String (MaxPieceSize (Ask environment));
     asks := [] |}.

(** 13. [clientMarketBalance.Available >=
    proposal.ClientBalanceRequirement()]. *)
Definition check13 : Check :=
  let balance := GetBalance node (market.Client proposal) tok in
  {| holds :=
       match balance with
       | inr b => Available b >=? ClientBalanceRequirement actors proposal
       | inl _ => false
       end;
     message :=
       match balance with
       | inl err => "node error getting client market balance failed: " ++ err
       | inr b =>
           "clientMarketBalance.Available too small: "
           ++ big.String (Available b) ++ " < "
           ++ big.String (ClientBalanceRequirement actors proposal)
       end;
     asks := [NodeGetBalance (market.Client proposal)] |}.

(** 14. If [VerifiedDeal]: DataCap fetched non-nil and [>= PieceSize]. *)
Definition check14 : Check :=
  let dataCap := GetDataCap node (market.Client proposal) tok in
  {| holds :=
       if market.VerifiedDeal proposal
       then match dataCap with
            | inr (Some cap) => cap >=? market.PieceSize proposal
            | _ => false
            end
       else true;
     message :=
       match dataCap with
       | inl err => "node error fetching verified data cap: " ++ err
       | inr None =>
           "node error fetching verified data cap: data cap missing -- client not verified"
       | inr (Some _) =>
           "verified deal DataCap too small for proposed piece size"
       end;
     asks :=
       if market.VerifiedDeal proposal
       then [NodeGetDataCap (market.Client proposal)]
       else [] |}.

(** The reference validation of section 4.5, in its order. *)
Definition specChecks : list Check :=
  [ check1; check2; check3; check4; check5; check6; check7;
    check8; check9; check10; check11; check12; check13; check14 ].

(** *** The four checks the handler reads differently *)

(** 2. The rejection carries the verification error, whatever it is. *)
Definition check2Amended : Check :=
  {| holds := holds check2;
     message :=
       "verifying StorageDealProposal: "
       ++ match VerifyProposal node deal tok with
          | Some err => err
          | None => ""
          end;
     asks := asks check2 |}.

(** 5. The rejection carries the validation error, whatever it is. *)
Definition check5Amended : Check :=
  {| holds := holds check5;
     message :=
       "proposal piece size is invalid: "
       ++ match Validate actors (market.PieceSize proposal) with
          | Some err => err
          | None => ""
          end;
     asks := [] |}.

(** 6. An undefined [PieceCID] has a message of its own. *)
Definition check6Amended : Check :=
  {| holds := holds check6;
     message :=
       if cid.Defined (market.PieceCID proposal)
       then "proposal PieceCID had wrong prefix"
       else "proposal PieceCID undefined";
     asks := [] |}.

(** 8. [StartEpoch >= curEpoch]: a deal that starts in the current epoch
    has not elapsed. *)
Definition check8Amended : Check :=
  {| holds := market.StartEpoch proposal >=? curEpoch;
     message := "deal start epoch has already elapsed";
     asks := [] |}.

Definition amendedChecks : list Check :=
  [ check1; check2Amended; check3; check4; check5Amended; check6Amended;
    check7; check8Amended; check9; check10; check11; check12; check13;
    check14 ].

(** 11 as the handler computes it: the piece size goes through [int64]
    before the multiplication. *)
Definition check11Computed : Check :=
  let minPrice :=
    askPrice * Int64.ofUint64 (market.PieceSize proposal) / 2 ^ 30 in
  {| holds := market.StoragePricePerEpoch proposal >=? minPrice;
     message :=
       "storage price per epoch less than asking price: "
       ++ big.String (market.StoragePricePerEpoch proposal)
       ++ " < " ++ big.String minPrice;
     asks := [] |}.

Definition computedChecks : list Check :=
  [ check1; check2Amended; check3; check4; check5Amended; check6Amended;
    check7; check8Amended; check9; check10; check11Computed; check12;
    check13; check14 ].

End Checks.

End policy.

(** ** The provider's transition table *)

Module providerfsm.

Import storagemarket providerstates fsm.

(** Modelled from the spec: [ProviderEvents] (provider_fsm.go) is not among
    the sources.  The clauses are the transitions of section 4.2: the happy
    path state by state, "any rejection goes to Rejecting", "any fatal error
    from any state routes to Failing", Failing "terminates at Error"; the
    accounting events "just record".  Where a test of the handlers pins a
    destination the test is followed: a failed wait for completion takes an
    Active deal straight to Error (TestWaitForDealCompletion). *)
Definition ProviderEvents (evt : ProviderEvent)
  : list (Source StorageDealStatus * Dest StorageDealStatus) :=
  match evt with
  | ProviderEventOpen =>
      [ (From StorageDealUnknown, To StorageDealValidating) ]
  | ProviderEventNodeErrored _ =>
      [ (FromAny, To StorageDealFailing) ]
  | ProviderEventDealRejected _ =>
      [ (FromMany [StorageDealValidating; StorageDealAcceptWait],
         To StorageDealRejecting) ]
  | ProviderEventDealDeciding =>
      [ (From StorageDealValidating, To StorageDealAcceptWait) ]
  | ProviderEventRejectionSent =>
      [ (From StorageDealRejecting, To StorageDealFailing) ]
  | ProviderEventDataRequested =>
      [ (From StorageDealAcceptWait, To StorageDealWaitingForData) ]
  | ProviderEventDataTransferInitiated _ =>
      [ (From StorageDealWaitingForData, To StorageDealTransferring) ]
  | ProviderEventDataTransferCompleted =>
      [ (From StorageDealTransferring, To StorageDealVerifyData) ]
  | ProviderEventDataTransferFailed _ =>
      [ (From StorageDealTransferring, To StorageDealFailing) ]
  | ProviderEventDataTransferRestartFailed _ =>
      [ (From StorageDealTransferring, To StorageDealFailing) ]
  | ProviderEventDataVerificationFailed _ _ _ =>
      [ (From StorageDealVerifyData, To StorageDealFailing) ]
  | ProviderEventVerifiedData _ _ =>
      [ (From StorageDealVerifyData, To StorageDealReserveProviderFunds) ]
  | ProviderEventFundsReserved _ =>
      [ (From StorageDealReserveProviderFunds, ToJustRecord) ]
  | ProviderEventFundsReleased _ =>
      [ (FromMany [StorageDealPublishing; StorageDealFailing], ToJustRecord) ]
  | ProviderEventFundingInitiated _ =>
      [ (From StorageDealReserveProviderFunds, To StorageDealProviderFunding) ]
  | ProviderEventFunded =>
      [ (FromMany [StorageDealReserveProviderFunds;
                   StorageDealProviderFunding],
         To StorageDealPublish) ]
  | ProviderEventDealPublishInitiated _ =>
      [ (From StorageDealPublish, To StorageDealPublishing) ]
  | ProviderEventDealPublishError _ =>
      [ (From StorageDealPublishing, To StorageDealFailing) ]
  | ProviderEventSendResponseFailed _ =>
      [ (FromMany [StorageDealAcceptWait; StorageDealRejecting],
         To StorageDealFailing) ]
  | ProviderEventDealPublished _ _ =>
      [ (From StorageDealPublishing, To StorageDealStaged) ]
  | ProviderEventFileStoreErrored _ =>
      [ (From StorageDealStaged, To StorageDealFailing) ]
  | ProviderEventDealHandoffFailed _ =>
      [ (From StorageDealStaged, To StorageDealFailing) ]
  | ProviderEventPieceStoreErrored _ =>
      [ (From StorageDealStaged, ToJustRecord) ]
  | ProviderEventDealHandedOff =>
      [ (From StorageDealStaged, To StorageDealAwaitingPreCommit) ]
  | ProviderEventDealPrecommitFailed _ =>
      [ (From StorageDealAwaitingPreCommit, To StorageDealFailing) ]
  | ProviderEventDealPrecommitted _ =>
      [ (From StorageDealAwaitingPreCommit, To StorageDealSealing) ]
  | ProviderEventDealActivationFailed _ =>
      [ (From StorageDealSealing, To StorageDealFailing) ]
  | ProviderEventDealActivated =>
      [ (FromMany [StorageDealAwaitingPreCommit; StorageDealSealing],
         To StorageDealFinalizing) ]
  | ProviderEventFinalized =>
      [ (From StorageDealFinalizing, To StorageDealActive) ]
  | ProviderEventDealCompletionFailed _ =>
      [ (From StorageDealActive, To StorageDealError) ]
  | ProviderEventDealExpired =>
      [ (From StorageDealActive, To StorageDealExpired) ]
  | ProviderEventDealSlashed _ =>
      [ (From StorageDealActive, To StorageDealSlashed) ]
  | ProviderEventFailed =>
      [ (From StorageDealFailing, To StorageDealError) ]
  end.

(** Modelled from the spec: the actions of [ProviderEvents] are not among
    the sources.  The deal "tracks FundsReserved" (section 4.6): a
    reservation adds to it, a release takes the released amount off, so that
    it "becomes zero" (section 8); a rejection stores its message prefixed
    "deal rejected: " (section 4.5); Publishing "extracts the returned
    DealID" (section 4.2); funding and publishing keep the CID they wait for.
    The other messages are those the tests of the handlers read back. *)
Definition action (evt : ProviderEvent) (deal : MinerDeal) : MinerDeal :=
  match evt with
  | ProviderEventNodeErrored err =>
      set_Message ("error calling node: " ++ err) deal
  | ProviderEventDealRejected err =>
      set_Message ("deal rejected: " ++ err) deal
  | ProviderEventDataTransferInitiated channelId =>
      set_TransferChannelId (Some channelId) deal
  | ProviderEventDataTransferRestartFailed err =>
      set_Message ("error restarting data transfer: " ++ err) deal
  | ProviderEventDataVerificationFailed err path metadataPath =>
      set_MetadataPath metadataPath
        (set_PiecePath path
           (set_Message ("deal data verification failed: " ++ err) deal))
  | ProviderEventVerifiedData path metadataPath =>
      set_MetadataPath metadataPath (set_PiecePath path deal)
  | ProviderEventFundsReserved fundsReserved =>
      match FundsReserved deal with
      | None => set_FundsReserved (Some fundsReserved) deal
      | Some reserved =>
          set_FundsReserved (Some (big.Add reserved fundsReserved)) deal
      end
  | ProviderEventFundsReleased fundsReleased =>
      match FundsReserved deal with
      | None => deal
      | Some reserved =>
          set_FundsReserved (Some (big.Sub reserved fundsReleased)) deal
      end
  | ProviderEventFundingInitiated mcid => set_AddFundsCid (Some mcid) deal
  | ProviderEventDealPublishInitiated mcid => set_PublishCid (Some mcid) deal
  | ProviderEventDealPublishError err =>
      set_Message ("PublishStorageDeal error: " ++ err) deal
  | ProviderEventSendResponseFailed err =>
      set_Message ("sending response to deal: " ++ err) deal
  | ProviderEventDealPublished dealID finalCid =>
      set_PublishCid (Some finalCid) (set_DealID dealID deal)
  | ProviderEventFileStoreErrored err =>
      set_Message ("accessing file store: " ++ err) deal
  | ProviderEventDealHandoffFailed err =>
      set_Message ("handing off deal to node: " ++ err) deal
  | ProviderEventPieceStoreErrored err =>
      set_Message ("recording piece for retrieval: " ++ err) deal
  | ProviderEventDealPrecommitted sectorNumber =>
      set_SectorNumber sectorNumber deal
  | ProviderEventDealActivationFailed err =>
      set_Message ("error activating deal: " ++ err) deal
  | ProviderEventDealCompletionFailed err =>
      set_Message ("error waiting for deal completion: " ++ err) deal
  | ProviderEventDealSlashed slashEpoch => set_SlashEpoch slashEpoch deal
  | _ => deal
  end.

(** The event processor on one event, as for the client. *)
Definition Apply (deal : MinerDeal) (evt : ProviderEvent)
  : ApplyResult MinerDeal :=
  match destination StorageDealStatus_eqb (ProviderEvents evt) (State deal)
  with
  | None => InvalidTransition
  | Some dest =>
      match dest with
      | To s => Applied (set_State s (action evt deal))
      | ToNoChange => Applied (action evt deal)
      | ToJustRecord => Applied (action evt deal)
      end
  end.

(** [ReplayEvents] of the test context: the events a handler triggered are
    applied to the deal in order; a pair the table does not declare is
    dropped. *)
Definition ReplayEvents (deal : MinerDeal) (evts : list ProviderEvent)
  : MinerDeal :=
  fold_left
    (fun d evt =>
       match Apply d evt with
       | Applied d' => d'
       | _ => d
       end)
    evts deal.

(** The deal after a handler has run on it. *)
Definition afterHandler (deal : MinerDeal) (run : M unit) : MinerDeal :=
  ReplayEvents deal (triggered (logOf run)).

Definition ProviderFinalityStates : list StorageDealStatus :=
  [ StorageDealExpired; StorageDealSlashed; StorageDealError ].

Definition isFinalityState (s : StorageDealStatus) : bool :=
  existsb (StorageDealStatus_eqb s) ProviderFinalityStates.

Definition Handler : Type := ProviderDealEnvironment -> MinerDeal -> M unit.

Section EntryFuncs.

Variable actors : Actors.

(** Modelled from the spec: [ProviderStateEntryFuncs] (provider_fsm.go) is
    not among the sources.  Section 4.2 names what each state does; the
    handler of that description is the state's entry function. *)
Definition ProviderStateEntryFuncs (s : StorageDealStatus) : option Handler :=
  match s with
  | StorageDealValidating => Some (ValidateDealProposal actors)
  | StorageDealAcceptWait => Some DecideOnProposal
  | StorageDealVerifyData => Some VerifyData
  | StorageDealReserveProviderFunds => Some ReserveProviderFunds
  | StorageDealProviderFunding => Some (WaitForFunding actors)
  | StorageDealPublish => Some PublishDeal
  | StorageDealPublishing => Some (WaitForPublish actors)
  | StorageDealStaged => Some HandoffDeal
  | StorageDealAwaitingPreCommit => Some VerifyDealPreCommitted
  | StorageDealSealing => Some VerifyDealActivated
  | StorageDealFinalizing => Some CleanupDeal
  | StorageDealActive => Some WaitForDealCompletion
  | StorageDealRejecting => Some RejectDeal
  | StorageDealFailing => Some FailDeal
  | _ => None
  end.

(** The events of the data-transfer adapter (section 4.7). *)
Definition fromDataTransfer (evt : ProviderEvent) : bool :=
  match evt with
  | ProviderEventDataTransferInitiated _
  | ProviderEventDataTransferCompleted
  | ProviderEventDataTransferFailed _ => true
  | _ => false
  end.

(** The life of a deal on the provider: where it is, whether the entry
    function of its state has run, and everything its handlers did so far.
    The receiver starts it in Validating; the engine runs the entry function
    of the state a deal has entered, in some state of the environment, and
    applies what it triggered; the data-transfer adapter sends its events
    in between; a deal found in Transferring on load restarts its
    transfer. *)
Inductive lifecycle : MinerDeal -> bool -> list Effect -> Prop :=
| lifecycle_begin deal :
    State deal = StorageDealValidating ->
    lifecycle deal false []
| lifecycle_enter deal log handler environment :
    lifecycle deal false log ->
    ProviderStateEntryFuncs (State deal) = Some handler ->
    let run := handler environment deal in
    let deal' := afterHandler deal run in
    lifecycle deal' (StorageDealStatus_eqb (State deal') (State deal))
      (log ++ logOf run)%list
| lifecycle_transfer deal ran log evt deal' :
    lifecycle deal ran log ->
    fromDataTransfer evt = true ->
    Apply deal evt = Applied deal' ->
    lifecycle deal'
      (ran && StorageDealStatus_eqb (State deal') (State deal)) log
| lifecycle_restart deal ran log environment :
    lifecycle deal ran log ->
    State deal = StorageDealTransferring ->
    let run := RestartDataTransfer environment deal in
    let deal' := afterHandler deal run in
    lifecycle deal'
      (ran && StorageDealStatus_eqb (State deal') (State deal))
      (log ++ logOf run)%list.

End EntryFuncs.

(** What the connection manager sees of a log, through the provider's
    network ([providerDealEnvironment.TagPeer] and [UntagPeer] pass the call
    on to it). *)
Definition connManagerCalls (log : list Effect) : list network.ConnManagerCall :=
  flat_map
    (fun e =>
       match e with
       | EnvTagPeer p tag => [network.TagPeer p tag]
       | EnvUntagPeer p tag => [network.UntagPeer p tag]
       | _ => []
       end)
    log.

(** The amounts a log releases through the node. *)
Definition released (log : list Effect) : list TokenAmount :=
  flat_map
    (fun e =>
       match e with
       | NodeReleaseFunds _ amt => [amt]
       | _ => []
       end)
    log.

(** Funds are held for the deal: [FundsReserved] is neither nil nor zero. *)
Definition fundsHeld (deal : MinerDeal) : bool :=
  match FundsReserved deal with
  | Some amt => negb (big.IsZero amt)
  | None => false
  end.

(** The amount [FundsReserved] holds; nil holds nothing. *)
Definition heldAmount (deal : MinerDeal) : TokenAmount :=
  match FundsReserved deal with
  | Some amt => amt
  | None => 0
  end.

(** What [FailDeal] removes before it releases the funds. *)
Definition cleanup (deal : MinerDeal) : list Effect :=
  ((if negb (String.eqb (PiecePath deal) "")
    then [FileStoreDelete (PiecePath deal)] else [])
   ++ (if negb (String.eqb (MetadataPath deal) "")
       then [FileStoreDelete (MetadataPath deal)] else [])
   ++ match StoreID deal with
      | Some storeID => [EnvDeleteStore storeID]
      | None => []
      end)%list.

(** What a handler run on [deal] asks of the connection manager, and the
    states it can leave the deal in. *)
Definition stepsTo (deal : MinerDeal) (run : M unit)
  (calls : list network.ConnManagerCall) (next : list StorageDealStatus)
  : Prop :=
  connManagerCalls (logOf run) = calls
  /\ In (State (afterHandler deal run)) next.

(** What the connection manager has been asked for peer [p] and tag [id]
    once a deal is in state [s], [ran] telling whether the entry function of
    [s] has run: the tag from the run of Validating on, the untag from the
    run of Active or of Failing on. *)
Definition expected (p : PeerID) (id : string) (s : StorageDealStatus)
  (ran : bool) : list network.ConnManagerCall :=
  ((if match s with
        | StorageDealUnknown | StorageDealValidating => ran
        | _ => true
        end
    then [network.TagPeer p id] else [])
   ++ (if isFinalityState s
          || ran && match s with
                    | StorageDealActive | StorageDealFailing => true
                    | _ => false
                    end
       then [network.UntagPeer p id] else []))%list.

Definition expectedCalls (deal : MinerDeal) (ran : bool)
  : list network.ConnManagerCall :=
  expected (Client deal) (cid.String (ProposalCid deal)) (State deal) ran.

(** What the entry function of the deal's state asks of the connection
    manager. *)
Definition handlerCalls (deal : MinerDeal) : list network.ConnManagerCall :=
  let id := cid.String (ProposalCid deal) in
  match State deal with
  | StorageDealValidating => [network.TagPeer (Client deal) id]
  | StorageDealActive | StorageDealFailing =>
      [network.UntagPeer (Client deal) id]
  | _ => []
  end.

(** The peer and the proposal of a deal are those of another. *)
Definition sameParty (deal deal' : MinerDeal) : Prop :=
  Client deal' = Client deal /\ ProposalCid deal' = ProposalCid deal.

(** *** The engine, run

    A deal, whether the entry function of its state has run, and the log so
    far. *)
Definition Progress : Type := (MinerDeal * bool * list Effect)%type.

Section Engine.

Variable actors : Actors.
Variable environment : ProviderDealEnvironment.

(** Entry functions are run one after the other until a state has none or
    keeps the deal where it is. *)
Fixpoint runEntries (fuel : nat) (deal : MinerDeal) (log : list Effect)
  : Progress :=
  match fuel with
  | O => (deal, false, log)
  | S fuel =>
      match ProviderStateEntryFuncs actors (State deal) with
      | None => (deal, false, log)
      | Some handler =>
          let run := handler environment deal in
          let deal' := afterHandler deal run in
          if StorageDealStatus_eqb (State deal') (State deal)
          then (deal', true, (log ++ logOf run)%list)
          else runEntries fuel deal' (log ++ logOf run)%list
      end
  end.

Definition resume (fuel : nat) (progress : Progress) : Progress :=
  match progress with
  | (deal, false, log) => runEntries fuel deal log
  | _ => progress
  end.

End Engine.

(** An event of the data-transfer adapter arrives. *)
Definition deliver (evt : ProviderEvent) (progress : Progress) : Progress :=
  let '(deal, ran, log) := progress in
  if fromDataTransfer evt
  then match Apply deal evt with
       | Applied deal' =>
           (deal', ran && StorageDealStatus_eqb (State deal') (State deal), log)
       | _ => progress
       end
  else progress.

(** The progress is that of a life of a deal. *)
Definition alive (actors : Actors) (progress : Progress) : Prop :=
  lifecycle actors (fst (fst progress)) (snd (fst progress)) (snd progress).

End providerfsm.

(** ** Scenarios

    The records and environments the properties are tried on: those of
    section 8 and of the tests of the two packages. *)

Module scenarios.

Import rm fsm clientstates.

(** The scenario of section 8 (4): retrieval with an unseal fee, at the
    moment the first voucher of 10 136 000 has been requested. *)
Definition unsealScenario : ClientDealState :=
  set_PaymentRequested 10136000
    (newClientDealState cid.Undef 0 1000 10000 1000 5000 38000000
       "provider" "client wallet" "miner wallet" None).

(** A deal whose interval increase is the largest [uint64]. *)
Definition hugeIncrease : ClientDealState :=
  set_PaymentRequested 10136000
    (newClientDealState cid.Undef 0 1000 10000 Uint64.max 5000 38000000
       "provider" "client wallet" "miner wallet" None).

(** A deal that pays at every byte and whose increase is the largest
    [uint64]. *)
Definition everyByte : ClientDealState :=
  set_PaymentRequested 7
    (newClientDealState cid.Undef 0 1 1 Uint64.max 0 100
       "provider" "client wallet" "miner wallet" None).

(** A free retrieval with an unseal fee. *)
Definition freeRetrieval : ClientDealState :=
  newClientDealState cid.Undef 0 0 10000 1000 5000 5000
    "provider" "client wallet" "miner wallet" None.

(** What the table lets happen to [freeRetrieval] before its payment is
    sent. *)
Definition unsealPaymentRun : list ClientEvent :=
  [ ClientEventOpen;
    ClientEventDealProposed datatransfer.noChannel;
    ClientEventUnsealPaymentRequested 5000;
    ClientEventPaymentChannelAddingFunds cid.Undef "paych";
    ClientEventLaneAllocated 0;
    ClientEventPaymentRequested 0;
    ClientEventSendFunds;
    ClientEventPaymentSent ].

(** The sum of the amounts of a run of payments. *)
Definition total (owed : list TokenAmount) : Z := fold_right Z.add 0 owed.

(** A deal that has completed, for the examples. *)
Definition completedDeal : ClientDealState :=
  set_Status DealStatusCompleted freeRetrieval.

(** A deal whose completion is being checked. *)
Definition checkingDeal : ClientDealState :=
  set_Status DealStatusCheckComplete unsealScenario.

End scenarios.

(** The storage provider's side: the defaults of the tests of
    [providerstates] and the literal scenarios of section 8 (1)-(3). *)

Module testdata.

Import storagemarket providerstates.

(** [builtin.EpochsInDay]. *)
Definition EpochsInDay : Z := 2880.

(** The actors' library as the specification describes what the handlers
    take from it: padded piece sizes are powers of two from 128 bytes up,
    durations lie between 180 and 540 days, [Duration] is [EndEpoch -
    StartEpoch], and the client must hold its collateral and the whole
    storage fee. *)
Definition testActors : Actors :=
  {| PieceCIDPrefix := cid.mkPrefix 1 61697 4114 32;
     Validate := fun size =>
       if size <? 128 then Some "minimum padded piece size is 128 bytes"
       else if Z.land size (size - 1) =? 0 then None
       else Some "padded piece size must be a power of 2";
     DealDurationBounds := fun _ => (180 * EpochsInDay, 540 * EpochsInDay);
     Duration := fun p => market.EndEpoch p - market.StartEpoch p;
     ClientBalanceRequirement := fun p =>
       market.ClientCollateral p
       + market.StoragePricePerEpoch p
         * (market.EndEpoch p - market.StartEpoch p);
     ExitCodeString := big.String |}.

Definition defaultPieceCid : Cid :=
  cid.Of (PieceCIDPrefix testActors) "piece cid".

Definition defaultAsk : StorageAsk :=
  {| Price := 10000000;
     VerifiedPrice := 1000000;
     MinPieceSize := 256;
     MaxPieceSize := 2 ^ 20 |}.

(** A node at height [height] that holds [clientBalance] for the client. *)
Definition testNode (height : abi.ChainEpoch) (clientBalance : TokenAmount)
  (publishReturn : WaitForMessageResult) (completion : CompletionResult)
  : StorageProviderNode :=
  {| GetChainHead := inr ("tipset", height);
     VerifySignature := fun _ _ _ _ => inr true;
     DealProviderCollateralBounds := fun _ _ => inr (0, 10 ^ 27);
     GetBalance := fun _ _ => inr (mkBalance 0 clientBalance);
     GetDataCap := fun _ _ => inr None;
     GetMinerWorkerAddress := fun _ _ => inr "worker";
     ReserveFunds := fun _ _ _ => inr cid.Undef;
     ReleaseFunds := fun _ _ => None;
     PublishDeals := fun _ => inr (cid.Of (cid.mkPrefix 1 113 18 32) "publish");
     WaitForMessage := fun _ => publishReturn;
     OnDealComplete := fun _ _ => inr (mkPackingResult 0 0 0);
     OnDealSectorPreCommitted := fun _ => PreCommitCallback 0 false None;
     OnDealSectorCommitted := fun _ => CommitCallback None;
     OnDealExpiredOrSlashed := fun _ => completion |}.

Definition testEnvironment (node : StorageProviderNode)
  : ProviderDealEnvironment :=
  {| RestartDataTransferChannel := fun _ => None;
     Address := "t0provider";
     Node := node;
     Ask := defaultAsk;
     DeleteStore := fun _ => None;
     GeneratePieceCommitment := fun _ _ => inr (defaultPieceCid, "");
     GeneratePieceReader := fun _ _ =>
       inr (mkPieceReader 400 None (WriteFinished None));
     SendSignedResponse := fun _ => None;
     Disconnect := fun _ => None;
     FileStoreOpenFile := fun path => inr (filestore.mkFile path 400);
     FileStoreDeleteFile := fun _ => None;
     LoadBlockLocationsFrom := fun _ => None;
     AddPieceBlockLocations := fun _ => None;
     AddDealForPiece := fun _ _ => None;
     RunCustomDecisionLogic := fun _ => (true, "", None) |}.

(** A receipt of [PublishStorageDeals] with these deal ids. *)
Definition published (ids : list abi.DealID) : WaitForMessageResult :=
  Landed exitcode.Ok (inr (market.mkPublishStorageDealsReturn ids))
    (cid.Of (cid.mkPrefix 1 113 18 32) "final") None.

(** The environment of section 8: height 50, a client balance of 9 * 10^9. *)
Definition scenarioEnvironment : ProviderDealEnvironment :=
  testEnvironment
    (testNode 50 9000000000 (published [42]) (ExpiredCallback None)).

(** The same, at the epoch the scenario's deal starts in. *)
Definition boundaryEnvironment : ProviderDealEnvironment :=
  testEnvironment
    (testNode 200 9000000000 (published [42]) (ExpiredCallback None)).

(** A proposal with the scenario's piece, collateral and parties. *)
Definition proposalWith (startEpoch endEpoch : abi.ChainEpoch)
  (price : TokenAmount) : market.DealProposal :=
  {| market.PieceCID := defaultPieceCid;
     market.PieceSize := 1048576;
     market.VerifiedDeal := false;
     market.Client := "t0client";
     market.Provider := "t0provider";
     market.Label := "";
     market.StartEpoch := startEpoch;
     market.EndEpoch := endEpoch;
     market.StoragePricePerEpoch := price;
     market.ProviderCollateral := 10000;
     market.ClientCollateral := 0 |}.

(** A deal in [state] for [proposal], with [fundsReserved] reserved. *)
Definition dealWith (state : StorageDealStatus)
  (proposal : market.DealProposal) (fundsReserved : option TokenAmount)
  : MinerDeal :=
  {| Proposal := proposal;
     ClientSignature := "signature";
     ProposalCid := cid.Of (cid.mkPrefix 1 113 18 32) "proposal";
     AddFundsCid := Some (cid.Of (cid.mkPrefix 1 113 18 32) "add funds");
     PublishCid := Some (cid.Of (cid.mkPrefix 1 113 18 32) "publish");
     Miner := "miner peer";
     Client := "client peer";
     State := state;
     PiecePath := "";
     MetadataPath := "";
     SlashEpoch := 0;
     FastRetrieval := false;
     Message := "";
     StoreID := None;
     FundsReserved := fundsReserved;
     Ref := mkDataRef "graphsync" (cid.Of (cid.mkPrefix 1 113 18 32) "payload");
     AvailableForRetrieval := false;
     DealID := 0;
     TransferChannelId := None;
     SectorNumber := 0 |}.

(** Section 8 (1): the valid proposal. *)
Definition validDeal : MinerDeal :=
  dealWith StorageDealValidating
    (proposalWith 200 (200 + 180 * EpochsInDay) 10000) None.

(** Section 8 (2): the price per epoch is too low. *)
Definition cheapDeal : MinerDeal :=
  dealWith StorageDealValidating
    (proposalWith 200 (200 + 180 * EpochsInDay) 5000) None.

(** Section 8 (3): the duration is one epoch short. *)
Definition shortDeal : MinerDeal :=
  dealWith StorageDealValidating
    (proposalWith 200 (200 + EpochsInDay * 180 - 1) 10000) None.

(** A deal that starts one epoch before the chain head of the scenario. *)
Definition lateDeal : MinerDeal :=
  dealWith StorageDealValidating
    (proposalWith 49 (49 + 180 * EpochsInDay) 10000) None.

(** Section 8 (1) to its end: the valid proposal is admitted, its data
    arrives, the deal is published, sealed and active, and expires. *)
Definition happyPath : providerfsm.Progress :=
  let engine := providerfsm.resume testActors scenarioEnvironment 20 in
  let channel := datatransfer.mkChannelID "client peer" "miner peer" 1 in
  engine
    (providerfsm.deliver ProviderEventDataTransferCompleted
       (providerfsm.deliver (ProviderEventDataTransferInitiated channel)
          (engine (validDeal, false, [])))).

End testdata.

(** ** Runs of the retrieval client table *)

Module clientruns.

Import rm fsm clientstates.

(** What an event adds to the payment requested of the client. *)
Definition requested (evt : ClientEvent) : TokenAmount :=
  match evt with
  | ClientEventLastPaymentRequested paymentOwed
  | ClientEventPaymentRequested paymentOwed
  | ClientEventUnsealPaymentRequested paymentOwed => paymentOwed
  | _ => 0
  end.

Section Runs.

Variable DealStatuses : DealStatus -> string.

(** The event processor on a list of events, each applied to what the one
    before left; the first event that the table does not take, or whose
    action panics, ends the run. *)
Fixpoint applyAll (deal : ClientDealState) (evts : list ClientEvent)
  : ApplyResult ClientDealState :=
  match evts with
  | [] => Applied deal
  | evt :: rest =>
      match Apply DealStatuses deal evt with
      | Applied deal' => applyAll deal' rest
      | r => r
      end
  end.

(** The records the table can make of a deal that [Client.Retrieve]
    started. *)
Inductive reachable : ClientDealState -> Prop :=
| reachable_new payloadCID dealID pricePerByte paymentInterval
    paymentIntervalIncrease unsealPrice totalFunds sender clientWallet
    minerWallet storeID :
    reachable
      (newClientDealState payloadCID dealID pricePerByte paymentInterval
         paymentIntervalIncrease unsealPrice totalFunds sender clientWallet
         minerWallet storeID)
| reachable_step deal evt deal' :
    reachable deal ->
    Apply DealStatuses deal evt = Applied deal' ->
    reachable deal'.

End Runs.

(** The statuses the clauses of an event name, one entry for each time a
    status is written. *)
Definition namedStates (clauses : list (Source DealStatus * Dest DealStatus))
  : list DealStatus :=
  flat_map
    (fun c =>
       match fst c with
       | From s => [s]
       | FromMany ss => ss
       | FromAny => []
       end)
    clauses.

Fixpoint distinct (l : list DealStatus) : bool :=
  match l with
  | [] => true
  | s :: rest => negb (existsb (DealStatus_eqb s) rest) && distinct rest
  end.

(** No status is named twice and at most one clause is [FromAny]: the
    clauses say one thing at most for every status. *)
Definition unambiguous (clauses : list (Source DealStatus * Dest DealStatus))
  : bool :=
  distinct (namedStates clauses)
  && (List.length (filter (fun c => isFromAny (fst c)) clauses) <=? 1)%nat.

(** The terms of a deal and the parties to it. *)
Definition termsOf (deal : ClientDealState)
  : Cid * DealID * TokenAmount * Z * Z * TokenAmount * TokenAmount
    * address.Address * address.Address * PeerID * option Z :=
  (PayloadCID deal, ID deal, PricePerByte deal, PaymentInterval deal,
   PaymentIntervalIncrease deal, UnsealPrice deal, TotalFunds deal,
   ClientWallet deal, MinerWallet deal, Sender deal, StoreID deal).

(** What has been paid: funds spent, bytes paid for, the current interval
    and the unseal funds paid. *)
Definition accountOf (deal : ClientDealState)
  : TokenAmount * Z * Z * TokenAmount :=
  (FundsSpent deal, BytesPaidFor deal, CurrentInterval deal,
   UnsealFundsPaid deal).

End clientruns.

(** A last payment of [owed] on a deal that is under way, to its end. *)
Definition lastPaymentRun (owed : TokenAmount) : list rm.ClientEvent :=
  [ rm.ClientEventLastPaymentRequested owed;
    rm.ClientEventSendFunds;
    rm.ClientEventPaymentSent;
    rm.ClientEventComplete ].

(** A deal that is under way and owes nothing. *)
Definition ongoingDeal : rm.ClientDealState :=
  rm.set_Status rm.DealStatusOngoing
    (rm.set_PaymentRequested 0 scenarios.unsealScenario).

(** The free retrieval of the scenarios at the moment its payment is to be
    sent: everything of [unsealPaymentRun] but the last event has been
    applied. *)
Definition beforePayment : rm.ClientDealState :=
  match clientruns.applyAll (fun _ => "") scenarios.freeRetrieval
          (removelast scenarios.unsealPaymentRun) with
  | fsm.Applied deal => deal
  | _ => scenarios.freeRetrieval
  end.

(** ** Runs of the storage provider's handlers *)

Module providerruns.

Import storagemarket providerstates providerfsm.

(** The amounts a log asks the node to reserve. *)
Definition reserved (log : list Effect) : list TokenAmount :=
  flat_map
    (fun e =>
       match e with
       | NodeReserveFunds _ _ amt => [amt]
       | _ => []
       end)
    log.

(** How often a log hands a piece to the node. *)
Definition handoffs (log : list Effect) : nat :=
  List.length
    (filter
       (fun e =>
          match e with
          | NodeOnDealComplete _ => true
          | _ => false
          end)
       log).

(** The responses a log sends to the client. *)
Definition responses (log : list Effect) : list network.Response :=
  flat_map
    (fun e =>
       match e with
       | EnvSendSignedResponse resp => [resp]
       | _ => []
       end)
    log.

Section Handlers.

Variable actors : Actors.


(** The handlers that leave the rest to a callback of the node or to a
    goroutine. *)
Definition waitingHandlers : list Handler :=
  [ WaitForFunding actors; WaitForPublish actors; RestartDataTransfer;
    VerifyDealPreCommitted; VerifyDealActivated; WaitForDealCompletion ].

End Handlers.


(** The record [PublishDeal] passes to the node: the parties, the signed
    proposal, its CID, the state and the data reference, everything else at
    its zero value. *)
Definition atPublish (deal : MinerDeal) : MinerDeal :=
  mkMinerDeal (Proposal deal) (ClientSignature deal) (ProposalCid deal)
    None None "" (Client deal) (State deal) "" "" 0 false "" None None
    (Ref deal) false 0 None 0.

(** The record [handoffDeal] passes to the node: that of [PublishDeal] with
    the publish CID, the deal id and the fast-retrieval flag. *)
Definition atHandoff (deal : MinerDeal) : MinerDeal :=
  mkMinerDeal (Proposal deal) (ClientSignature deal) (ProposalCid deal)
    None (PublishCid deal) "" (Client deal) (State deal) "" "" 0
    (FastRetrieval deal) "" None None (Ref deal) false (DealID deal)
    None 0.

(** The custom decision logic accepts the deal. *)
Definition accepts (environment : ProviderDealEnvironment) (deal : MinerDeal)
  : bool :=
  match RunCustomDecisionLogic environment deal with
  | (true, _, None) => true
  | _ => false
  end.

(** Two records show the node the same deal: they agree on what
    [PublishDeal] copies into the record it passes on. *)
Definition sameOnChain (deal deal' : MinerDeal) : Prop :=
  Client deal = Client deal'
  /\ Proposal deal = Proposal deal'
  /\ ClientSignature deal = ClientSignature deal'
  /\ ProposalCid deal = ProposalCid deal'
  /\ State deal = State deal'
  /\ Ref deal = Ref deal'.

End providerruns.

(** What a log says, case by case: disjunctions and equations between
    constructors are taken apart. *)
Ltac settle :=
  cbn in *;
  repeat match goal with
         | H : _ \/ _ |- _ => destruct H
         | H : _ /\ _ |- _ => destruct H
         | H : False |- _ => destruct H
         | H : exists _, _ |- _ => destruct H
         | H : ?a = ?b |- _ =>
             first [ discriminate H
                   | injection H; clear H; intros; subst ]
         end.


(** Case analysis on what the environment answers, innermost first, each
    answer kept as an equation. *)
Ltac answers :=
  repeat (cbn;
          unfold providerstates.triggerIf, providerstates.orTrigger,
            providerstates.when;
          cbn;
          match goal with
          | |- context [match ?x with _ => _ end] =>
              lazymatch x with
              | context [match _ with _ => _ end] => fail
              | _ => let H := fresh "Hanswer" in destruct x eqn:H
              end
          end).

(** ** Go functions with effects

    A function body as a log of what it asks of the outside and how it
    goes on: with a value, by returning its result early, or by a
    panic. *)

Module exec.

Inductive Outcome (R A : Type) : Type :=
| Next (a : A)
| Return (r : R)
| Panic (why : string).

Arguments Next {R A} a.
Arguments Return {R A} r.
Arguments Panic {R A} why.

Definition M (E R A : Type) : Type := (list E * Outcome R A)%type.

Definition ret {E R A : Type} (a : A) : M E R A := ([], Next a).

Definition bind {E R A B : Type} (m : M E R A) (k : A -> M E R B)
  : M E R B :=
  match m with
  | (log, Next a) => let (log', o) := k a in ((log ++ log')%list, o)
  | (log, Return r) => (log, Return r)
  | (log, Panic why) => (log, Panic why)
  end.

(** One call that is seen from outside. *)
Definition call {E R : Type} (e : E) : M E R unit := ([e], Next tt).

(** [return r]. *)
Definition returning {E R A : Type} (r : R) : M E R A := ([], Return r).

Definition panic {E R A : Type} (why : string) : M E R A := ([], Panic why).

(** [v, err := f(...); if err != nil { return r(err) }]. *)
Definition orReturn {E R A : Type} (x : error + A) (r : error -> R)
  : M E R A :=
  match x with
  | inl err => returning (r err)
  | inr v => ret v
  end.

(** [if err := f(...); err != nil { return r(err) }]. *)
Definition failReturn {E R : Type} (x : option error) (r : error -> R)
  : M E R unit :=
  match x with
  | Some err => returning (r err)
  | None => ret tt
  end.

(** [defer f()] as the first statement of [m]: [e] is the last thing that
    happens, however [m] ends. *)
Definition deferring {E R A : Type} (e : E) (m : M E R A) : M E R A :=
  ((fst m ++ [e])%list, snd m).

(** How a function ends: with its result, or with a panic. *)
Inductive Result (R : Type) : Type :=
| Returned (r : R)
| Panicked (why : string).

Arguments Returned {R} r.
Arguments Panicked {R} why.

(** The whole function: falling off the end of the body returns its
    value. *)
Definition run {E R : Type} (m : M E R R) : list E * Result R :=
  match m with
  | (log, Next r) => (log, Returned r)
  | (log, Return r) => (log, Returned r)
  | (log, Panic why) => (log, Panicked why)
  end.

(** A call of another function of the model: its result is the value the
    caller goes on with, its panic is the caller's. *)
Definition invoke {E R R' : Type} (m : M E R' R') : M E R R' :=
  match run m with
  | (log, Returned r) => (log, Next r)
  | (log, Panicked why) => (log, Panic why)
  end.

Declare Scope exec_scope.
Delimit Scope exec_scope with exec.

Notation "x <- m ;; k" := (bind m (fun x => k))
  (at level 61, m at next level, right associativity) : exec_scope.
Notation "' pat <- m ;; k" := (bind m (fun x => match x with pat => k end))
  (at level 61, pat pattern, m at next level, right associativity)
  : exec_scope.
Notation "m ;; k" := (bind m (fun _ => k))
  (at level 61, right associativity) : exec_scope.

End exec.

(** ** Retrieval queries (package retrievalimpl, provider.go) *)

Module retrievalquery.

Import exec.

#[local] Open Scope exec_scope.

(** [retrievalmarket.QueryResponseStatus] and [QueryItemStatus]. *)
Inductive QueryResponseStatus : Type :=
| QueryResponseAvailable
| QueryResponseUnavailable
| QueryResponseError.

Inductive QueryItemStatus : Type :=
| QueryItemAvailable
| QueryItemUnavailable
| QueryItemUnknown.

(** [retrievalmarket.Query]: the payload and, in its parameters, the piece
    the client may name. *)
Record Query : Type := mkQuery {
  QueryPayloadCID : Cid;
  QueryPieceCID : option Cid
}.

(** [retrievalmarket.Ask]. *)
Record Ask : Type := mkAsk {
  AskPricePerByte : TokenAmount;
  AskUnsealPrice : TokenAmount;
  AskPaymentInterval : Z;
  AskPaymentIntervalIncrease : Z
}.

(** [retrievalmarket.QueryResponse]. *)
Record QueryResponse : Type := mkQueryResponse {
  Status : QueryResponseStatus;
  PieceCIDFound : QueryItemStatus;
  Size : Z;
  PaymentAddress : address.Address;
  MinPricePerByte : TokenAmount;
  MaxPaymentInterval : Z;
  MaxPaymentIntervalIncrease : Z;
  Message : string;
  UnsealPrice : TokenAmount
}.

(** [piecestore.DealInfo] and [piecestore.PieceInfo]. *)
Record DealInfo : Type := mkDealInfo {
  DealID : abi.DealID;
  SectorID : abi.SectorNumber;
  Offset : abi.PaddedPieceSize;
  Length : abi.PaddedPieceSize
}.

Record PieceInfo : Type := mkPieceInfo {
  PieceCID : Cid;
  Deals : list DealInfo
}.

(** An error of the piece lookup: its text, and whether it is (or wraps)
    [retrievalmarket.ErrNotFound], which is what [xerrors.Is] asks. *)
Record LookupError : Type := mkLookupError {
  Text : error;
  IsNotFound : bool
}.

(** What the provider has around it when a query comes in.
    [getPieceInfoFromCid] is declared outside the files at hand: what it
    answers is part of the environment. *)
Record Provider : Type := mkProvider {
  minerAddress : address.Address;
  GetAsk : option Ask;
  GetChainHead : error + (storagemarket.TipSetToken * abi.ChainEpoch);
  GetMinerWorkerAddress :
    address.Address -> storagemarket.TipSetToken -> error + address.Address;
  getPieceInfoFromCid : Cid -> Cid -> LookupError + PieceInfo
}.

(** [rmnet.RetrievalQueryStream]. *)
Record RetrievalQueryStream : Type := mkQueryStream {
  ReadQuery : error + Query;
  WriteQueryResponse : QueryResponse -> option error
}.

Inductive Effect : Type :=
| StreamReadQuery
| StreamWriteQueryResponse (answer : QueryResponse)
| StreamClose
| AskStoreGetAsk
| NodeGetChainHead
| NodeGetMinerWorkerAddress (addr : address.Address)
    (tok : storagemarket.TipSetToken)
| PieceStoreLookup (payloadCID pieceCID : Cid).

(** The answer the handler starts from: nothing is available, at the terms
    of the ask. *)
Definition unavailable (ask : Ask) : QueryResponse :=
  {| Status := QueryResponseUnavailable;
     PieceCIDFound := QueryItemUnavailable;
     Size := 0;
     PaymentAddress := "";
     MinPricePerByte := AskPricePerByte ask;
     MaxPaymentInterval := AskPaymentInterval ask;
     MaxPaymentIntervalIncrease := AskPaymentIntervalIncrease ask;
     Message := "";
     UnsealPrice := AskUnsealPrice ask |}.

Definition set_Error (err : error) (answer : QueryResponse) : QueryResponse :=
  mkQueryResponse QueryResponseError (PieceCIDFound answer) (Size answer)
    (PaymentAddress answer) (MinPricePerByte answer)
    (MaxPaymentInterval answer) (MaxPaymentIntervalIncrease answer) err
    (UnsealPrice answer).

Definition set_PaymentAddress (paymentAddress : address.Address)
  (answer : QueryResponse) : QueryResponse :=
  mkQueryResponse (Status answer) (PieceCIDFound answer) (Size answer)
    paymentAddress (MinPricePerByte answer) (MaxPaymentInterval answer)
    (MaxPaymentIntervalIncrease answer) (Message answer)
    (UnsealPrice answer).

Definition set_Available (size : Z) (answer : QueryResponse)
  : QueryResponse :=
  mkQueryResponse QueryResponseAvailable QueryItemAvailable size
    (PaymentAddress answer) (MinPricePerByte answer)
    (MaxPaymentInterval answer) (MaxPaymentIntervalIncrease answer)
    (Message answer) (UnsealPrice answer).

(** What the lookup of the piece makes of the answer: the two [if]s after
    [getPieceInfoFromCid]. *)
Definition withPiece (found : LookupError + PieceInfo)
  (answer : QueryResponse) : QueryResponse :=
  let answer :=
    match found with
    | inr pieceInfo =>
        match Deals pieceInfo with
        | deal :: _ => set_Available (Length deal) answer
        | [] => answer
        end
    | inl _ => answer
    end in
  match found with
  | inl err =>
      if negb (IsNotFound err) then set_Error (Text err) answer else answer
  | inr _ => answer
  end.

(** [HandleQueryStream]: the stream is closed when the handler is left
    ([defer stream.Close()]); the ask is read through its pointer when the
    answer is first filled in; an error of [WriteQueryResponse] is logged
    and nothing else. *)
Definition HandleQueryStream (p : Provider) (stream : RetrievalQueryStream)
  : M Effect unit unit :=
  deferring StreamClose
    (call StreamReadQuery ;;
     query <- orReturn (ReadQuery stream) (fun _ => tt) ;;
     call AskStoreGetAsk ;;
     ask <-
       match GetAsk p with
       | Some ask => ret ask
       | None => panic "nil pointer dereference"
       end ;;
     let answer := unavailable ask in
     call NodeGetChainHead ;;
     '(tok, _) <- orReturn (GetChainHead p) (fun _ => tt) ;;
     call (NodeGetMinerWorkerAddress (minerAddress p) tok) ;;
     answer <-
       match GetMinerWorkerAddress p (minerAddress p) tok with
       | inl err => ret (set_Error err answer)
       | inr paymentAddress =>
           let answer := set_PaymentAddress paymentAddress answer in
           let pieceCID :=
             match QueryPieceCID query with
             | Some pieceCID => pieceCID
             | None => cid.Undef
             end in
           call (PieceStoreLookup (QueryPayloadCID query) pieceCID) ;;
           ret (withPiece
                  (getPieceInfoFromCid p (QueryPayloadCID query) pieceCID)
                  answer)
       end ;;
     call (StreamWriteQueryResponse answer) ;;
     ret tt).

(** The answers a log writes to the stream. *)
Definition written (log : list Effect) : list QueryResponse :=
  flat_map
    (fun e =>
       match e with
       | StreamWriteQueryResponse answer => [answer]
       | _ => []
       end)
    log.

(** How often a log closes the stream. *)
Definition closes (log : list Effect) : nat :=
  List.length
    (filter (fun e => match e with StreamClose => true | _ => false end) log).

End retrievalquery.

(** A provider that serves one piece of 2048 bytes at the terms of an ask,
    and a stream that carries a query for it. *)
Definition servingProvider : retrievalquery.Provider :=
  {| retrievalquery.minerAddress := "t0provider";
     retrievalquery.GetAsk := Some (retrievalquery.mkAsk 1000 5000 10000 1000);
     retrievalquery.GetChainHead := inr ("tipset", 50);
     retrievalquery.GetMinerWorkerAddress := fun _ _ => inr "worker";
     retrievalquery.getPieceInfoFromCid := fun _ _ =>
       inr (retrievalquery.mkPieceInfo cid.Undef
              [retrievalquery.mkDealInfo 42 7 0 2048;
               retrievalquery.mkDealInfo 43 8 0 4096]) |}.

Definition queryStream : retrievalquery.RetrievalQueryStream :=
  {| retrievalquery.ReadQuery := inr (retrievalquery.mkQuery cid.Undef None);
     retrievalquery.WriteQueryResponse := fun _ => None |}.

(** ** The retrieval client (package retrievalimpl, client.go) *)

Module retrievalclient.

Import exec rm.

#[local] Open Scope exec_scope.

Definition Multiaddr : Type := string.

(** [retrievalmarket.RetrievalPeer]. *)
Record RetrievalPeer : Type := mkRetrievalPeer {
  RetrievalPeerAddress : address.Address;
  RetrievalPeerID : PeerID
}.


(** What [Query] uses of [rmnet.RetrievalQueryStream], the client's end. *)
Record RetrievalQueryStream : Type := mkQueryStream {
  WriteQuery : retrievalquery.Query -> option error;
  ReadQueryResponse : error + retrievalquery.QueryResponse
}.

(** What the client has around it: the node, the network, the stored
    counter, the multistore and the group of state machines. *)
Record Client : Type := mkClient {
  GetChainHead : error + (storagemarket.TipSetToken * abi.ChainEpoch);
  GetKnownAddresses :
    RetrievalPeer -> storagemarket.TipSetToken -> error + list Multiaddr;
  NewQueryStream : PeerID -> error + RetrievalQueryStream;
  StoredCounterNext : error + Z;
  MultiStoreGet : Z -> option error;
  Begin : DealID -> ClientDealState -> option error;
  Send : DealID -> ClientEvent -> option error;
  List : error + list ClientDealState
}.

Inductive Effect : Type :=
| NodeGetChainHead
| NodeGetKnownAddresses (p : RetrievalPeer) (tok : storagemarket.TipSetToken)
| NetworkAddAddrs (id : PeerID) (maddrs : list Multiaddr)
| NetworkNewQueryStream (id : PeerID)
| StreamWriteQuery (query : retrievalquery.Query)
| StreamReadQueryResponse
| StreamClose
| CounterNext
| MultiStoreLoad (storeID : Z)
| MachinesBegin (id : DealID) (state : ClientDealState)
| MachinesSend (id : DealID) (evt : ClientEvent)
| MachinesList.

(** [addMultiaddrs]. *)
Definition addMultiaddrs (c : Client) (p : RetrievalPeer)
  : M Effect (option error) (option error) :=
  call NodeGetChainHead ;;
  '(tok, _) <- orReturn (GetChainHead c) Some ;;
  call (NodeGetKnownAddresses p tok) ;;
  maddrs <- orReturn (GetKnownAddresses c p tok) Some ;;
  match maddrs with
  | _ :: _ => call (NetworkAddAddrs (RetrievalPeerID p) maddrs)
  | [] => ret tt
  end ;;
  returning None.

(** [Query]: the result is the response, or the error
    ([QueryResponseUndefined, err]); the stream is closed when the function
    is left once it has been opened ([defer s.Close()]). *)
Definition Query (c : Client) (p : RetrievalPeer) (payloadCID : Cid)
  (params : option Cid)
  : M Effect (error + retrievalquery.QueryResponse)
      (error + retrievalquery.QueryResponse) :=
  err <- invoke (addMultiaddrs c p) ;;
  failReturn err inl ;;
  call (NetworkNewQueryStream (RetrievalPeerID p)) ;;
  s <- orReturn (NewQueryStream c (RetrievalPeerID p)) inl ;;
  deferring StreamClose
    (let query := retrievalquery.mkQuery payloadCID params in
     call (StreamWriteQuery query) ;;
     failReturn (WriteQuery s query) inl ;;
     call StreamReadQueryResponse ;;
     returning (ReadQueryResponse s)).



(** The loop of [TryRestartInsufficientFunds]: the payment channel of a
    deal is read through its [PaymentInfo] pointer, and only when the deal
    is in [DealStatusInsufficientFunds]. *)
Fixpoint recheck (c : Client) (paymentChannel : address.Address)
  (deals : list ClientDealState) : M Effect (option error) unit :=
  match deals with
  | [] => ret tt
  | deal :: rest =>
      (if DealStatus_eqb (Status deal) DealStatusInsufficientFunds
       then
         match PaymentInfo deal with
         | None => panic "nil pointer dereference"
         | Some info =>
             if String.eqb (PayCh info) paymentChannel
             then
               call (MachinesSend (ID deal) ClientEventRecheckFunds) ;;
               failReturn (Send c (ID deal) ClientEventRecheckFunds) Some
             else ret tt
         end
       else ret tt) ;;
      recheck c paymentChannel rest
  end.

(** [TryRestartInsufficientFunds]. *)
Definition TryRestartInsufficientFunds (c : Client)
  (paymentChannel : address.Address)
  : M Effect (option error) (option error) :=
  call MachinesList ;;
  deals <- orReturn (List c) Some ;;
  recheck c paymentChannel deals ;;
  returning None.

(** [CancelDeal]. *)
Definition CancelDeal (c : Client) (dealID : DealID)
  : M Effect (option error) (option error) :=
  call (MachinesSend dealID ClientEventCancel) ;;
  returning (Send c dealID ClientEventCancel).

(** A deal is stuck for want of funds in [paymentChannel]. *)
Definition stuckOn (paymentChannel : address.Address)
  (deal : ClientDealState) : bool :=
  DealStatus_eqb (Status deal) DealStatusInsufficientFunds
  && match PaymentInfo deal with
     | Some info => String.eqb (PayCh info) paymentChannel
     | None => false
     end.


(** How often a log closes the query stream. *)
Definition closes (log : list Effect) : nat :=
  List.length
    (filter (fun e => match e with StreamClose => true | _ => false end) log).

Definition sent (log : list Effect) : list (DealID * ClientEvent) :=
  flat_map
    (fun e =>
       match e with
       | MachinesSend id evt => [(id, evt)]
       | _ => []
       end)
    log.

End retrievalclient.

(** A client whose node, counter and machines answer without error, the
    counter at 7, and whose query streams are reset when written to; and
    one whose store cannot be loaded and that reaches no peer. *)
Definition readyClient (deals : list rm.ClientDealState)
  : retrievalclient.Client :=
  {| retrievalclient.GetChainHead := inr ("tipset", 50);
     retrievalclient.GetKnownAddresses := fun _ _ => inr ["/ip4/10.0.0.1"];
     retrievalclient.NewQueryStream := fun _ =>
       inr (retrievalclient.mkQueryStream (fun _ => Some "stream reset")
              (inl "EOF"));
     retrievalclient.StoredCounterNext := inr 7;
     retrievalclient.MultiStoreGet := fun _ => None;
     retrievalclient.Begin := fun _ _ => None;
     retrievalclient.Send := fun _ _ => None;
     retrievalclient.List := inr deals |}.


(** A deal that waits for funds in the payment channel "paych". *)
Definition stuckDeal (id : rm.DealID) : rm.ClientDealState :=
  rm.set_Status rm.DealStatusInsufficientFunds
    (rm.set_PaymentInfo (Some (rm.mkPaymentInfo "paych" 0))
       (clientstates.newClientDealState cid.Undef id 1000 10000 1000 5000
          38000000 "provider" "client wallet" "miner wallet" None)).

(** ** The storage client's ask query (package storageimpl,
    client_queryask.go) *)

Module storageclient.

Import exec.

#[local] Open Scope exec_scope.

Definition Multiaddr : Type := string.

(** [storagemarket.StorageProviderInfo]: what [GetAsk] reads of it. *)
Record StorageProviderInfo : Type := mkStorageProviderInfo {
  InfoAddress : address.Address;
  InfoPeerID : PeerID;
  InfoAddrs : list Multiaddr
}.

(** [storagemarket.StorageAsk] with the miner it is for; the terms are
    those the provider validates proposals against. *)
Record StorageAsk : Type := mkStorageAsk {
  Miner : address.Address;
  Terms : storagemarket.StorageAsk
}.

(** [storagemarket.SignedStorageAsk]: both fields are pointers. *)
Record SignedStorageAsk : Type := mkSignedStorageAsk {
  SignedAsk : option StorageAsk;
  AskSignature : option storagemarket.Signature
}.

(** [network.AskRequest] and [network.AskResponse]. *)
Record AskRequest : Type := mkAskRequest {
  RequestMiner : address.Address
}.

Record AskResponse : Type := mkAskResponse {
  ResponseAsk : option SignedStorageAsk
}.

(** [network.StorageAskStream]; [ReadAskResponse] gives the response and
    the bytes it was signed over. *)
Record StorageAskStream : Type := mkAskStream {
  WriteAskRequest : AskRequest -> option error;
  ReadAskResponse : error + (AskResponse * string)
}.

(** The network of the client. *)
Record StorageMarketNetwork : Type := mkNetwork {
  NewAskStream : PeerID -> error + StorageAskStream
}.

Inductive Effect : Type :=
| PrintInfo (info : StorageProviderInfo)
| PrintAddr (addr : Multiaddr)
| NetAddAddrs (id : PeerID) (addrs : list Multiaddr)
| NetNewAskStream (id : PeerID)
| StreamWriteAskRequest (request : AskRequest)
| StreamReadAskResponse.

(** [GetAsk].  The second [Printf] reads [info.Addrs[0]] before the length
    of [info.Addrs] is looked at; the check of the signature is commented
    out in the source. *)
Definition GetAsk (net : StorageMarketNetwork) (info : StorageProviderInfo)
  : M Effect (error + StorageAsk) (error + StorageAsk) :=
  call (PrintInfo info) ;;
  first <-
    match InfoAddrs info with
    | addr :: _ => ret addr
    | [] => panic "index out of range [0] with length 0"
    end ;;
  call (PrintAddr first) ;;
  (if (0 <? List.length (InfoAddrs info))%nat
   then call (NetAddAddrs (InfoPeerID info) (InfoAddrs info))
   else ret tt) ;;
  call (NetNewAskStream (InfoPeerID info)) ;;
  s <- orReturn (NewAskStream net (InfoPeerID info))
         (fun err => inl ("failed to open stream to miner: " ++ err)) ;;
  let request := mkAskRequest (InfoAddress info) in
  call (StreamWriteAskRequest request) ;;
  failReturn (WriteAskRequest s request)
    (fun err => inl ("failed to send ask request: " ++ err)) ;;
  call StreamReadAskResponse ;;
  '(out, _) <- orReturn (ReadAskResponse s)
                 (fun err => inl ("failed to read ask response: " ++ err)) ;;
  match ResponseAsk out with
  | None => returning (inl "got no ask back")
  | Some signed =>
      match SignedAsk signed with
      | None => panic "nil pointer dereference"
      | Some ask =>
          if negb (String.eqb (Miner ask) (InfoAddress info))
          then returning (inl "got back ask for wrong miner")
          else returning (inr ask)
      end
  end.

(** A response without its signature and without the bytes signed. *)
Definition unsigned (read : error + (AskResponse * string))
  : error + option (option StorageAsk) :=
  match read with
  | inl err => inl err
  | inr (out, _) => inr (option_map SignedAsk (ResponseAsk out))
  end.

End storageclient.

(** ** The storage provider's environment (package storageimpl) *)

Module storageprovider.

Import storagemarket providerstates exec.

#[local] Open Scope exec_scope.

(** [network.SignedResponse]. *)
Record SignedResponse : Type := mkSignedResponse {
  SignedResponseOf : network.Response;
  ResponseSignature : Signature
}.

(** What [providerDealEnvironment] reads of the provider: the actor
    address, the node, the connections by proposal CID with the stream of
    each, the signing function and the custom decision logic, which may be
    nil. *)
Record Provider : Type := mkProvider {
  actor : address.Address;
  spn : StorageProviderNode;
  DealStream : Cid -> error + (SignedResponse -> option error);
  ConnsDisconnect : Cid -> option error;
  sign : network.Response -> error + Signature;
  customDealDeciderFunc :
    option (MinerDeal -> bool * string * option error)
}.

Inductive Effect : Type :=
| ConnsDealStream (proposalCid : Cid)
| Sign (resp : network.Response)
| StreamWriteDealResponse (signed : SignedResponse)
| Disconnected (proposalCid : Cid).

(** [providerDealEnvironment.SendSignedResponse]: when the write fails the
    client is taken to have gone and the connection is dropped. *)
Definition SendSignedResponse (p : Provider) (resp : network.Response)
  : M Effect (option error) (option error) :=
  call (ConnsDealStream (network.ResponseProposal resp)) ;;
  s <- orReturn (DealStream p (network.ResponseProposal resp))
         (fun err => Some ("couldn't send response: " ++ err)) ;;
  call (Sign resp) ;;
  sig <- orReturn (sign p resp)
           (fun err => Some ("failed to sign response message: " ++ err)) ;;
  let signedResponse := mkSignedResponse resp sig in
  call (StreamWriteDealResponse signedResponse) ;;
  let err := s signedResponse in
  match err with
  | Some _ => call (Disconnected (network.ResponseProposal resp))
  | None => ret tt
  end ;;
  returning err.

(** [providerDealEnvironment.RunCustomDecisionLogic]. *)
Definition RunCustomDecisionLogic (p : Provider) (deal : MinerDeal)
  : bool * string * option error :=
  match customDealDeciderFunc p with
  | None => (true, "", None)
  | Some decide => decide deal
  end.

(** The environment the handlers of a provider run in: address, node,
    responses, disconnection and decision logic are those of
    [providerDealEnvironment]; the rest is taken from [others]. *)
Definition providerDealEnvironment (p : Provider)
  (others : ProviderDealEnvironment) : ProviderDealEnvironment :=
  {| RestartDataTransferChannel := RestartDataTransferChannel others;
     Address := actor p;
     Node := spn p;
     Ask := Ask others;
     DeleteStore := DeleteStore others;
     GeneratePieceCommitment := GeneratePieceCommitment others;
     GeneratePieceReader := GeneratePieceReader others;
     providerstates.SendSignedResponse := fun resp =>
       match snd (run (SendSignedResponse p resp)) with
       | Returned err => err
       | Panicked _ => None
       end;
     Disconnect := ConnsDisconnect p;
     FileStoreOpenFile := FileStoreOpenFile others;
     FileStoreDeleteFile := FileStoreDeleteFile others;
     LoadBlockLocationsFrom := LoadBlockLocationsFrom others;
     AddPieceBlockLocations := AddPieceBlockLocations others;
     AddDealForPiece := AddDealForPiece others;
     providerstates.RunCustomDecisionLogic := RunCustomDecisionLogic p |}.

(** How often the connection of a proposal is dropped while a handler that
    answers the client runs: by the handler, and by the environment inside
    each response the handler sends. *)
Definition disconnections (p : Provider) (log : list providerstates.Effect)
  : nat :=
  List.length
    (flat_map
       (fun e =>
          match e with
          | EnvDisconnect c => [c]
          | EnvSendSignedResponse resp =>
              flat_map
                (fun e' =>
                   match e' with
                   | Disconnected c => [c]
                   | _ => []
                   end)
                (fst (run (SendSignedResponse p resp)))
          | _ => []
          end)
       log).

End storageprovider.

(** A provider to ask, with one address and with none; a network whose
    stream answers with the ask of "t0miner", unsigned. *)
Definition askedProvider (addrs : list storageclient.Multiaddr)
  : storageclient.StorageProviderInfo :=
  storageclient.mkStorageProviderInfo "t0miner" "miner peer" addrs.

Definition askingNetwork (signature : option storagemarket.Signature)
  : storageclient.StorageMarketNetwork :=
  storageclient.mkNetwork
    (fun _ =>
       inr (storageclient.mkAskStream (fun _ => None)
              (inr (storageclient.mkAskResponse
                      (Some (storageclient.mkSignedStorageAsk
                               (Some (storageclient.mkStorageAsk "t0miner"
                                        testdata.defaultAsk))
                               signature)),
                    "signed bytes")))).

(** A provider without custom decision logic whose client is connected and
    whose stream takes, or refuses, what is written to it. *)
Definition plainProvider (written : option error) : storageprovider.Provider :=
  {| storageprovider.actor := "t0provider";
     storageprovider.spn :=
       testdata.testNode 50 9000000000 (testdata.published [42])
         providerstates.CompletionPending;
     storageprovider.DealStream := fun _ => inr (fun _ => written);
     storageprovider.ConnsDisconnect := fun _ => None;
     storageprovider.sign := fun _ => inr "provider signature";
     storageprovider.customDealDeciderFunc := None |}.

(** ** Proof tactics *)

(** Every comparison in terms of [<=?]. *)
Ltac normalize_comparisons :=
  unfold big.LessThan, big.GreaterThan;
  rewrite ?Z.gtb_ltb, ?Z.geb_leb; rewrite ?Z.ltb_antisym.

(** Case analysis on everything the environment answers, innermost first. *)
Ltac answer :=
  repeat (cbn;
          unfold providerstates.triggerIf, providerstates.orTrigger,
            providerstates.when;
          cbn;
          match goal with
          | |- context [match ?x with _ => _ end] =>
              lazymatch x with
              | context [match _ with _ => _ end] => fail
              | _ => destruct x
              end
          end).

(** A handler run on a deal whose state is known: every answer of the
    environment is followed to the calls made and the state reached. *)
Ltac handler_cases Hstate :=
  match type of Hstate with
  | storagemarket.State ?deal = _ => destruct deal; cbn in Hstate; subst
  end;
  unfold providerfsm.stepsTo, providerfsm.afterHandler, providerstates.logOf,
    providerfsm.ReplayEvents, providerfsm.Apply;
  answer; cbn; split; try reflexivity; tauto.

(** * Part II: properties *)

(** ** Machine integers and big integers *)

Module Uint64Facts.

Lemma modulus_pos : 0 < Uint64.modulus.
Proof. reflexivity. Qed.

Lemma add_inRange x y : Uint64.inRange (Uint64.add x y).
Proof. unfold Uint64.inRange, Uint64.add. apply Z.mod_pos_bound, modulus_pos. Qed.

Lemma add_exact x y : 0 <= x + y < Uint64.modulus -> Uint64.add x y = x + y.
Proof. intros H. unfold Uint64.add. now apply Z.mod_small. Qed.

Lemma add_wraps x y :
  Uint64.inRange x -> Uint64.inRange y -> Uint64.modulus <= x + y ->
  Uint64.add x y = x + y - Uint64.modulus.
Proof.
  unfold Uint64.inRange, Uint64.add. intros Hx Hy Hov.
  symmetry. apply Z.mod_unique_pos with (q := 1); lia.
Qed.

End Uint64Facts.

Module Int64Facts.

Lemma ofUint64_small x : x < 2 ^ 63 -> Int64.ofUint64 x = x.
Proof.
  intros H. unfold Int64.ofUint64. destruct (Z.ltb_spec x (2 ^ 63)); lia.
Qed.

End Int64Facts.

Module bigFacts.

Lemma Min_spec a b : big.Min a b = Z.min a b.
Proof. unfold big.Min. destruct (Z.ltb_spec a b); lia. Qed.

Lemma Div_pos a b : 0 < b -> big.Div a b = Some (a / b).
Proof.
  intros Hb. unfold big.Div.
  destruct (Z.eqb_spec b 0); [lia|].
  destruct (Z.ltb_spec b 0); [lia|reflexivity].
Qed.

Lemma Div_zero a : big.Div a 0 = None.
Proof. reflexivity. Qed.

Lemma Div_None a b : big.Div a b = None <-> b = 0.
Proof.
  unfold big.Div. destruct (Z.eqb_spec b 0); split; intros; congruence.
Qed.

Lemma Uint64_fits a : Uint64.inRange a -> big.Uint64 a = a.
Proof.
  unfold Uint64.inRange, big.Uint64. intros H.
  rewrite Z.abs_eq by lia. now apply Z.mod_small.
Qed.

Lemma Uint64_nonneg a : 0 <= a -> big.Uint64 a = a mod Uint64.modulus.
Proof. intros H. unfold big.Uint64. now rewrite Z.abs_eq. Qed.

Example String_9765 : big.String 9765 = "9765".
Proof. reflexivity. Qed.

Example String_negative : big.String (-12) = "-12".
Proof. reflexivity. Qed.

Example Div_is_euclidean :
  big.Div (-7) 2 = Some (-4) /\ big.Div (-7) (-2) = Some 4.
Proof. split; reflexivity. Qed.

End bigFacts.

(** ** The payment ratchet ([ClientEventPaymentSent]) *)

Module PaymentSent.

Import rm fsm clientstates scenarios.

(** The action written out, for a price that is not zero. *)
Lemma onPaymentSent_eq deal q :
  big.Div (big.Sub (PaymentRequested deal)
             (big.Min (PaymentRequested deal)
                (big.Sub (UnsealPrice deal) (UnsealFundsPaid deal))))
          (PricePerByte deal) = Some q ->
  exists deal',
    onPaymentSent deal = ActionOk deal'
    /\ FundsSpent deal' = FundsSpent deal + PaymentRequested deal
    /\ UnsealFundsPaid deal' =
         UnsealFundsPaid deal
         + Z.min (PaymentRequested deal)
                 (UnsealPrice deal - UnsealFundsPaid deal)
    /\ PaymentRequested deal' = 0
    /\ CurrentInterval deal' =
         (if big.Uint64 q >=? CurrentInterval deal
          then Uint64.add (CurrentInterval deal) (PaymentIntervalIncrease deal)
          else CurrentInterval deal)
    /\ BytesPaidFor deal' = Uint64.add (BytesPaidFor deal) (big.Uint64 q)
    /\ PricePerByte deal' = PricePerByte deal
    /\ UnsealPrice deal' = UnsealPrice deal
    /\ PaymentInterval deal' = PaymentInterval deal
    /\ PaymentIntervalIncrease deal' = PaymentIntervalIncrease deal
    /\ TotalReceived deal' = TotalReceived deal
    /\ Status deal' = Status deal
    /\ Message deal' = Message deal.
Proof.
  intros Hdiv. unfold onPaymentSent.
  cbn [PaymentRequested UnsealPrice UnsealFundsPaid PricePerByte
       CurrentInterval PaymentIntervalIncrease set_FundsSpent].
  rewrite Hdiv. rewrite <- bigFacts.Min_spec. unfold big.Add, big.Sub.
  destruct (big.Uint64 q >=? CurrentInterval deal);
    eexists; (split; [reflexivity|]); cbn; repeat split; reflexivity.
Qed.

Lemma quotient_nonneg deal :
  0 < PricePerByte deal ->
  0 <= (PaymentRequested deal
        - Z.min (PaymentRequested deal)
                (UnsealPrice deal - UnsealFundsPaid deal))
       / PricePerByte deal.
Proof. intros Hp. apply Z.div_pos; lia. Qed.

(** The action on a positive price, with the [uint64] arithmetic written
    out. *)
Lemma onPaymentSent_positive_price deal :
  0 < PricePerByte deal ->
  let paymentForUnsealing :=
    Z.min (PaymentRequested deal) (UnsealPrice deal - UnsealFundsPaid deal) in
  let quotient :=
    (PaymentRequested deal - paymentForUnsealing) / PricePerByte deal in
  let bytesPaidFor := quotient mod Uint64.modulus in
  exists deal',
    onPaymentSent deal = ActionOk deal'
    /\ FundsSpent deal' = FundsSpent deal + PaymentRequested deal
    /\ UnsealFundsPaid deal' = UnsealFundsPaid deal + paymentForUnsealing
    /\ PaymentRequested deal' = 0
    /\ CurrentInterval deal' =
         (if bytesPaidFor >=? CurrentInterval deal
          then (CurrentInterval deal + PaymentIntervalIncrease deal)
               mod Uint64.modulus
          else CurrentInterval deal)
    /\ BytesPaidFor deal' =
         (BytesPaidFor deal + bytesPaidFor) mod Uint64.modulus
    /\ PricePerByte deal' = PricePerByte deal
    /\ UnsealPrice deal' = UnsealPrice deal
    /\ PaymentInterval deal' = PaymentInterval deal
    /\ PaymentIntervalIncrease deal' = PaymentIntervalIncrease deal
    /\ TotalReceived deal' = TotalReceived deal
    /\ Status deal' = Status deal
    /\ Message deal' = Message deal.
Proof.
  intros Hp pfu quotient bpf.
  destruct (onPaymentSent_eq deal quotient) as (deal' & Hrun & Hrest).
  { unfold big.Sub. rewrite bigFacts.Min_spec. now apply bigFacts.Div_pos. }
  exists deal'. split; [exact Hrun|].
  rewrite bigFacts.Uint64_nonneg in Hrest by (apply quotient_nonneg; exact Hp).
  exact Hrest.
Qed.

Lemma uint64Fields_preserved deal deal' :
  uint64Fields deal ->
  PaymentInterval deal' = PaymentInterval deal ->
  PaymentIntervalIncrease deal' = PaymentIntervalIncrease deal ->
  TotalReceived deal' = TotalReceived deal ->
  Uint64.inRange (BytesPaidFor deal') ->
  Uint64.inRange (CurrentInterval deal') ->
  uint64Fields deal'.
Proof.
  unfold uint64Fields. intros (H1 & H2 & H3 & H4 & H5) E1 E2 E3 B C.
  rewrite E1, E2, E3. auto.
Qed.

(** C1, as the specification states it, fails on a well-formed record:
    with [PaymentIntervalIncrease] at the top of the [uint64] range the
    interval wraps round to 9999 instead of growing. *)
Lemma ratchet_overflow_counterexample :
  ~ (forall deal,
        uint64Fields deal -> 0 < PricePerByte deal ->
        exists deal', onPaymentSent deal = ActionOk deal'
                      /\ ratchetSpec deal deal').
Proof.
  intros H.
  destruct (H hugeIncrease) as (deal' & Hrun & Hspec).
  - unfold uint64Fields, Uint64.inRange. cbn. unfold Uint64.max, Uint64.modulus. lia.
  - reflexivity.
  - vm_compute in Hrun. injection Hrun as <-.
    destruct Hspec as (_ & Hci & _). vm_compute in Hci. discriminate Hci.
Qed.

(** C1 (amended).  On every well-formed record with a positive price the
    action computes the five steps with the [uint64] quantities taken
    modulo 2^64: [bytesPaidFor] is the quotient's low 64 bits and the two
    [uint64] sums wrap.  Whenever the quotient fits a [uint64] and neither
    sum overflows, the post-state is exactly the one of the five steps.  On
    the scenario of section 8 (4) the post-state has UnsealFundsPaid = 5000,
    BytesPaidFor = 10131, CurrentInterval = 11000, FundsSpent = 10136000. *)
Theorem payment_ratchet :
  (forall deal,
      uint64Fields deal -> 0 < PricePerByte deal ->
      let paymentForUnsealing :=
        Z.min (PaymentRequested deal)
              (UnsealPrice deal - UnsealFundsPaid deal) in
      let quotient :=
        (PaymentRequested deal - paymentForUnsealing) / PricePerByte deal in
      let bytesPaidFor := quotient mod Uint64.modulus in
      exists deal',
        onPaymentSent deal = ActionOk deal'
        /\ FundsSpent deal' = FundsSpent deal + PaymentRequested deal
        /\ UnsealFundsPaid deal' = UnsealFundsPaid deal + paymentForUnsealing
        /\ PaymentRequested deal' = 0
        /\ CurrentInterval deal' =
             (if bytesPaidFor >=? CurrentInterval deal
              then (CurrentInterval deal + PaymentIntervalIncrease deal)
                   mod Uint64.modulus
              else CurrentInterval deal)
        /\ BytesPaidFor deal' =
             (BytesPaidFor deal + bytesPaidFor) mod Uint64.modulus
        /\ (quotient < Uint64.modulus ->
            (CurrentInterval deal <= quotient ->
             CurrentInterval deal + PaymentIntervalIncrease deal
             < Uint64.modulus) ->
            BytesPaidFor deal + quotient < Uint64.modulus ->
            ratchetSpec deal deal'))
  /\ (exists deal',
         onPaymentSent unsealScenario = ActionOk deal'
         /\ UnsealFundsPaid deal' = 5000
         /\ BytesPaidFor deal' = 10131
         /\ CurrentInterval deal' = 11000
         /\ FundsSpent deal' = 10136000).
Proof.
  split.
  - intros deal Hwf Hp pfu quotient bpf.
    destruct (onPaymentSent_positive_price deal Hp)
      as (deal' & Hrun & Hfs & Hufp & Hpr & Hci & Hbpf & _).
    fold pfu quotient bpf in Hufp, Hci, Hbpf.
    exists deal'. do 6 (split; [assumption|]).
    intros Hq Hnowrap Hsum.
    pose proof (quotient_nonneg deal Hp) as Hq0. fold pfu quotient in Hq0.
    destruct Hwf as (_ & Hpii & _ & Hb & Hc). unfold Uint64.inRange in *.
    assert (Hbq : bpf = quotient) by (unfold bpf; apply Z.mod_small; lia).
    unfold ratchetSpec. fold pfu quotient.
    rewrite Hbq in Hci, Hbpf.
    repeat split; try assumption.
    + rewrite Hci. destruct (Z.geb_spec quotient (CurrentInterval deal)).
      * apply Z.mod_small. lia.
      * reflexivity.
    + rewrite Hbpf. apply Z.mod_small. lia.
  - eexists. split; [vm_compute; reflexivity|]. repeat split; reflexivity.
Qed.

(** The amended ratchet at a record whose interval wraps. *)
Lemma payment_ratchet_witness :
  exists deal',
    onPaymentSent hugeIncrease = ActionOk deal'
    /\ CurrentInterval deal' = 9999
    /\ BytesPaidFor deal' = 10131.
Proof.
  destruct (proj1 payment_ratchet hugeIncrease)
    as (deal' & Hrun & _ & _ & _ & Hci & Hbpf & _).
  - unfold uint64Fields, Uint64.inRange. cbn.
    unfold Uint64.max, Uint64.modulus. lia.
  - reflexivity.
  - exists deal'. split; [exact Hrun|]. split.
    + rewrite Hci. reflexivity.
    + rewrite Hbpf. reflexivity.
Defined.

(** *** Invariants of the deal record *)

(** What a payment keeps true. *)
Lemma onPaymentSent_step deal :
  uint64Fields deal ->
  0 < PricePerByte deal ->
  UnsealFundsPaid deal <= UnsealPrice deal ->
  exists deal',
    onPaymentSent deal = ActionOk deal'
    /\ uint64Fields deal'
    /\ PricePerByte deal' = PricePerByte deal
    /\ UnsealPrice deal' = UnsealPrice deal
    /\ PaymentIntervalIncrease deal' = PaymentIntervalIncrease deal
    /\ PaymentRequested deal' = 0
    /\ FundsSpent deal' = FundsSpent deal + PaymentRequested deal
    /\ UnsealFundsPaid deal' <= UnsealPrice deal'
    /\ (CurrentInterval deal' = CurrentInterval deal
        \/ CurrentInterval deal' =
             (CurrentInterval deal + PaymentIntervalIncrease deal)
             mod Uint64.modulus).
Proof.
  intros Hwf Hp Hu.
  destruct (onPaymentSent_positive_price deal Hp)
    as (deal' & Hrun & Hfs & Hufp & Hpr & Hci & Hbpf & Ep & Eu & Ei & Eii
        & Et & _).
  exists deal'. split; [exact Hrun|]. split.
  { apply (uint64Fields_preserved deal); try assumption.
    - rewrite Hbpf. apply Z.mod_pos_bound. reflexivity.
    - rewrite Hci. destruct (_ >=? _).
      + apply Z.mod_pos_bound. reflexivity.
      + apply Hwf. }
  repeat (split; [assumption|]). split.
  - rewrite Hufp, Eu. lia.
  - rewrite Hci. destruct (_ >=? _); [right|left]; reflexivity.
Qed.

Lemma payments_run owed :
  forall deal,
    uint64Fields deal ->
    0 < PricePerByte deal ->
    PaymentRequested deal = 0 ->
    UnsealFundsPaid deal <= UnsealPrice deal ->
    CurrentInterval deal
    + Z.of_nat (List.length owed) * PaymentIntervalIncrease deal
    < Uint64.modulus ->
    exists deal' k,
      payments deal owed = ActionOk deal'
      /\ FundsSpent deal' = FundsSpent deal + total owed
      /\ 0 <= k <= Z.of_nat (List.length owed)
      /\ CurrentInterval deal' =
           CurrentInterval deal + k * PaymentIntervalIncrease deal
      /\ UnsealFundsPaid deal' <= UnsealPrice deal'.
Proof.
  induction owed as [|p owed IH]; intros deal Hwf Hp Hpr0 Hu Hroom.
  - exists deal, 0. cbn. repeat split; lia.
  - cbn [payments].
    destruct (onPaymentSent_step (addPaymentRequested p deal))
      as (d1 & Hrun & Hwf1 & Ep & Eu & Eii & Hpr & Hfs & Hu1 & Hci);
      try assumption.
    rewrite Hrun. cbn in Ep, Eu, Eii, Hfs, Hci. unfold big.Add in Hfs.
    rewrite Hpr0 in Hfs.
    assert (Hpii : 0 <= PaymentIntervalIncrease deal) by apply Hwf.
    assert (Hc0 : 0 <= CurrentInterval deal) by apply Hwf.
    cbn [List.length] in Hroom. rewrite Nat2Z.inj_succ in Hroom.
    pose proof (Nat2Z.is_nonneg (List.length owed)) as Hlen.
    unfold Uint64.modulus in *.
    assert (Hstep : CurrentInterval d1 = CurrentInterval deal
                    \/ CurrentInterval d1 =
                         CurrentInterval deal + PaymentIntervalIncrease deal).
    { destruct Hci as [->| ->]; [now left|right]. apply Z.mod_small. nia. }
    destruct (IH d1) as (deal' & k & Hrest & Hfs' & Hk & Hci' & Hu');
      try assumption.
    + rewrite Ep. exact Hp.
    + rewrite Eii. destruct Hstep as [->| ->]; nia.
    + rewrite Hfs, Eii in *. cbn [total fold_right]. fold (total owed).
      destruct Hstep as [E|E]; rewrite E in Hci'.
      * exists deal', k. cbn [List.length]. rewrite Nat2Z.inj_succ.
        repeat split; try assumption; lia.
      * exists deal', (k + 1). cbn [List.length]. rewrite Nat2Z.inj_succ.
        repeat split; try assumption; lia.
Qed.

(** C4, as the specification states it, fails on a well-formed record: the
    interval of [everyByte] is 1 before the payment and 0 after it, neither
    unchanged nor increased by [PaymentIntervalIncrease]. *)
Lemma interval_step_counterexample :
  ~ (forall deal,
        uint64Fields deal ->
        0 <= PaymentRequested deal -> 0 < PricePerByte deal ->
        UnsealFundsPaid deal <= UnsealPrice deal ->
        exists deal',
          onPaymentSent deal = ActionOk deal'
          /\ UnsealFundsPaid deal' <= UnsealPrice deal'
          /\ (CurrentInterval deal' = CurrentInterval deal
              \/ CurrentInterval deal' =
                   CurrentInterval deal + PaymentIntervalIncrease deal)).
Proof.
  intros H.
  destruct (H everyByte) as (deal' & Hrun & _ & Hci).
  - unfold uint64Fields, Uint64.inRange. cbn.
    unfold Uint64.max, Uint64.modulus. lia.
  - cbn. lia.
  - reflexivity.
  - cbn. lia.
  - vm_compute in Hrun. injection Hrun as <-.
    vm_compute in Hci. destruct Hci as [Hci|Hci]; discriminate Hci.
Qed.

(** C4 (amended).  On a well-formed record with PricePerByte > 0 and
    UnsealFundsPaid <= UnsealPrice the action keeps UnsealFundsPaid <=
    UnsealPrice, and CurrentInterval is unchanged or becomes
    (CurrentInterval + PaymentIntervalIncrease) mod 2^64: an increase by
    exactly PaymentIntervalIncrease when that sum fits a [uint64].  Over a
    run of payments that leaves room for one increase per payment,
    CurrentInterval ends at its start plus a whole number of steps of
    PaymentIntervalIncrease, at most one per payment, and FundsSpent grows by
    the sum of the payments (the run starts with nothing requested, as
    after [Client.Retrieve] or after a payment). *)
Theorem payment_invariants :
  (forall deal,
      uint64Fields deal ->
      0 < PricePerByte deal ->
      UnsealFundsPaid deal <= UnsealPrice deal ->
      exists deal',
        onPaymentSent deal = ActionOk deal'
        /\ UnsealFundsPaid deal' <= UnsealPrice deal'
        /\ (CurrentInterval deal' = CurrentInterval deal
            \/ CurrentInterval deal' =
                 (CurrentInterval deal + PaymentIntervalIncrease deal)
                 mod Uint64.modulus)
        /\ (CurrentInterval deal + PaymentIntervalIncrease deal
            < Uint64.modulus ->
            CurrentInterval deal' = CurrentInterval deal
            \/ CurrentInterval deal' =
                 CurrentInterval deal + PaymentIntervalIncrease deal))
  /\ (forall owed deal,
         uint64Fields deal ->
         0 < PricePerByte deal ->
         PaymentRequested deal = 0 ->
         UnsealFundsPaid deal <= UnsealPrice deal ->
         CurrentInterval deal
         + Z.of_nat (List.length owed) * PaymentIntervalIncrease deal
         < Uint64.modulus ->
         exists deal' k,
           payments deal owed = ActionOk deal'
           /\ FundsSpent deal' = FundsSpent deal + total owed
           /\ 0 <= k <= Z.of_nat (List.length owed)
           /\ CurrentInterval deal' =
                CurrentInterval deal + k * PaymentIntervalIncrease deal
           /\ UnsealFundsPaid deal' <= UnsealPrice deal').
Proof.
  split.
  - intros deal Hwf Hp Hu.
    destruct (onPaymentSent_step deal Hwf Hp Hu)
      as (deal' & Hrun & _ & _ & _ & _ & _ & _ & Hu' & Hci).
    exists deal'. repeat (split; [assumption|]).
    intros Hroom. destruct Hci as [Hci|Hci]; [now left|right].
    rewrite Hci. apply Z.mod_small.
    destruct Hwf as (_ & Hpii & _ & _ & Hc). unfold Uint64.inRange in *. lia.
  - intros owed deal. apply payments_run.
Qed.

(** The two vouchers of the integration test, paid one after the other on
    the scenario's deal. *)
Lemma payment_invariants_witness :
  exists deal' k,
    payments (newClientDealState cid.Undef 0 1000 10000 1000 5000 38000000
                "provider" "client wallet" "miner wallet" None)
             [10136000; 9784000] = ActionOk deal'
    /\ FundsSpent deal' = 19920000
    /\ 0 <= k <= 2
    /\ CurrentInterval deal' = 10000 + k * 1000
    /\ UnsealFundsPaid deal' <= UnsealPrice deal'.
Proof.
  destruct (proj2 payment_invariants [10136000; 9784000]
              (newClientDealState cid.Undef 0 1000 10000 1000 5000 38000000
                 "provider" "client wallet" "miner wallet" None))
    as (deal' & k & Hrun & Hfs & Hk & Hci & Hu).
  - unfold uint64Fields, Uint64.inRange, Uint64.modulus. cbn. lia.
  - reflexivity.
  - reflexivity.
  - cbn. lia.
  - reflexivity.
  - exists deal', k. repeat split; try assumption; apply Hk.
Defined.

(** *** The missing guard on the price *)

Lemma onPaymentSent_cases deal :
  (PricePerByte deal = 0 /\ onPaymentSent deal = ActionPanic "division by zero")
  \/ (PricePerByte deal <> 0 /\ exists deal', onPaymentSent deal = ActionOk deal').
Proof.
  unfold onPaymentSent.
  cbn [PaymentRequested UnsealPrice UnsealFundsPaid PricePerByte set_FundsSpent].
  destruct (big.Div _ (PricePerByte deal)) as [q|] eqn:Hdiv.
  - right. split.
    + intros Hz. rewrite Hz in Hdiv. discriminate Hdiv.
    + eexists. reflexivity.
  - left. split; [|reflexivity]. now apply bigFacts.Div_None in Hdiv.
Qed.

(** C10.  The action divides by PricePerByte without a guard: it panics
    with a division by zero exactly on the records whose PricePerByte is
    zero, and returns a record exactly on the others; the table lets a free
    retrieval with an unseal fee reach that panic, through the events of
    [unsealPaymentRun]. *)
Theorem paymentSent_needs_nonzero_price :
  (forall deal,
      onPaymentSent deal = ActionPanic "division by zero"
      <-> PricePerByte deal = 0)
  /\ (forall deal,
         (exists deal', onPaymentSent deal = ActionOk deal')
         <-> PricePerByte deal <> 0)
  /\ (forall DealStatuses,
         deliverAll DealStatuses freeRetrieval unsealPaymentRun
         = Crashed "division by zero").
Proof.
  split; [|split].
  - intros deal. destruct (onPaymentSent_cases deal) as [[Hz Hr]|[Hnz [d' Hr]]];
      rewrite Hr; split; intros; congruence.
  - intros deal. destruct (onPaymentSent_cases deal) as [[Hz Hr]|[Hnz [d' Hr]]];
      rewrite Hr; split; intros H.
    + destruct H as [x Hx]. discriminate Hx.
    + contradiction.
    + exact Hnz.
    + eexists. reflexivity.
  - intros DealStatuses. reflexivity.
Qed.

End PaymentSent.

(** ** The retrieval client machine *)

Module ClientMachine.

Import rm fsm clientstates scenarios.

Lemma isFinalityState_In s :
  isFinalityState s = true <-> In s ClientFinalityStates.
Proof.
  unfold isFinalityState. rewrite existsb_exists. split.
  - intros (x & Hin & Heq). unfold DealStatus_eqb in Heq.
    destruct (DealStatus_eq_dec s x); [subst; exact Hin|discriminate].
  - intros Hin. exists s. split; [exact Hin|].
    unfold DealStatus_eqb. destruct (DealStatus_eq_dec s s); congruence.
Qed.

Lemma isFinalityState_not_In s :
  isFinalityState s = false <-> ~ In s ClientFinalityStates.
Proof.
  rewrite <- isFinalityState_In. destruct (isFinalityState s); split; congruence.
Qed.

Section WithStatusNames.

Variable DealStatuses : DealStatus -> string.

(** [ClientEventCancel] is declared [FromAny]: the table takes it from every
    status. *)
Lemma Apply_Cancel deal :
  Apply DealStatuses deal ClientEventCancel
  = Applied (set_Status DealStatusCancelling
               (set_Message "Retrieval Cancelled" deal)).
Proof. unfold Apply. destruct (Status deal); reflexivity. Qed.

(** C5.  A deal in a finality state (Errored, Completed, Cancelled,
    Rejected, DealNotFound) receives no event, so its Status never changes;
    ClientEventCancel delivered in any other state moves the deal to
    Cancelling with Message "Retrieval Cancelled". *)
Theorem finality_absorbing_cancel_elsewhere deal :
  (In (Status deal) ClientFinalityStates ->
   forall evt,
     Send DealStatuses deal evt = Terminated
     /\ Status (after deal (Send DealStatuses deal evt)) = Status deal)
  /\ (~ In (Status deal) ClientFinalityStates ->
      exists deal',
        Send DealStatuses deal ClientEventCancel = Transitioned deal'
        /\ Status deal' = DealStatusCancelling
        /\ Message deal' = "Retrieval Cancelled").
Proof.
  split.
  - intros Hfin evt. apply isFinalityState_In in Hfin.
    unfold Send. rewrite Hfin. split; reflexivity.
  - intros Hnot. apply isFinalityState_not_In in Hnot.
    unfold Send. rewrite Hnot, Apply_Cancel.
    eexists. split; [reflexivity|]. split; reflexivity.
Qed.

(** C6.  From DealStatusCheckComplete, ClientEventEarlyTermination moves
    the deal to DealStatusErrored and sets Message to "Provider sent complete
    status without sending all data"; ClientEventCompleteVerified moves it to
    DealStatusCompleted and leaves Message as it was. *)
Theorem checkComplete_outcomes deal :
  Status deal = DealStatusCheckComplete ->
  (exists deal',
      Apply DealStatuses deal ClientEventEarlyTermination = Applied deal'
      /\ Send DealStatuses deal ClientEventEarlyTermination
         = Transitioned deal'
      /\ Status deal' = DealStatusErrored
      /\ Message deal' =
           "Provider sent complete status without sending all data")
  /\ (exists deal',
         Apply DealStatuses deal ClientEventCompleteVerified = Applied deal'
         /\ Send DealStatuses deal ClientEventCompleteVerified
            = Transitioned deal'
         /\ Status deal' = DealStatusCompleted
         /\ Message deal' = Message deal).
Proof.
  intros Hs. unfold Send, Apply. rewrite Hs. cbn.
  split; eexists; repeat split; reflexivity.
Qed.

(** The table by itself keeps no deal where it is: ClientEventCancel is
    declared FromAny, so the event processor moves a deal in any status, a
    finality status included, to Cancelling with Message "Retrieval
    Cancelled".  That a finished deal stays finished is the engine's doing,
    which sends it no event. *)
Theorem cancel_is_declared_from_any deal :
  exists deal',
    Apply DealStatuses deal ClientEventCancel = Applied deal'
    /\ Status deal' = DealStatusCancelling
    /\ Message deal' = "Retrieval Cancelled".
Proof.
  rewrite Apply_Cancel. eexists. split; [reflexivity|]. split; reflexivity.
Qed.

End WithStatusNames.

(** C5 on a completed deal, which a cancel leaves as it is, and on a deal
    still checking its completion, which a cancel moves to Cancelling. *)
Lemma finality_absorbing_cancel_elsewhere_witness :
  Status (after completedDeal
            (Send (fun _ => "") completedDeal ClientEventCancel))
  = DealStatusCompleted
  /\ exists deal',
       Send (fun _ => "") checkingDeal ClientEventCancel = Transitioned deal'
       /\ Status deal' = DealStatusCancelling
       /\ Message deal' = "Retrieval Cancelled".
Proof.
  split.
  - apply (proj1 (finality_absorbing_cancel_elsewhere (fun _ => "")
                    completedDeal)).
    cbn. tauto.
  - apply (proj2 (finality_absorbing_cancel_elsewhere (fun _ => "")
                    checkingDeal)).
    cbn. intuition discriminate.
Defined.

(** C6 on a deal whose completion is being checked. *)
Lemma checkComplete_outcomes_witness :
  (exists deal',
      Apply (fun _ => "") checkingDeal ClientEventEarlyTermination
      = Applied deal'
      /\ Send (fun _ => "") checkingDeal ClientEventEarlyTermination
         = Transitioned deal'
      /\ Status deal' = DealStatusErrored
      /\ Message deal' =
           "Provider sent complete status without sending all data")
  /\ (exists deal',
         Apply (fun _ => "") checkingDeal ClientEventCompleteVerified
         = Applied deal'
         /\ Send (fun _ => "") checkingDeal ClientEventCompleteVerified
            = Transitioned deal'
         /\ Status deal' = DealStatusCompleted
         /\ Message deal' = Message checkingDeal).
Proof.
  apply (checkComplete_outcomes (fun _ => "") checkingDeal). reflexivity.
Defined.

End ClientMachine.

(** ** The admission policy of the storage provider *)

Module Admission.

Import storagemarket providerstates policy testdata.

#[local] Open Scope handler_scope.

#[local] Arguments String.append : simpl never.
#[local] Arguments big.String : simpl never.
#[local] Arguments Z.pow : simpl never.
#[local] Arguments Z.mul : simpl never.
#[local] Arguments Z.div : simpl never.
#[local] Arguments Z.of_nat : simpl never.
#[local] Arguments Z.leb : simpl never.
#[local] Arguments Z.ltb : simpl never.
#[local] Arguments Z.gtb : simpl never.
#[local] Arguments Z.geb : simpl never.
#[local] Arguments Z.eqb : simpl never.
#[local] Arguments String.eqb : simpl never.
#[local] Arguments Int64.ofUint64 : simpl never.

Lemma ValidateDealProposal_run actors environment deal :
  ValidateDealProposal actors environment deal
  = run deal (computedChecks actors environment deal).
Proof.
  unfold ValidateDealProposal, run, computedChecks.
  unfold check1, check2Amended, check2, check3, check4, check5Amended, check5, check6Amended, check6,
    check7, check8Amended, check9, check10, check11Computed, check12, check13, check14, verdict.
  unfold tok, curEpoch, policy.node, policy.proposal, askPrice, DealMaxLabelSize.
  cbn [evaluated find holds message asks negb app].
  destruct (GetChainHead (Node environment)) as [err|[tok curEpoch]];
    [reflexivity|].
  cbn. destruct (VerifyProposal (Node environment) deal tok) as [err|]; cbn;
    [reflexivity|].
  destruct (String.eqb (market.Provider (Proposal deal)) (Address environment));
    cbn; [|reflexivity].
  normalize_comparisons.
  destruct (Z.of_nat (String.length (market.Label (Proposal deal))) <=? 256);
    cbn; [|reflexivity].
  destruct (Validate actors (market.PieceSize (Proposal deal))) as [err|]; cbn;
    [reflexivity|].
  destruct (market.PieceCID (Proposal deal)) as [|prefix digest]; cbn;
    [reflexivity|].
  destruct (cid.Prefix_eqb prefix (PieceCIDPrefix actors)); cbn; [|reflexivity].
  destruct (market.EndEpoch (Proposal deal) <=? market.StartEpoch (Proposal deal));
    cbn; [reflexivity|].
  destruct (curEpoch <=? market.StartEpoch (Proposal deal)); cbn; [|reflexivity].
  destruct (DealDurationBounds actors (market.PieceSize (Proposal deal)))
    as [minDuration maxDuration]; cbn.
  normalize_comparisons.
  destruct (minDuration <=? Duration actors (Proposal deal)); cbn; [|reflexivity].
  destruct (Duration actors (Proposal deal) <=? maxDuration); cbn; [|reflexivity].
  destruct (DealProviderCollateralBounds (Node environment)
              (market.PieceSize (Proposal deal))
              (market.VerifiedDeal (Proposal deal))) as [err|[pcMin pcMax]];
    cbn; [reflexivity|].
  normalize_comparisons.
  destruct (pcMin <=? market.ProviderCollateral (Proposal deal)); cbn;
    [|reflexivity].
  destruct (market.ProviderCollateral (Proposal deal) <=? pcMax); cbn;
    [|reflexivity].
  rewrite bigFacts.Div_pos by reflexivity. unfold big.Mul, policy.proposal.
  cbn. normalize_comparisons.
  destruct (_ <=? market.StoragePricePerEpoch (Proposal deal)); cbn;
    [|reflexivity].
  destruct (MinPieceSize (Ask environment) <=? market.PieceSize (Proposal deal));
    cbn; [|reflexivity].
  destruct (market.PieceSize (Proposal deal) <=? MaxPieceSize (Ask environment));
    cbn; [|reflexivity].
  destruct (GetBalance (Node environment) (market.Client (Proposal deal)) tok)
    as [err|balance]; cbn; [reflexivity|].
  normalize_comparisons.
  destruct (ClientBalanceRequirement actors (Proposal deal) <=? Available balance);
    cbn; [|reflexivity].
  destruct (market.VerifiedDeal (Proposal deal)); cbn; [|reflexivity].
  destruct (GetDataCap (Node environment) (market.Client (Proposal deal)) tok)
    as [err|[dataCap|]]; cbn; try reflexivity.
  normalize_comparisons.
  destruct (market.PieceSize (Proposal deal) <=? dataCap); reflexivity.
Qed.


(** What the checks ask of the node triggers nothing. *)
Lemma evaluated_triggers_nothing checks :
  Forall (fun c => triggered (asks c) = []) checks ->
  triggered (evaluated checks) = [].
Proof.
  induction 1 as [|c rest Hc _ IH]; [reflexivity|].
  cbn [evaluated]. unfold triggered in *. rewrite flat_map_app, Hc.
  destruct (holds c); [exact IH|reflexivity].
Qed.

Lemma run_triggers deal checks :
  Forall (fun c => triggered (asks c) = []) checks ->
  triggered (logOf (run deal checks)) = [verdict checks].
Proof.
  intros H. unfold run, logOf. cbn [fst].
  change (triggered (?e :: ?l)) with (triggered [e] ++ triggered l)%list.
  unfold triggered at 1. cbn [flat_map app].
  unfold triggered. rewrite flat_map_app.
  fold (triggered (evaluated checks)).
  rewrite (evaluated_triggers_nothing checks H). reflexivity.
Qed.

Lemma computedChecks_ask_only actors environment deal :
  Forall (fun c => triggered (asks c) = [])
    (computedChecks actors environment deal).
Proof.
  unfold computedChecks. repeat constructor.
  cbn. destruct (market.VerifiedDeal _); reflexivity.
Qed.

Lemma verdict_deciding checks :
  verdict checks = ProviderEventDealDeciding
  <-> forallb holds checks = true.
Proof.
  unfold verdict. induction checks as [|c rest IH]; cbn.
  - tauto.
  - destruct (holds c); cbn.
    + exact IH.
    + split; discriminate.
Qed.

Lemma verdict_passing c rest :
  holds c = true -> verdict (c :: rest) = verdict rest.
Proof. intros H. unfold verdict. cbn. now rewrite H. Qed.

Lemma verdict_failing c rest :
  holds c = false ->
  verdict (c :: rest) = ProviderEventDealRejected (message c).
Proof. intros H. unfold verdict. cbn. now rewrite H. Qed.

Lemma amended_is_computed actors environment deal :
  market.PieceSize (Proposal deal) < 2 ^ 63 ->
  amendedChecks actors environment deal
  = computedChecks actors environment deal.
Proof.
  intros Hsize. unfold amendedChecks, computedChecks.
  unfold check11, check11Computed, policy.proposal.
  now rewrite Int64Facts.ofUint64_small.
Qed.

(** *** The scenarios of section 8 *)

Example valid_proposal_is_admitted :
  triggered (logOf (ValidateDealProposal testActors scenarioEnvironment
                      validDeal))
  = [ProviderEventDealDeciding].
Proof. vm_compute. reflexivity. Qed.

Example price_per_epoch_too_low :
  triggered (logOf (ValidateDealProposal testActors scenarioEnvironment
                      cheapDeal))
  = [ProviderEventDealRejected
       "storage price per epoch less than asking price: 5000 < 9765"].
Proof. vm_compute. reflexivity. Qed.

Example duration_too_short :
  triggered (logOf (ValidateDealProposal testActors scenarioEnvironment
                      shortDeal))
  = [ProviderEventDealRejected
       "deal duration out of bounds (min, max, provided): 518400, 1555200, 518399"].
Proof. vm_compute. reflexivity. Qed.

Example start_epoch_elapsed :
  triggered (logOf (ValidateDealProposal testActors scenarioEnvironment
                      lateDeal))
  = [ProviderEventDealRejected "deal start epoch has already elapsed"].
Proof. vm_compute. reflexivity. Qed.

(** *** C2 *)

(** C2, as stated, fails: for the valid proposal of section 8 (1) at the
    epoch it starts in, check 8 of the specification fails and its reference
    validation rejects, while the handler admits the deal. *)
Lemma reference_validation_counterexample :
  ~ (forall actors environment deal,
        ValidateDealProposal actors environment deal
        = run deal (specChecks actors environment deal)).
Proof.
  intros H. specialize (H testActors boundaryEnvironment validDeal).
  apply (f_equal (fun m => triggered (logOf m))) in H.
  vm_compute in H. discriminate H.
Qed.

(** C2 (amended).  For piece sizes below 2^63, ValidateDealProposal is
    the ordered validation of section 4.5 with four checks read as the code
    reads them: check 8 is StartEpoch >= curEpoch; check 2 and check 5 carry
    the error of the verification and of the size validation, whatever its
    text; check 6 reports an undefined PieceCID as "proposal PieceCID
    undefined".  The handler tags the peer, evaluates the checks in order,
    asks the node nothing for a check after the first that fails, triggers
    ProviderEventDealDeciding exactly when all fourteen hold, and otherwise
    triggers ProviderEventDealRejected with the message of the first failing
    check. *)
Theorem validation_refines_policy actors environment deal :
  market.PieceSize (Proposal deal) < 2 ^ 63 ->
  let checks := amendedChecks actors environment deal in
  let handler := ValidateDealProposal actors environment deal in
  handler = run deal checks
  /\ logOf handler
     = (EnvTagPeer (Client deal) (cid.String (ProposalCid deal))
        :: evaluated checks ++ [Trigger (verdict checks)])%list
  /\ (triggered (logOf handler) = [ProviderEventDealDeciding]
      <-> forallb holds checks = true)
  /\ (forall c,
         find (fun c => negb (holds c)) checks = Some c ->
         triggered (logOf handler) = [ProviderEventDealRejected (message c)]).
Proof.
  intros Hsize checks handler.
  assert (Hrun : handler = run deal checks).
  { unfold handler, checks. rewrite amended_is_computed by exact Hsize.
    apply ValidateDealProposal_run. }
  assert (Htrig : triggered (logOf handler) = [verdict checks]).
  { rewrite Hrun. apply run_triggers. unfold checks.
    rewrite amended_is_computed by exact Hsize.
    apply computedChecks_ask_only. }
  split; [exact Hrun|]. split; [rewrite Hrun; reflexivity|]. split.
  - rewrite Htrig. rewrite <- verdict_deciding. split.
    + intros E. now injection E.
    + intros E. now rewrite E.
  - intros c Hc. rewrite Htrig. unfold verdict. now rewrite Hc.
Qed.

(** The amended policy on the proposal whose price is too low. *)
Lemma validation_refines_policy_witness :
  triggered (logOf (ValidateDealProposal testActors scenarioEnvironment
                      cheapDeal))
  = [ProviderEventDealRejected
       (message (check11 scenarioEnvironment cheapDeal))].
Proof.
  apply (proj2 (proj2 (proj2
           (validation_refines_policy testActors scenarioEnvironment cheapDeal
              ltac:(reflexivity))))).
  vm_compute. reflexivity.
Defined.

(** *** C3 *)

(** C3, as stated, fails at the boundary: the valid proposal of section 8
    (1), validated in the very epoch it starts (StartEpoch = curEpoch = 200),
    is not rejected; it is admitted. *)
Lemma start_epoch_boundary_counterexample :
  ~ (forall actors environment deal tok curEpoch,
        GetChainHead (Node environment) = inr (tok, curEpoch) ->
        forallb holds (firstn 7 (amendedChecks actors environment deal))
        = true ->
        market.StartEpoch (Proposal deal) <= curEpoch ->
        triggered (logOf (ValidateDealProposal actors environment deal))
        = [ProviderEventDealRejected "deal start epoch has already elapsed"]).
Proof.
  intros H.
  specialize (H testActors boundaryEnvironment validDeal "tipset" 200
                eq_refl eq_refl).
  assert (Hle : market.StartEpoch (Proposal validDeal) <= 200)
    by (cbn; lia).
  specialize (H Hle). vm_compute in H. discriminate H.
Qed.

(** C3 (amended).  A proposal that passes checks 1-7 is rejected with
    "deal start epoch has already elapsed" when StartEpoch < curEpoch; when
    StartEpoch >= curEpoch, the boundary StartEpoch = curEpoch included,
    it is admitted past this check and its fate is that of checks 9-14. *)
Theorem start_epoch_admission actors environment deal tok curEpoch :
  GetChainHead (Node environment) = inr (tok, curEpoch) ->
  forallb holds (firstn 7 (amendedChecks actors environment deal)) = true ->
  (market.StartEpoch (Proposal deal) < curEpoch ->
   triggered (logOf (ValidateDealProposal actors environment deal))
   = [ProviderEventDealRejected "deal start epoch has already elapsed"])
  /\ (curEpoch <= market.StartEpoch (Proposal deal) ->
      triggered (logOf (ValidateDealProposal actors environment deal))
      = [verdict (skipn 8 (computedChecks actors environment deal))]).
Proof.
  intros Hhead Hfirst.
  rewrite ValidateDealProposal_run.
  rewrite run_triggers by apply computedChecks_ask_only.
  unfold amendedChecks in Hfirst. cbn [firstn forallb] in Hfirst.
  repeat (apply andb_prop in Hfirst; destruct Hfirst as [?H Hfirst]).
  unfold computedChecks.
  rewrite !verdict_passing by assumption.
  assert (Hcur : policy.curEpoch environment = curEpoch).
  { unfold policy.curEpoch, policy.node. now rewrite Hhead. }
  split; intros Hcmp.
  - rewrite verdict_failing; [reflexivity|].
    cbn. unfold policy.proposal. rewrite Hcur.
    rewrite Z.geb_leb. apply Z.leb_gt. exact Hcmp.
  - rewrite verdict_passing; [reflexivity|].
    cbn. unfold policy.proposal. rewrite Hcur.
    rewrite Z.geb_leb. apply Z.leb_le. exact Hcmp.
Qed.

(** C3 on the late proposal (rejected) and on the boundary (admitted). *)
Lemma start_epoch_admission_witness :
  triggered (logOf (ValidateDealProposal testActors scenarioEnvironment
                      lateDeal))
  = [ProviderEventDealRejected "deal start epoch has already elapsed"]
  /\ triggered (logOf (ValidateDealProposal testActors boundaryEnvironment
                         validDeal))
     = [ProviderEventDealDeciding].
Proof.
  split.
  - apply (proj1 (start_epoch_admission testActors scenarioEnvironment
                    lateDeal "tipset" 50 eq_refl eq_refl)).
    cbn. lia.
  - rewrite (proj2 (start_epoch_admission testActors boundaryEnvironment
                      validDeal "tipset" 200 eq_refl eq_refl)).
    + vm_compute. reflexivity.
    + cbn. lia.
Defined.

End Admission.

(** ** Reserved funds and the publish receipt *)

Module Funds.

Import storagemarket providerstates providerfsm testdata.

#[local] Open Scope handler_scope.

Lemma releaseReservedFunds_log environment deal :
  releaseReservedFunds environment deal
  = (if fundsHeld deal
     then [NodeReleaseFunds (market.Provider (Proposal deal)) (heldAmount deal);
           Trigger (ProviderEventFundsReleased (heldAmount deal))]
     else [],
     Next tt).
Proof.
  unfold releaseReservedFunds, fundsHeld, heldAmount.
  destruct (FundsReserved deal) as [amt|]; [|reflexivity].
  destruct (big.IsZero amt); reflexivity.
Qed.

Lemma WaitForPublish_success actors environment deal publishCid finalCid retval :
  PublishCid deal = Some publishCid ->
  WaitForMessage (Node environment) publishCid
  = Landed exitcode.Ok (inr retval) finalCid None ->
  WaitForPublish actors environment deal
  = ((NodeWaitForMessage publishCid
      :: logOf (releaseReservedFunds environment deal)
      ++ match market.IDs retval with
         | [] => []
         | dealID :: _ => [Trigger (ProviderEventDealPublished dealID finalCid)]
         end)%list,
     match market.IDs retval with
     | [] => Panic "index out of range [0] with length 0"
     | _ :: _ => Return
     end).
Proof.
  intros Hcid Hwait. unfold WaitForPublish. rewrite Hcid. cbn.
  rewrite Hwait. cbn. rewrite releaseReservedFunds_log. cbn.
  destruct (market.IDs retval); destruct (fundsHeld deal); reflexivity.
Qed.

Lemma cleanup_is_silent deal :
  released (cleanup deal) = []
  /\ triggered (cleanup deal) = []
  /\ connManagerCalls (cleanup deal) = [].
Proof.
  unfold cleanup.
  destruct (String.eqb (PiecePath deal) ""),
    (String.eqb (MetadataPath deal) ""), (StoreID deal);
    repeat split; reflexivity.
Qed.

Lemma FailDeal_log environment deal :
  FailDeal environment deal
  = ((EnvUntagPeer (Client deal) (cid.String (ProposalCid deal))
      :: cleanup deal
      ++ logOf (releaseReservedFunds environment deal)
      ++ [Trigger ProviderEventFailed])%list,
     Return).
Proof.
  unfold FailDeal, cleanup. rewrite releaseReservedFunds_log.
  destruct (String.eqb (PiecePath deal) ""),
    (String.eqb (MetadataPath deal) ""), (StoreID deal), (fundsHeld deal);
    reflexivity.
Qed.

Lemma fundsHeld_amount deal :
  fundsHeld deal = true -> FundsReserved deal = Some (heldAmount deal).
Proof.
  unfold fundsHeld, heldAmount. destruct (FundsReserved deal); [reflexivity|discriminate].
Qed.

Lemma nothing_held deal :
  fundsHeld deal = false ->
  FundsReserved deal <> None -> FundsReserved deal = Some 0.
Proof.
  unfold fundsHeld, big.IsZero. destruct (FundsReserved deal) as [amt|].
  - intros H _. destruct (Z.eqb_spec amt 0); [now subst|discriminate].
  - intros _ H. now contradiction H.
Qed.

(** The deal after a release has been recorded, in a state that records
    releases. *)
Lemma after_release deal rest :
  State deal = StorageDealPublishing \/ State deal = StorageDealFailing ->
  fundsHeld deal = true ->
  ReplayEvents deal (ProviderEventFundsReleased (heldAmount deal) :: rest)
  = ReplayEvents (set_FundsReserved (Some 0) deal) rest.
Proof.
  intros Hstate Hheld. unfold ReplayEvents at 1. cbn [fold_left].
  unfold Apply. destruct Hstate as [-> | ->]; cbn;
    rewrite (fundsHeld_amount deal Hheld); unfold big.Sub;
    rewrite Z.sub_diag; reflexivity.
Qed.

(** C9.  The callback of WaitForPublish reads IDs[0] of the decoded
    return value without looking at its length.  On an Ok receipt that
    decodes, the handler returns, having triggered ProviderEventDealPublished
    with the first id, exactly when the list of ids is not empty; when it is
    empty the index is out of range and the handler panics, after the
    reserved funds were released. *)
Theorem waitForPublish_indexes_unchecked
  actors environment deal publishCid finalCid retval :
  PublishCid deal = Some publishCid ->
  WaitForMessage (Node environment) publishCid
  = Landed exitcode.Ok (inr retval) finalCid None ->
  let handler := WaitForPublish actors environment deal in
  (outcomeOf handler = Panic "index out of range [0] with length 0"
   <-> market.IDs retval = [])
  /\ (market.IDs retval = [] ->
      logOf handler
      = NodeWaitForMessage publishCid
        :: logOf (releaseReservedFunds environment deal))
  /\ (forall dealID rest,
         market.IDs retval = dealID :: rest ->
         outcomeOf handler = Return
         /\ logOf handler
            = (NodeWaitForMessage publishCid
               :: logOf (releaseReservedFunds environment deal)
               ++ [Trigger (ProviderEventDealPublished dealID finalCid)])%list).
Proof.
  intros Hcid Hwait handler. unfold handler.
  rewrite (WaitForPublish_success actors environment deal publishCid finalCid
             retval Hcid Hwait).
  unfold outcomeOf, logOf. cbn [fst snd].
  destruct (market.IDs retval) as [|dealID rest].
  - split; [tauto|]. split.
    + intros _. now rewrite app_nil_r.
    + intros ? ? H. discriminate H.
  - split; [split; discriminate|]. split.
    + discriminate.
    + intros ? ? H. injection H as <- <-. split; reflexivity.
Qed.

(** C9 on a receipt that decodes to no deal id at all, with funds
    reserved: the funds are released, then the handler panics. *)
Lemma waitForPublish_indexes_unchecked_witness :
  let environment :=
    testEnvironment (testNode 50 0 (published []) CompletionPending) in
  let deal :=
    dealWith StorageDealPublishing (proposalWith 200 518600 10000)
      (Some 10000) in
  outcomeOf (WaitForPublish testActors environment deal)
  = Panic "index out of range [0] with length 0"
  /\ released (logOf (WaitForPublish testActors environment deal)) = [10000].
Proof.
  cbv zeta. split.
  - apply (proj1 (waitForPublish_indexes_unchecked testActors
                    (testEnvironment
                       (testNode 50 0 (published []) CompletionPending))
                    (dealWith StorageDealPublishing
                       (proposalWith 200 518600 10000) (Some 10000))
                    _ _ _ eq_refl eq_refl)).
    reflexivity.
  - reflexivity.
Defined.

(** C7.  releaseReservedFunds calls the node's ReleaseFunds and triggers
    ProviderEventFundsReleased exactly when FundsReserved is neither nil nor
    zero.  So the success path of WaitForPublish enters Staged, and FailDeal
    enters Error, with nothing reserved any more (FundsReserved is zero, or
    nil if it was nil), after one release when funds were held and none
    otherwise; on a deal with nothing reserved a further run releases
    nothing. *)
Theorem reserved_funds_released_once actors environment deal :
  logOf (releaseReservedFunds environment deal)
  = (if fundsHeld deal
     then [NodeReleaseFunds (market.Provider (Proposal deal)) (heldAmount deal);
           Trigger (ProviderEventFundsReleased (heldAmount deal))]
     else [])
  /\ (forall publishCid finalCid retval dealID rest,
         State deal = StorageDealPublishing ->
         PublishCid deal = Some publishCid ->
         WaitForMessage (Node environment) publishCid
         = Landed exitcode.Ok (inr retval) finalCid None ->
         market.IDs retval = dealID :: rest ->
         let handler := WaitForPublish actors environment deal in
         let deal' := afterHandler deal handler in
         State deal' = StorageDealStaged
         /\ fundsHeld deal' = false
         /\ (FundsReserved deal <> None -> FundsReserved deal' = Some 0)
         /\ released (logOf handler)
            = (if fundsHeld deal then [heldAmount deal] else []))
  /\ (State deal = StorageDealFailing ->
      let handler := FailDeal environment deal in
      let deal' := afterHandler deal handler in
      State deal' = StorageDealError
      /\ fundsHeld deal' = false
      /\ (FundsReserved deal <> None -> FundsReserved deal' = Some 0)
      /\ released (logOf handler)
         = (if fundsHeld deal then [heldAmount deal] else []))
  /\ (fundsHeld deal = false ->
      forall environment',
        logOf (releaseReservedFunds environment' deal) = []
        /\ released (logOf (FailDeal environment' deal)) = []).
Proof.
  split; [now rewrite releaseReservedFunds_log|]. split; [|split].
  - intros publishCid finalCid retval dealID rest Hstate Hcid Hwait Hids
      handler deal'.
    unfold deal', handler, afterHandler.
    rewrite (WaitForPublish_success actors environment deal publishCid
               finalCid retval Hcid Hwait), Hids, releaseReservedFunds_log.
    unfold logOf. cbn [fst].
    destruct (fundsHeld deal) eqn:Hheld; cbn [triggered flat_map app released].
    + rewrite after_release by tauto.
      unfold ReplayEvents, Apply. cbn. rewrite Hstate. cbn.
      repeat split; reflexivity.
    + unfold ReplayEvents, Apply. cbn. rewrite Hstate. cbn.
      change (fundsHeld (set_PublishCid (Some finalCid) (set_DealID dealID deal)))
        with (fundsHeld deal).
      repeat split; try assumption. now apply nothing_held.
  - intros Hstate handler deal'.
    unfold deal', handler, afterHandler.
    rewrite FailDeal_log, releaseReservedFunds_log.
    destruct (cleanup_is_silent deal) as (Hrel & Htrig & _).
    unfold logOf. cbn [fst].
    change (triggered (?e :: ?l)) with (triggered [e] ++ triggered l)%list.
    change (released (?e :: ?l)) with (released [e] ++ released l)%list.
    unfold triggered, released in *. rewrite !flat_map_app, Hrel, Htrig.
    destruct (fundsHeld deal) eqn:Hheld; cbn [flat_map app].
    + rewrite after_release by tauto.
      unfold ReplayEvents, Apply. cbn. rewrite Hstate. cbn.
      repeat split; reflexivity.
    + unfold ReplayEvents, Apply. cbn. rewrite Hstate. cbn.
      change (fundsHeld (set_State StorageDealError deal)) with (fundsHeld deal).
      repeat split; try assumption. now apply nothing_held.
  - intros Hheld environment'.
    rewrite FailDeal_log, !releaseReservedFunds_log, Hheld.
    destruct (cleanup_is_silent deal) as (Hrel & _).
    split; [reflexivity|]. unfold logOf. cbn [fst].
    change (released (?e :: ?l)) with (released [e] ++ released l)%list.
    unfold released in *. rewrite !flat_map_app, Hrel. reflexivity.
Qed.

(** C7 on a deal in Publishing with 10000 reserved, the receipt carrying
    deal id 42: the deal enters Staged with zero reserved after one release
    of 10000, and FailDeal on the deal so left releases nothing. *)
Lemma reserved_funds_released_once_witness :
  let deal :=
    dealWith StorageDealPublishing (proposalWith 200 518600 10000)
      (Some 10000) in
  let handler := WaitForPublish testActors scenarioEnvironment deal in
  let deal' := afterHandler deal handler in
  State deal' = StorageDealStaged
  /\ FundsReserved deal' = Some 0
  /\ released (logOf handler) = [10000]
  /\ released (logOf (FailDeal scenarioEnvironment deal')) = [].
Proof.
  cbv zeta.
  pose (deal := dealWith StorageDealPublishing (proposalWith 200 518600 10000)
                  (Some 10000)).
  destruct (reserved_funds_released_once testActors scenarioEnvironment deal)
    as (_ & Hpublish & _).
  destruct (Hpublish _ _ _ 42 [] eq_refl eq_refl eq_refl eq_refl)
    as (Hstate & Hheld & Hzero & Hreleased).
  destruct (reserved_funds_released_once testActors scenarioEnvironment
              (afterHandler deal
                 (WaitForPublish testActors scenarioEnvironment deal)))
    as (_ & _ & _ & Hagain).
  split; [exact Hstate|]. split; [apply Hzero; discriminate|].
  split; [exact Hreleased|].
  exact (proj2 (Hagain Hheld scenarioEnvironment)).
Defined.

End Funds.

(** ** Peer tagging over the life of a deal *)

Module PeerTagging.

Import storagemarket providerstates providerfsm testdata.

#[local] Open Scope handler_scope.

#[local] Arguments String.append : simpl never.
#[local] Arguments String.eqb : simpl never.
#[local] Arguments big.String : simpl never.
#[local] Arguments Z.eqb : simpl never.

(** *** Handler by handler

    What each entry function asks of the connection manager, and where it
    can leave a deal that is in its state. *)
Lemma DecideOnProposal_steps environment deal :
  State deal = StorageDealAcceptWait ->
  stepsTo deal (DecideOnProposal environment deal) []
    [StorageDealRejecting; StorageDealFailing; StorageDealWaitingForData].
Proof.
  intros Hstate. unfold DecideOnProposal. handler_cases Hstate.
Qed.

Lemma VerifyData_steps environment deal :
  State deal = StorageDealVerifyData ->
  stepsTo deal (VerifyData environment deal) []
    [StorageDealFailing; StorageDealReserveProviderFunds].
Proof.
  intros Hstate. unfold VerifyData. handler_cases Hstate.
Qed.

Lemma ReserveProviderFunds_steps environment deal :
  State deal = StorageDealReserveProviderFunds ->
  stepsTo deal (ReserveProviderFunds environment deal) []
    [StorageDealFailing; StorageDealPublish; StorageDealProviderFunding].
Proof.
  intros Hstate. unfold ReserveProviderFunds. handler_cases Hstate.
Qed.

Lemma WaitForFunding_steps actors environment deal :
  State deal = StorageDealProviderFunding ->
  stepsTo deal (WaitForFunding actors environment deal) []
    [StorageDealFailing; StorageDealPublish; StorageDealProviderFunding].
Proof.
  intros Hstate. unfold WaitForFunding. handler_cases Hstate.
Qed.

Lemma PublishDeal_steps environment deal :
  State deal = StorageDealPublish ->
  stepsTo deal (PublishDeal environment deal) []
    [StorageDealFailing; StorageDealPublishing].
Proof.
  intros Hstate. unfold PublishDeal. handler_cases Hstate.
Qed.

Lemma WaitForPublish_steps actors environment deal :
  State deal = StorageDealPublishing ->
  stepsTo deal (WaitForPublish actors environment deal) []
    [StorageDealFailing; StorageDealStaged; StorageDealPublishing].
Proof.
  intros Hstate. unfold WaitForPublish, releaseReservedFunds. handler_cases Hstate.
Qed.

Lemma HandoffDeal_steps environment deal :
  State deal = StorageDealStaged ->
  stepsTo deal (HandoffDeal environment deal) []
    [StorageDealFailing; StorageDealAwaitingPreCommit].
Proof.
  intros Hstate. unfold HandoffDeal, handoffDeal, recordPiece. handler_cases Hstate.
Qed.

Lemma VerifyDealPreCommitted_steps environment deal :
  State deal = StorageDealAwaitingPreCommit ->
  stepsTo deal (VerifyDealPreCommitted environment deal) []
    [StorageDealFailing; StorageDealFinalizing; StorageDealSealing;
     StorageDealAwaitingPreCommit].
Proof.
  intros Hstate. unfold VerifyDealPreCommitted. handler_cases Hstate.
Qed.

Lemma VerifyDealActivated_steps environment deal :
  State deal = StorageDealSealing ->
  stepsTo deal (VerifyDealActivated environment deal) []
    [StorageDealFailing; StorageDealFinalizing; StorageDealSealing].
Proof.
  intros Hstate. unfold VerifyDealActivated. handler_cases Hstate.
Qed.

Lemma CleanupDeal_steps environment deal :
  State deal = StorageDealFinalizing ->
  stepsTo deal (CleanupDeal environment deal) [] [StorageDealActive].
Proof.
  intros Hstate. unfold CleanupDeal. handler_cases Hstate.
Qed.

Lemma WaitForDealCompletion_steps environment deal :
  State deal = StorageDealActive ->
  stepsTo deal (WaitForDealCompletion environment deal)
    [network.UntagPeer (Client deal) (cid.String (ProposalCid deal))]
    [StorageDealError; StorageDealExpired; StorageDealSlashed;
     StorageDealActive].
Proof.
  intros Hstate. unfold WaitForDealCompletion. handler_cases Hstate.
Qed.

Lemma RejectDeal_steps environment deal :
  State deal = StorageDealRejecting ->
  stepsTo deal (RejectDeal environment deal) [] [StorageDealFailing].
Proof.
  intros Hstate. unfold RejectDeal. handler_cases Hstate.
Qed.

Lemma FailDeal_steps environment deal :
  State deal = StorageDealFailing ->
  stepsTo deal (FailDeal environment deal)
    [network.UntagPeer (Client deal) (cid.String (ProposalCid deal))]
    [StorageDealError].
Proof.
  intros Hstate. unfold FailDeal, releaseReservedFunds. handler_cases Hstate.
Qed.

Lemma ValidateDealProposal_steps actors environment deal :
  State deal = StorageDealValidating ->
  stepsTo deal (ValidateDealProposal actors environment deal)
    [network.TagPeer (Client deal) (cid.String (ProposalCid deal))]
    [StorageDealRejecting; StorageDealAcceptWait].
Proof.
  intros Hstate. unfold ValidateDealProposal, VerifyProposal.
  rewrite bigFacts.Div_pos by reflexivity. handler_cases Hstate.
Qed.

Lemma RestartDataTransfer_steps environment deal :
  State deal = StorageDealTransferring ->
  stepsTo deal (RestartDataTransfer environment deal) []
    [StorageDealFailing; StorageDealTransferring].
Proof.
  intros Hstate. unfold RestartDataTransfer. handler_cases Hstate.
Qed.

(** *** The peer and the proposal stay

    No action of the table writes [Client] or [ProposalCid]. *)
Lemma action_sameParty evt deal : sameParty deal (action evt deal).
Proof.
  destruct evt; cbn; try (split; reflexivity);
    destruct (FundsReserved deal); split; reflexivity.
Qed.

Lemma Apply_sameParty deal evt deal' :
  Apply deal evt = fsm.Applied deal' -> sameParty deal deal'.
Proof.
  unfold Apply.
  destruct (fsm.destination _ _ _) as [[s| |]|]; intros H;
    try discriminate H; injection H as <-;
    apply action_sameParty.
Qed.

Lemma ReplayEvents_sameParty evts : forall deal,
  sameParty deal (ReplayEvents deal evts).
Proof.
  induction evts as [|evt evts IH]; intros deal; [split; reflexivity|].
  unfold ReplayEvents in *. cbn [fold_left].
  destruct (Apply deal evt) as [deal'| |] eqn:Happly; try apply IH.
  destruct (Apply_sameParty _ _ _ Happly) as [Hc Hp].
  destruct (IH deal') as [Hc' Hp']. split; congruence.
Qed.

Lemma connManagerCalls_app log log' :
  connManagerCalls (log ++ log')
  = (connManagerCalls log ++ connManagerCalls log')%list.
Proof. apply flat_map_app. Qed.

(** *** One step of a life

    Running the entry function of the deal's state adds the calls of that
    handler, and they are what the state reached expects. *)
Lemma entry_steps actors deal handler environment :
  ProviderStateEntryFuncs actors (State deal) = Some handler ->
  let run := handler environment deal in
  let deal' := afterHandler deal run in
  connManagerCalls (logOf run) = handlerCalls deal
  /\ (expectedCalls deal false ++ handlerCalls deal)%list
     = expectedCalls deal' (StorageDealStatus_eqb (State deal') (State deal)).
Proof.
  intros Hentry run deal'.
  assert (Hparty : sameParty deal deal') by apply ReplayEvents_sameParty.
  destruct Hparty as [Hc Hp].
  unfold expectedCalls, handlerCalls. rewrite Hc, Hp.
  assert (Hsteps : exists next,
             stepsTo deal run (handlerCalls deal) next
             /\ Forall (fun s =>
                  (expected (Client deal) (cid.String (ProposalCid deal))
                     (State deal) false ++ handlerCalls deal)%list
                  = expected (Client deal) (cid.String (ProposalCid deal)) s
                      (StorageDealStatus_eqb s (State deal))) next).
  { unfold run, handlerCalls.
    destruct (State deal) eqn:Hstate; try discriminate Hentry;
      injection Hentry as <-;
      eexists; (split; [eauto using ValidateDealProposal_steps,
        DecideOnProposal_steps, VerifyData_steps, ReserveProviderFunds_steps,
        WaitForFunding_steps, PublishDeal_steps, WaitForPublish_steps,
        HandoffDeal_steps, VerifyDealPreCommitted_steps,
        VerifyDealActivated_steps, CleanupDeal_steps,
        WaitForDealCompletion_steps, RejectDeal_steps, FailDeal_steps
        | repeat constructor]). }
  destruct Hsteps as (next & [Hcalls Hin] & Hall).
  split; [exact Hcalls|].
  rewrite Forall_forall in Hall. apply (Hall _ Hin).
Qed.

(** An event of the data-transfer adapter adds no call. *)
Lemma transfer_steps deal ran evt deal' :
  fromDataTransfer evt = true ->
  Apply deal evt = fsm.Applied deal' ->
  expectedCalls deal ran
  = expectedCalls deal'
      (ran && StorageDealStatus_eqb (State deal') (State deal)).
Proof.
  intros Hevt Happly.
  destruct (Apply_sameParty _ _ _ Happly) as [Hc Hp].
  unfold expectedCalls. rewrite Hc, Hp. clear Hc Hp.
  unfold Apply in Happly.
  destruct evt; try discriminate Hevt;
    destruct (State deal) eqn:Hstate; try discriminate Happly;
    injection Happly as <-; cbn; destruct ran; reflexivity.
Qed.

(** The invariant of a life. *)
Lemma lifecycle_calls actors deal ran log :
  lifecycle actors deal ran log ->
  connManagerCalls log = expectedCalls deal ran.
Proof.
  induction 1 as [deal Hstate
                 |deal log handler environment _ IH Hentry run deal'
                 |deal ran log evt deal' _ IH Hevt Happly
                 |deal ran log environment _ IH Hstate run deal'].
  - unfold expectedCalls. rewrite Hstate. reflexivity.
  - rewrite connManagerCalls_app, IH.
    destruct (entry_steps actors deal handler environment Hentry)
      as [Hcalls Hexpected].
    fold run in Hcalls. rewrite Hcalls. exact Hexpected.
  - rewrite IH. exact (transfer_steps deal ran evt deal' Hevt Happly).
  - rewrite connManagerCalls_app, IH.
    destruct (RestartDataTransfer_steps environment deal Hstate)
      as [Hcalls Hin].
    fold run in Hcalls, Hin. fold deal' in Hin. rewrite Hcalls, app_nil_r.
    destruct (ReplayEvents_sameParty (triggered (logOf run)) deal)
      as [Hc Hp].
    fold (afterHandler deal run) in Hc, Hp. fold deal' in Hc, Hp.
    unfold expectedCalls. rewrite Hc, Hp, Hstate.
    destruct Hin as [<- | [<- | []]]; destruct ran; reflexivity.
Qed.

Lemma expected_cases p id s ran :
  expected p id s ran = []
  \/ expected p id s ran = [network.ConnTagPeer p id 100]
  \/ expected p id s ran
     = [network.ConnTagPeer p id 100; network.ConnUntagPeer p id].
Proof. destruct s, ran; cbn; auto. Qed.

Lemma expected_final p id s ran :
  isFinalityState s = true ->
  expected p id s ran
  = [network.ConnTagPeer p id 100; network.ConnUntagPeer p id].
Proof. destruct s, ran; cbn; intros H; try discriminate H; reflexivity. Qed.

Lemma ValidateDealProposal_tags_first actors environment deal :
  exists rest,
    logOf (ValidateDealProposal actors environment deal)
    = EnvTagPeer (Client deal) (cid.String (ProposalCid deal)) :: rest.
Proof.
  unfold ValidateDealProposal, logOf. cbn [bind call].
  match goal with
  | |- context [let (_, _) := ?k in _] => destruct k as [rest o]
  end.
  now exists rest.
Qed.

(** *** The engine stays within the lives of a deal *)
Lemma runEntries_alive actors environment fuel : forall deal log,
  lifecycle actors deal false log ->
  alive actors (runEntries actors environment fuel deal log).
Proof.
  induction fuel as [|fuel IH]; intros deal log Halive; [exact Halive|].
  cbn [runEntries].
  destruct (ProviderStateEntryFuncs actors (State deal)) as [handler|] eqn:Hentry;
    [|exact Halive].
  pose proof (lifecycle_enter actors deal log handler environment Halive Hentry)
    as Hnext.
  cbv zeta in *.
  destruct (StorageDealStatus_eqb _ _); [exact Hnext|now apply IH].
Qed.

Lemma resume_alive actors environment fuel progress :
  alive actors progress ->
  alive actors (resume actors environment fuel progress).
Proof.
  destruct progress as [[deal [|]] log]; intros Halive; [exact Halive|].
  now apply runEntries_alive.
Qed.

Lemma deliver_alive actors evt progress :
  alive actors progress -> alive actors (deliver evt progress).
Proof.
  destruct progress as [[deal ran] log]. intros Halive. unfold deliver.
  destruct (fromDataTransfer evt) eqn:Hevt; [|exact Halive].
  destruct (Apply deal evt) as [deal'| |] eqn:Happly; try exact Halive.
  exact (lifecycle_transfer actors deal ran log evt deal' Halive Hevt Happly).
Qed.

Lemma happyPath_alive : alive testActors happyPath.
Proof.
  unfold happyPath. cbv zeta.
  apply resume_alive, deliver_alive, deliver_alive, resume_alive.
  apply lifecycle_begin. reflexivity.
Qed.

Lemma ValidateDealProposal_calls actors environment deal :
  connManagerCalls (logOf (ValidateDealProposal actors environment deal))
  = [network.TagPeer (Client deal) (cid.String (ProposalCid deal))].
Proof.
  unfold ValidateDealProposal, VerifyProposal.
  rewrite bigFacts.Div_pos by reflexivity.
  unfold logOf. answer; reflexivity.
Qed.

(** C8.  Over the life of a storage deal on the provider (it starts in
    Validating; the entry function of each state entered is run and what it
    triggered is applied; the data-transfer adapter sends its events; a
    transfer is restarted) the connection manager is asked, in this order,
    nothing, or to tag the client peer with the proposal CID at priority
    100, or to tag and then to untag it: never a second tag, never a second
    untag.  A deal in a finality state has been tagged once and untagged
    once.  The tag is the first thing ValidateDealProposal does and its only
    call; the untag is the only call of WaitForDealCompletion and of
    FailDeal; no other entry function calls the connection manager. *)
Theorem peer_tagged_and_untagged_once actors deal ran log :
  lifecycle actors deal ran log ->
  let id := cid.String (ProposalCid deal) in
  let tag := network.ConnTagPeer (Client deal) id 100 in
  let untag := network.ConnUntagPeer (Client deal) id in
  connManagerCalls log = expectedCalls deal ran
  /\ (connManagerCalls log = []
      \/ connManagerCalls log = [tag]
      \/ connManagerCalls log = [tag; untag])
  /\ (isFinalityState (State deal) = true ->
      connManagerCalls log = [tag; untag])
  /\ (forall handler environment,
         ProviderStateEntryFuncs actors (State deal) = Some handler ->
         connManagerCalls (logOf (handler environment deal))
         = match State deal with
           | StorageDealValidating => [tag]
           | StorageDealActive | StorageDealFailing => [untag]
           | _ => []
           end)
  /\ (forall environment,
         exists rest,
           logOf (ValidateDealProposal actors environment deal)
           = EnvTagPeer (Client deal) id :: rest
           /\ connManagerCalls rest = []).
Proof.
  intros Halive id tag untag.
  pose proof (lifecycle_calls actors deal ran log Halive) as Hcalls.
  split; [exact Hcalls|]. rewrite Hcalls. unfold expectedCalls.
  split; [apply expected_cases|]. split; [apply expected_final|]. split.
  - intros handler environment Hentry.
    exact (proj1 (entry_steps actors deal handler environment Hentry)).
  - intros environment.
    destruct (ValidateDealProposal_tags_first actors environment deal)
      as [rest Hlog].
    exists rest. split; [exact Hlog|].
    pose proof (ValidateDealProposal_calls actors environment deal) as H.
    rewrite Hlog in H. now injection H.
Qed.

(** C8 on the valid proposal of section 8, from admission to expiry: one
    tag, then one untag. *)
Lemma peer_tagged_and_untagged_once_witness :
  State (fst (fst happyPath)) = StorageDealExpired
  /\ connManagerCalls (snd happyPath)
     = [network.ConnTagPeer "client peer"
          (cid.String (ProposalCid validDeal)) 100;
        network.ConnUntagPeer "client peer"
          (cid.String (ProposalCid validDeal))].
Proof.
  split; [vm_compute; reflexivity|].
  destruct (peer_tagged_and_untagged_once testActors (fst (fst happyPath))
              (snd (fst happyPath)) (snd happyPath) happyPath_alive)
    as (_ & _ & Hfinal & _).
  rewrite Hfinal; vm_compute; reflexivity.
Defined.

End PeerTagging.

(** ** The retrieval client table, event by event *)

Module ClientTable.

Import rm fsm clientstates clientruns scenarios.

#[local] Arguments String.append : simpl never.
#[local] Arguments big.String : simpl never.

Section WithStatusNames.

Variable DealStatuses : DealStatus -> string.

(** An event the table takes, opened up: its destination and what its
    action made of the record. *)
Lemma Apply_inv deal evt deal' :
  Apply DealStatuses deal evt = Applied deal' ->
  exists dest acted,
    destination DealStatus_eqb (ClientEvents evt) (Status deal) = Some dest
    /\ action DealStatuses evt deal = ActionOk acted
    /\ deal' = match dest with
               | To s => set_Status s acted
               | _ => acted
               end.
Proof.
  unfold Apply.
  destruct (destination _ _ _) as [dest|]; [|discriminate].
  destruct (action _ _ _) as [acted|]; [|discriminate].
  intros H. exists dest, acted. split; [reflexivity|]. split; [reflexivity|].
  destruct dest; now injection H.
Qed.

Lemma onPaymentSent_account deal acted :
  onPaymentSent deal = ActionOk acted ->
  FundsSpent acted = FundsSpent deal + PaymentRequested deal
  /\ PaymentRequested acted = 0
  /\ termsOf acted = termsOf deal
  /\ PaymentInfo acted = PaymentInfo deal.
Proof.
  unfold onPaymentSent. cbn.
  destruct (big.Div _ _) as [q|]; [|discriminate].
  intros H. injection H as <-.
  destruct (big.Uint64 q >=? CurrentInterval deal); repeat split.
Qed.

Lemma setPaymentInfoIfNil_set payCh deal :
  PaymentInfo (setPaymentInfoIfNil payCh deal) <> None.
Proof.
  unfold setPaymentInfoIfNil.
  destruct (PaymentInfo deal) eqn:Hinfo; cbn; rewrite ?Hinfo; discriminate.
Qed.

(** No action writes the status, and none takes the payment channel
    away. *)
Lemma action_keeps deal evt acted :
  action DealStatuses evt deal = ActionOk acted ->
  Status acted = Status deal
  /\ (PaymentInfo deal <> None -> PaymentInfo acted <> None).
Proof.
  intros Hact.
  destruct evt; cbn in Hact;
    try (injection Hact as <-; split; [reflexivity|intros H; exact H]).
  - unfold setPaymentInfoIfNil in Hact. cbn in Hact.
    destruct (PaymentInfo deal) eqn:Hinfo; injection Hact as <-; cbn;
      (split; [reflexivity|]); intros _; rewrite ?Hinfo; discriminate.
  - unfold setPaymentInfoIfNil in Hact. cbn in Hact.
    destruct (PaymentInfo deal) eqn:Hinfo; injection Hact as <-; cbn;
      (split; [reflexivity|]); intros _; rewrite ?Hinfo; discriminate.
  - destruct (PaymentInfo deal); [|discriminate].
    injection Hact as <-; split; [reflexivity|discriminate].
  - destruct (onPaymentSent_account _ _ Hact) as (_ & _ & _ & ->).
    split; [|auto].
    unfold onPaymentSent in Hact. cbn in Hact.
    destruct (big.Div _ _); [|discriminate]. injection Hact as <-.
    destruct (_ >=? _); reflexivity.
  - unfold onProviderCancelled in Hact.
    destruct (_ && _); injection Hact as <-; split; auto.
Qed.

Lemma step_conserves deal evt deal' :
  Apply DealStatuses deal evt = Applied deal' ->
  FundsSpent deal' + PaymentRequested deal'
  = FundsSpent deal + PaymentRequested deal + requested evt.
Proof.
  intros H. destruct (Apply_inv _ _ _ H) as (dest & acted & _ & Hact & ->).
  assert (Hacted : FundsSpent acted + PaymentRequested acted
                   = FundsSpent deal + PaymentRequested deal + requested evt).
  { destruct evt; cbn in Hact;
      try (injection Hact as <-; cbn; unfold big.Add; lia).
    - unfold setPaymentInfoIfNil in Hact.
      destruct (PaymentInfo _); injection Hact as <-; cbn; lia.
    - unfold setPaymentInfoIfNil in Hact.
      destruct (PaymentInfo _); injection Hact as <-; cbn; lia.
    - destruct (PaymentInfo deal); [|discriminate].
      injection Hact as <-; cbn; lia.
    - destruct (onPaymentSent_account _ _ Hact) as (-> & -> & _). cbn. lia.
    - unfold onProviderCancelled in Hact.
      destruct (_ && _); injection Hact as <-; cbn; lia. }
  destruct dest; exact Hacted.
Qed.

(** Over any run of events that the table takes, the funds spent and the
    payment still requested grow together by exactly what the provider
    asked for (the three payment-request events): PaymentSent moves the
    requested amount into the funds spent, and no other event touches
    either. *)
Theorem payment_requests_are_conserved evts : forall deal deal',
  applyAll DealStatuses deal evts = Applied deal' ->
  FundsSpent deal' + PaymentRequested deal'
  = FundsSpent deal + PaymentRequested deal + total (map requested evts).
Proof.
  induction evts as [|evt evts IH]; intros deal deal' H; cbn in H.
  - injection H as <-. unfold total. cbn [map fold_right]. lia.
  - destruct (Apply DealStatuses deal evt) as [mid| |] eqn:Hstep;
      try discriminate H.
    rewrite (IH _ _ H), (step_conserves _ _ _ Hstep).
    unfold total. cbn [map fold_right]. lia.
Qed.

(** A deal enters Completed only by ClientEventComplete from Finalizing or
    by ClientEventCompleteVerified from CheckComplete, and Finalizing only
    by ClientEventPaymentSent from SendFundsLastPayment; it enters Rejected
    only by a rejection on the legacy protocol, DealNotFound only while it
    waits for acceptance, Cancelled only by ClientEventCancelComplete from
    Cancelling.  No event keeps a deal in one of these states. *)
Theorem finality_entrances deal evt deal' :
  Apply DealStatuses deal evt = Applied deal' ->
  (Status deal' = DealStatusCompleted ->
   (evt = ClientEventComplete /\ Status deal = DealStatusFinalizing)
   \/ (evt = ClientEventCompleteVerified
       /\ Status deal = DealStatusCheckComplete))
  /\ (Status deal' = DealStatusFinalizing ->
      evt = ClientEventPaymentSent
      /\ Status deal = DealStatusSendFundsLastPayment)
  /\ (Status deal' = DealStatusRejected ->
      Status deal = DealStatusWaitForAcceptanceLegacy
      /\ exists message, evt = ClientEventDealRejected message)
  /\ (Status deal' = DealStatusDealNotFound ->
      (Status deal = DealStatusWaitForAcceptance
       \/ Status deal = DealStatusWaitForAcceptanceLegacy)
      /\ exists message, evt = ClientEventDealNotFound message)
  /\ (Status deal' = DealStatusCancelled ->
      Status deal = DealStatusCancelling
      /\ evt = ClientEventCancelComplete).
Proof.
  intros H. destruct (Apply_inv _ _ _ H) as (dest & acted & Hdest & Hact & ->).
  destruct (action_keeps _ _ _ Hact) as (Hsame & _).
  assert (Hstatus :
            Status match dest with To s => set_Status s acted | _ => acted end
            = match dest with To s => s | _ => Status deal end).
  { destruct dest; [reflexivity|exact Hsame|exact Hsame]. }
  rewrite Hstatus. clear Hstatus Hsame Hact H acted.
  destruct evt; destruct (Status deal); cbn in Hdest;
    try discriminate Hdest; injection Hdest as <-;
    repeat match goal with |- _ /\ _ => split end;
    intros E; try discriminate E; eauto 6.
Qed.

(** The terms of a deal (payload, price, intervals, unseal price, funds,
    wallets, sender, store) are the same after every event the table takes.
    What has been paid (FundsSpent, BytesPaidFor, CurrentInterval,
    UnsealFundsPaid) changes by ClientEventPaymentSent only, and the table
    takes that event in SendFunds and SendFundsLastPayment and in no other
    status. *)
Theorem accounts_change_only_on_payment deal evt :
  (forall deal',
      Apply DealStatuses deal evt = Applied deal' ->
      termsOf deal' = termsOf deal
      /\ (evt <> ClientEventPaymentSent -> accountOf deal' = accountOf deal))
  /\ (Apply DealStatuses deal ClientEventPaymentSent <> InvalidTransition
      <-> Status deal = DealStatusSendFunds
          \/ Status deal = DealStatusSendFundsLastPayment).
Proof.
  split.
  - intros deal' H.
    destruct (Apply_inv _ _ _ H) as (dest & acted & _ & Hact & ->).
    assert (Hacted : termsOf acted = termsOf deal
                     /\ (evt <> ClientEventPaymentSent ->
                         accountOf acted = accountOf deal)).
    { destruct evt; cbn in Hact;
        try (injection Hact as <-; split; reflexivity).
      - unfold setPaymentInfoIfNil in Hact.
        destruct (PaymentInfo _); injection Hact as <-; split; reflexivity.
      - unfold setPaymentInfoIfNil in Hact.
        destruct (PaymentInfo _); injection Hact as <-; split; reflexivity.
      - destruct (PaymentInfo deal); [|discriminate].
        injection Hact as <-; split; reflexivity.
      - destruct (onPaymentSent_account _ _ Hact) as (_ & _ & Hterms & _).
        split; [exact Hterms|]. intros Hne. now contradiction Hne.
      - unfold onProviderCancelled in Hact.
        destruct (_ && _); injection Hact as <-; split; reflexivity. }
    destruct dest; exact Hacted.
  - unfold Apply. destruct (Status deal) eqn:Hs; cbn;
      try (split; [intros Hne; now contradiction Hne
                  |intros [E|E]; discriminate E]);
      (split; [intros _; auto|]); intros _;
      destruct (onPaymentSent deal); discriminate.
Qed.

(** A deal that Retrieve started is never in PaymentChannelAllocatingLane
    without its payment channel recorded. *)
Lemma lane_has_channel deal :
  reachable DealStatuses deal ->
  Status deal = DealStatusPaymentChannelAllocatingLane ->
  PaymentInfo deal <> None.
Proof.
  induction 1 as [|deal evt deal' _ IH Hstep]; [discriminate|].
  destruct (Apply_inv _ _ _ Hstep) as (dest & acted & Hdest & Hact & ->).
  destruct (action_keeps _ _ _ Hact) as (Hsame & Hinfo).
  destruct dest as [s| |]; cbn.
  - intros ->.
    destruct evt; destruct (Status deal); cbn in Hdest;
      try discriminate Hdest; cbn in Hact; injection Hact as <-; cbn;
      apply setPaymentInfoIfNil_set.
  - rewrite Hsame. intros Hs. apply Hinfo, IH, Hs.
  - rewrite Hsame. intros Hs. apply Hinfo, IH, Hs.
Qed.

(** On a deal that Retrieve started and the table has brought anywhere, the
    only action that can panic is the division of ClientEventPaymentSent by
    a zero PricePerByte: ClientEventLaneAllocated, which writes through the
    PaymentInfo pointer, always finds it set. *)
Theorem table_panics_only_on_zero_price deal evt why :
  reachable DealStatuses deal ->
  Apply DealStatuses deal evt = Panicked why ->
  evt = ClientEventPaymentSent
  /\ PricePerByte deal = 0
  /\ (Status deal = DealStatusSendFunds
      \/ Status deal = DealStatusSendFundsLastPayment).
Proof.
  intros Hreach. pose proof (lane_has_channel deal Hreach) as Hlane.
  unfold Apply.
  destruct (destination _ _ _) as [dest|] eqn:Hdest; [|discriminate].
  destruct (action DealStatuses evt deal) as [acted|why'] eqn:Hact;
    [destruct dest; discriminate|].
  intros _.
  destruct evt; cbn in Hact; try discriminate Hact.
  - exfalso. destruct (Status deal) eqn:Hs; cbn in Hdest;
      try discriminate Hdest.
    destruct (PaymentInfo deal); [discriminate|]. now apply Hlane.
  - split; [reflexivity|]. split.
    + unfold onPaymentSent in Hact. cbn in Hact.
      destruct (big.Div _ _) eqn:Hdiv; [discriminate|].
      now apply bigFacts.Div_None in Hdiv.
    + destruct (Status deal); cbn in Hdest; try discriminate Hdest; auto.
Qed.

Lemma applyAll_reachable evts : forall deal deal',
  reachable DealStatuses deal ->
  applyAll DealStatuses deal evts = Applied deal' ->
  reachable DealStatuses deal'.
Proof.
  induction evts as [|evt evts IH]; intros deal deal' Hreach H; cbn in H.
  - now injection H as <-.
  - destruct (Apply DealStatuses deal evt) as [mid| |] eqn:Hstep;
      try discriminate H.
    apply (IH mid); [|exact H]. now apply (reachable_step _ deal evt).
Qed.

End WithStatusNames.

(** For every event, no status is named by two of its clauses and at most
    one clause is FromAny; so whatever the status of a deal, at most one
    clause of the event names it, and what the table does with the event
    does not depend on the order the clauses are written in. *)
Theorem clauses_are_unambiguous evt :
  unambiguous (ClientEvents evt) = true
  /\ forall s,
       (List.length
          (filter (fun c => namesState DealStatus_eqb (fst c) s)
             (ClientEvents evt)) <= 1)%nat.
Proof.
  split; [destruct evt; reflexivity|].
  intros s. destruct evt; destruct s; cbn; lia.
Qed.

(** A last payment of 7000 on a deal under way: the run ends in Completed
    with 7000 more spent and nothing requested. *)
Lemma payment_requests_are_conserved_witness :
  exists deal',
    applyAll (fun _ => "") ongoingDeal (lastPaymentRun 7000) = Applied deal'
    /\ Status deal' = DealStatusCompleted
    /\ FundsSpent deal' + PaymentRequested deal'
       = FundsSpent ongoingDeal + PaymentRequested ongoingDeal + 7000.
Proof.
  eexists. split; [vm_compute; reflexivity|]. split; [reflexivity|].
  apply (payment_requests_are_conserved (fun _ => "") (lastPaymentRun 7000)
           ongoingDeal).
  vm_compute. reflexivity.
Defined.

(** The deal whose completion is being checked completes by
    ClientEventCompleteVerified. *)
Lemma finality_entrances_witness :
  (ClientEventCompleteVerified = ClientEventComplete
   /\ Status checkingDeal = DealStatusFinalizing)
  \/ (ClientEventCompleteVerified = ClientEventCompleteVerified
      /\ Status checkingDeal = DealStatusCheckComplete).
Proof.
  apply (proj1 (finality_entrances (fun _ => "") checkingDeal
                  ClientEventCompleteVerified
                  (set_Status DealStatusCompleted checkingDeal) eq_refl)).
  reflexivity.
Defined.

(** The free retrieval of the scenarios, brought to SendFunds by the table,
    panics on its payment: its price per byte is zero. *)
Lemma table_panics_only_on_zero_price_witness :
  PricePerByte beforePayment = 0
  /\ (Status beforePayment = DealStatusSendFunds
      \/ Status beforePayment = DealStatusSendFundsLastPayment).
Proof.
  assert (Hreach : reachable (fun _ => "") beforePayment).
  { apply (applyAll_reachable (fun _ => "") (removelast unsealPaymentRun)
             freeRetrieval).
    - apply reachable_new.
    - vm_compute. reflexivity. }
  exact (proj2 (table_panics_only_on_zero_price (fun _ => "") beforePayment
                  ClientEventPaymentSent "division by zero" Hreach
                  ltac:(vm_compute; reflexivity))).
Defined.

End ClientTable.

(** ** The storage provider's handlers, one by one *)

Module ProviderHandlers.

Import storagemarket providerstates providerfsm providerruns testdata.

#[local] Open Scope handler_scope.

#[local] Arguments String.append : simpl never.
#[local] Arguments String.eqb : simpl never.
#[local] Arguments big.String : simpl never.
#[local] Arguments Z.eqb : simpl never.



(** The node is asked to reserve funds by ReserveProviderFunds only, at
    most once a run and for the provider collateral of the proposal, and to
    release funds by WaitForPublish and FailDeal only.  ReserveProviderFunds
    triggers ProviderEventFundsReserved exactly when the node has reserved,
    and with the amount it has reserved. *)
Theorem funds_move_in_three_handlers actors environment deal :
  Forall (fun handler => reserved (logOf (handler environment deal)) = [])
    [ ValidateDealProposal actors; DecideOnProposal; VerifyData; PublishDeal;
      HandoffDeal; CleanupDeal; RejectDeal; FailDeal;
      WaitForFunding actors; WaitForPublish actors; RestartDataTransfer;
      VerifyDealPreCommitted; VerifyDealActivated; WaitForDealCompletion ]
  /\ Forall (fun handler => released (logOf (handler environment deal)) = [])
       [ ValidateDealProposal actors; DecideOnProposal; VerifyData;
         ReserveProviderFunds; PublishDeal; HandoffDeal; CleanupDeal;
         RejectDeal; WaitForFunding actors; RestartDataTransfer;
         VerifyDealPreCommitted; VerifyDealActivated; WaitForDealCompletion ]
  /\ (let log := logOf (ReserveProviderFunds environment deal) in
      let provider := market.Provider (Proposal deal) in
      let collateral := market.ProviderCollateral (Proposal deal) in
      (reserved log = [] \/ reserved log = [collateral])
      /\ forall amt,
           In (ProviderEventFundsReserved amt) (triggered log)
           <-> amt = collateral
               /\ exists tok epoch waddr mcid,
                    GetChainHead (Node environment) = inr (tok, epoch)
                    /\ GetMinerWorkerAddress (Node environment) provider tok
                       = inr waddr
                    /\ ReserveFunds (Node environment) waddr provider
                         collateral = inr mcid).
Proof.
  split; [|split].
  - repeat (apply Forall_cons || apply Forall_nil).
    + unfold ValidateDealProposal, VerifyProposal.
      rewrite bigFacts.Div_pos by reflexivity.
      unfold logOf. answer; reflexivity.
    + unfold DecideOnProposal, logOf. answer; reflexivity.
    + unfold VerifyData, logOf. answer; reflexivity.
    + unfold PublishDeal, logOf. answer; reflexivity.
    + unfold HandoffDeal, handoffDeal, recordPiece, logOf.
      answer; reflexivity.
    + unfold CleanupDeal, logOf. answer; reflexivity.
    + unfold RejectDeal, logOf. answer; reflexivity.
    + unfold FailDeal, releaseReservedFunds, logOf. answer; reflexivity.
    + unfold WaitForFunding, logOf. answer; reflexivity.
    + unfold WaitForPublish, releaseReservedFunds, logOf.
      answer; reflexivity.
    + unfold RestartDataTransfer, logOf. answer; reflexivity.
    + unfold VerifyDealPreCommitted, logOf. answer; reflexivity.
    + unfold VerifyDealActivated, logOf. answer; reflexivity.
    + unfold WaitForDealCompletion, logOf. answer; reflexivity.
  - repeat (apply Forall_cons || apply Forall_nil).
    + unfold ValidateDealProposal, VerifyProposal.
      rewrite bigFacts.Div_pos by reflexivity.
      unfold logOf. answer; reflexivity.
    + unfold DecideOnProposal, logOf. answer; reflexivity.
    + unfold VerifyData, logOf. answer; reflexivity.
    + unfold ReserveProviderFunds, logOf. answer; reflexivity.
    + unfold PublishDeal, logOf. answer; reflexivity.
    + unfold HandoffDeal, handoffDeal, recordPiece, logOf.
      answer; reflexivity.
    + unfold CleanupDeal, logOf. answer; reflexivity.
    + unfold RejectDeal, logOf. answer; reflexivity.
    + unfold WaitForFunding, logOf. answer; reflexivity.
    + unfold RestartDataTransfer, logOf. answer; reflexivity.
    + unfold VerifyDealPreCommitted, logOf. answer; reflexivity.
    + unfold VerifyDealActivated, logOf. answer; reflexivity.
    + unfold WaitForDealCompletion, logOf. answer; reflexivity.
  - cbv zeta. unfold ReserveProviderFunds, logOf. cbn.
    destruct (GetChainHead (Node environment)) as [e|[tok epoch]]; cbn.
    { split; [auto|]. intros amt. split; [intros [H|[]]; discriminate H|].
      intros (_ & t & ep & w & m & H & _). discriminate H. }
    destruct (GetMinerWorkerAddress _ _ tok) as [e|waddr] eqn:Hworker; cbn.
    { split; [auto|]. intros amt. split; [intros [H|[]]; discriminate H|].
      intros (_ & t & ep & w & m & H & H' & _).
      injection H as <- <-. rewrite Hworker in H'. discriminate H'. }
    destruct (ReserveFunds _ waddr _ _) as [e|mcid] eqn:Hreserve; cbn.
    { split; [auto|]. intros amt. split; [intros [H|[]]; discriminate H|].
      intros (_ & t & ep & w & m & H & H' & H'').
      injection H as <- <-. rewrite Hworker in H'. injection H' as <-.
      rewrite Hreserve in H''. discriminate H''. }
    destruct (negb (cid.Defined mcid)); cbn.
    + split; [auto|]. intros amt. split.
      * intros [H|[H|[]]]; [|discriminate H]. injection H as <-.
        split; [reflexivity|]. exists tok, epoch, waddr, mcid. auto.
      * intros (-> & _). auto.
    + split; [auto|]. intros amt. split.
      * intros [H|[H|[]]]; [|discriminate H]. injection H as <-.
        split; [reflexivity|]. exists tok, epoch, waddr, mcid. auto.
      * intros (-> & _). auto.
Qed.


Lemma Prefix_eqb_eq p q : cid.Prefix_eqb p q = true <-> p = q.
Proof.
  unfold cid.Prefix_eqb. destruct p, q. cbn.
  rewrite !andb_true_iff, !Z.eqb_eq. split.
  - intros [[[-> ->] ->] ->]. reflexivity.
  - intros H. injection H as -> -> -> ->. auto.
Qed.

Lemma cid_eqb_eq c d : cid.eqb c d = true <-> c = d.
Proof.
  destruct c as [|p x], d as [|q y]; cbn; try (split; congruence).
  rewrite andb_true_iff, Prefix_eqb_eq, String.eqb_eq. split.
  - intros [-> ->]. reflexivity.
  - intros H. injection H as -> ->. auto.
Qed.

(** VerifyData lets the data through exactly when the piece commitment
    computed from it is the PieceCID of the proposal: it triggers
    ProviderEventVerifiedData in that case and only then, and
    ProviderEventDataVerificationFailed in every other, the commitment that
    could not be computed included. *)
Theorem data_is_checked_against_the_proposal environment deal :
  let computed :=
    GeneratePieceCommitment environment (StoreID deal) (Root (Ref deal)) in
  (forall metadataPath,
      triggered (logOf (VerifyData environment deal))
      = [ProviderEventVerifiedData "" metadataPath]
      <-> computed = inr (market.PieceCID (Proposal deal), metadataPath))
  /\ ((forall metadataPath,
          computed <> inr (market.PieceCID (Proposal deal), metadataPath)) ->
      exists err path metadataPath,
        triggered (logOf (VerifyData environment deal))
        = [ProviderEventDataVerificationFailed err path metadataPath]).
Proof.
  cbv zeta. unfold VerifyData, logOf. cbn.
  destruct (GeneratePieceCommitment _ _ _) as [e|[pieceCid path]]; cbn.
  - split; [intros m; split; intros H; discriminate H|]. eauto.
  - destruct (cid.eqb pieceCid (market.PieceCID (Proposal deal))) eqn:Heq;
      cbn.
    + apply cid_eqb_eq in Heq. subst pieceCid. split.
      * intros m. split; intros H; injection H as <-; reflexivity.
      * intros H. now contradiction (H path).
    + split; [|eauto]. intros m. split; intros H; [discriminate H|].
      injection H as -> <-.
      assert (E : cid.eqb (market.PieceCID (Proposal deal))
                    (market.PieceCID (Proposal deal)) = true)
        by now apply cid_eqb_eq.
      rewrite E in Heq. discriminate Heq.
Qed.

(** The client is answered once, and the connection is given up only after
    the answer went out.  DecideOnProposal sends a response only for a deal
    the decision logic accepts (StorageDealWaitingForData, no message);
    RejectDeal always sends one (StorageDealFailing with the Message of the
    deal).  Either handler disconnects, and triggers
    ProviderEventDataRequested or ProviderEventRejectionSent, exactly when
    its response was sent without error; when the send fails it triggers
    ProviderEventSendResponseFailed with that error and keeps the
    connection. *)
Theorem client_is_answered_once environment deal :
  let accepted :=
    network.mkResponse StorageDealWaitingForData "" (ProposalCid deal) in
  let refused :=
    network.mkResponse StorageDealFailing (Message deal) (ProposalCid deal) in
  let decide := logOf (DecideOnProposal environment deal) in
  let reject := logOf (RejectDeal environment deal) in
  responses decide = (if accepts environment deal then [accepted] else [])
  /\ responses reject = [refused]
  /\ (In ProviderEventDataRequested (triggered decide)
      <-> accepts environment deal = true
          /\ SendSignedResponse environment accepted = None)
  /\ (In (EnvDisconnect (ProposalCid deal)) decide
      <-> In ProviderEventDataRequested (triggered decide))
  /\ (In ProviderEventRejectionSent (triggered reject)
      <-> SendSignedResponse environment refused = None)
  /\ (In (EnvDisconnect (ProposalCid deal)) reject
      <-> In ProviderEventRejectionSent (triggered reject))
  /\ (forall err,
         SendSignedResponse environment refused = Some err ->
         triggered reject = [ProviderEventSendResponseFailed err])
  /\ (forall err,
         accepts environment deal = true ->
         SendSignedResponse environment accepted = Some err ->
         triggered decide = [ProviderEventSendResponseFailed err]).
Proof.
  cbv zeta. unfold DecideOnProposal, RejectDeal, accepts, logOf. cbn.
  destruct (RunCustomDecisionLogic environment deal)
    as [[[|] reason] [e|]]; cbn;
    destruct (SendSignedResponse environment
                (network.mkResponse StorageDealFailing (Message deal)
                   (ProposalCid deal))) as [e1|]; cbn;
    try destruct (SendSignedResponse environment
                    (network.mkResponse StorageDealWaitingForData ""
                       (ProposalCid deal))) as [e2|]; cbn;
    repeat match goal with |- _ /\ _ => split end;
    try reflexivity;
    try (split; intros H; settle; auto; fail);
    try (intros err H; settle; reflexivity);
    try (intros err H H'; settle; reflexivity).
Qed.

(** HandoffDeal hands the piece to the node at most once, and triggers
    ProviderEventDealHandedOff only when the node took it.  A piece reader
    that was opened is closed, whatever the node answered.  Recording the
    piece for retrieval cannot stop the handoff: an error of the piece store
    is triggered as ProviderEventPieceStoreErrored and
    ProviderEventDealHandedOff follows; the deal is added to the piece only
    after its block locations were. *)
Theorem handoff_survives_the_piece_store environment deal :
  let log := logOf (HandoffDeal environment deal) in
  (handoffs log <= 1)%nat
  /\ (In ProviderEventDealHandedOff (triggered log) ->
      exists size packing,
        In (NodeOnDealComplete size) log
        /\ OnDealComplete (Node environment) (atHandoff deal) size
           = inr packing)
  /\ (forall err,
         In (ProviderEventPieceStoreErrored err) (triggered log) ->
         triggered log
         = [ProviderEventPieceStoreErrored err; ProviderEventDealHandedOff])
  /\ (forall reader,
         PiecePath deal = "" ->
         GeneratePieceReader environment (StoreID deal) (Root (Ref deal))
         = inr reader ->
         In ReaderClose log)
  /\ (forall pieceCID dealID,
         In (PieceStoreAddDealForPiece pieceCID dealID) log ->
         In (PieceStoreAddPieceBlockLocations pieceCID) log
         /\ AddPieceBlockLocations environment pieceCID = None).
Proof.
  cbv zeta. unfold HandoffDeal, handoffDeal, recordPiece, logOf, handoffs.
  fold (atHandoff deal).
  destruct (String.eqb_spec (PiecePath deal) "") as [Hpath|Hpath];
    answers;
    repeat match goal with |- _ /\ _ => split end;
    try lia; intros; settle; eauto 10; try now contradiction Hpath.
Qed.

(** The node sees of a deal only what goes on chain.  PublishDeal passes
    it the parties, the signed proposal, its CID, the state and the data
    reference, and nothing the provider keeps for itself (paths, funds
    reserved, messages, store): two records that agree on those run
    PublishDeal alike. *)
Theorem publish_shows_the_chain_part environment deal deal' :
  sameOnChain deal deal' ->
  PublishDeal environment deal = PublishDeal environment deal'.
Proof.
  intros (Hclient & Hproposal & Hsig & Hcid & Hstate & Href).
  unfold PublishDeal. now rewrite Hclient, Hproposal, Hsig, Hcid, Hstate, Href.
Qed.

(** PublishDeal on the scenario's deal and on the same deal with a piece
    path, a message and funds reserved. *)
Lemma publish_shows_the_chain_part_witness :
  PublishDeal scenarioEnvironment
    (dealWith StorageDealPublish (proposalWith 200 518600 10000) None)
  = PublishDeal scenarioEnvironment
      (set_FundsReserved (Some 10000)
         (set_Message "kept by the provider"
            (set_PiecePath "staged/piece"
               (dealWith StorageDealPublish (proposalWith 200 518600 10000)
                  None)))).
Proof.
  apply publish_shows_the_chain_part. repeat split.
Defined.

End ProviderHandlers.

(** ** Retrieval queries *)

Module RetrievalQuery.

Import exec retrievalquery.

#[local] Open Scope exec_scope.

(** HandleQueryStream closes the stream exactly once, as the last thing it
    does, on every path, a panic on a missing ask included.  It writes at
    most one answer, and it writes one exactly when the query could be
    read, there is an ask and the node gave its chain head: when the chain
    head cannot be had the client gets no answer at all, when the worker
    address or the piece cannot be looked up it gets one. *)
Theorem query_stream_is_closed_last p stream :
  let log := fst (HandleQueryStream p stream) in
  (exists body,
      log = (body ++ [StreamClose])%list /\ closes body = 0%nat)
  /\ (List.length (written log) <= 1)%nat
  /\ (written log <> []
      <-> exists query ask head,
            ReadQuery stream = inr query
            /\ GetAsk p = Some ask
            /\ GetChainHead p = inr head).
Proof.
  cbv zeta. unfold HandleQueryStream, deferring, closes, written.
  destruct (ReadQuery stream) as [e|query] eqn:Hread; cbn;
    [|destruct (GetAsk p) as [ask|] eqn:Hask; cbn;
      [destruct (GetChainHead p) as [e|[tok epoch]] eqn:Hhead; cbn;
       [|destruct (GetMinerWorkerAddress p (minerAddress p) tok)
           as [e|worker] eqn:Hworker; cbn]|]];
    (split;
     [match goal with
      | |- exists body, ?log = _ /\ _ =>
          exists (removelast log); split; reflexivity
      end|]);
    (split; [lia|]).
  - split; [intros H; now contradiction H|].
    intros (q & a & h & H & _). discriminate H.
  - split; [intros H; now contradiction H|].
    intros (q & a & h & _ & _ & H). discriminate H.
  - split; [|discriminate]. intros _. now exists query, ask, (tok, epoch).
  - split; [|discriminate]. intros _. now exists query, ask, (tok, epoch).
  - split; [intros H; now contradiction H|].
    intros (q & a & h & _ & H & _). discriminate H.
Qed.

(** The answer to a query.  Whatever is found, it offers the terms of the
    ask.  It says Available exactly when the worker address was looked up
    and the piece was found with at least one deal; the size is then the
    length of the first deal and the payment address the worker address.
    It says Error, with the text of the error as its message, exactly when
    the worker address could not be looked up or the lookup of the piece
    failed with an error other than ErrNotFound; a piece that is not found,
    or found without a deal, is Unavailable without a message. *)
Theorem query_answer_follows_the_piece_store p stream query ask tok epoch :
  ReadQuery stream = inr query ->
  GetAsk p = Some ask ->
  GetChainHead p = inr (tok, epoch) ->
  let pieceCID :=
    match QueryPieceCID query with
    | Some pieceCID => pieceCID
    | None => cid.Undef
    end in
  let worker := GetMinerWorkerAddress p (minerAddress p) tok in
  let found := getPieceInfoFromCid p (QueryPayloadCID query) pieceCID in
  exists answer,
    written (fst (HandleQueryStream p stream)) = [answer]
    /\ (MinPricePerByte answer, MaxPaymentInterval answer,
        MaxPaymentIntervalIncrease answer, UnsealPrice answer)
       = (AskPricePerByte ask, AskPaymentInterval ask,
          AskPaymentIntervalIncrease ask, AskUnsealPrice ask)
    /\ (Status answer = QueryResponseAvailable
        <-> exists paymentAddress pieceInfo deal rest,
              worker = inr paymentAddress
              /\ found = inr pieceInfo
              /\ Deals pieceInfo = deal :: rest
              /\ Size answer = Length deal
              /\ PaymentAddress answer = paymentAddress)
    /\ (PieceCIDFound answer = QueryItemAvailable
        <-> Status answer = QueryResponseAvailable)
    /\ (Status answer = QueryResponseError
        <-> (exists err, worker = inl err /\ Message answer = err)
            \/ (exists paymentAddress err,
                  worker = inr paymentAddress
                  /\ found = inl err
                  /\ IsNotFound err = false
                  /\ Message answer = Text err))
    /\ (Status answer = QueryResponseUnavailable ->
        Message answer = "" /\ Size answer = 0).
Proof.
  intros Hread Hask Hhead. cbv zeta.
  unfold HandleQueryStream, deferring, written.
  rewrite Hread, Hask, Hhead. cbn.
  destruct (GetMinerWorkerAddress p (minerAddress p) tok) as [e|paymentAddress];
    cbn.
  - eexists. split; [reflexivity|]. cbn. split; [reflexivity|].
    split; [split; [discriminate|intros (a & i & d & r & H & _); discriminate H]|].
    split; [split; discriminate|].
    split; [|discriminate].
    split; [intros _; left; now exists e|reflexivity].
  - destruct (getPieceInfoFromCid p _ _) as [err|pieceInfo]; cbn.
    + destruct (IsNotFound err) eqn:Hnf; cbn;
        (eexists; split; [reflexivity|]); cbn;
        (split; [reflexivity|]);
        (split; [split; [discriminate
                        |intros (a & i & d & r & _ & H & _); discriminate H]|]);
        (split; [split; discriminate|]).
      * split; [|auto]. split; [discriminate|].
        intros [(e & H & _)|(a & e & _ & H & H' & _)]; [discriminate H|].
        injection H as <-. rewrite Hnf in H'. discriminate H'.
      * split; [|discriminate]. split; [|reflexivity].
        intros _. right. now exists paymentAddress, err.
    + destruct (Deals pieceInfo) as [|deal rest] eqn:Hdeals; cbn;
        (eexists; split; [reflexivity|]); cbn;
        (split; [reflexivity|]).
      * split; [split; [discriminate
                       |intros (a & i & d & r & _ & H & H' & _);
                        injection H as <-; rewrite Hdeals in H';
                        discriminate H']|].
        split; [split; discriminate|].
        split; [|auto]. split; [discriminate|].
        intros [(e & H & _)|(a & e & _ & H & _)]; discriminate H.
      * split; [split; [intros _|reflexivity];
                now exists paymentAddress, pieceInfo, deal, rest|].
        split; [split; reflexivity|].
        split; [|discriminate]. split; [discriminate|].
        intros [(e & H & _)|(a & e & _ & H & _)]; discriminate H.
Qed.

(** The provider that serves a piece answers the query for it: available,
    2048 bytes (the first of its two deals), to be paid to the worker. *)
Lemma query_answer_follows_the_piece_store_witness :
  exists answer,
    written (fst (HandleQueryStream servingProvider queryStream)) = [answer]
    /\ Status answer = QueryResponseAvailable
    /\ Size answer = 2048
    /\ PaymentAddress answer = "worker"
    /\ MinPricePerByte answer = 1000.
Proof.
  destruct (query_answer_follows_the_piece_store servingProvider queryStream
              (mkQuery cid.Undef None) (mkAsk 1000 5000 10000 1000)
              "tipset" 50 eq_refl eq_refl eq_refl)
    as (answer & Hwritten & Hterms & Havailable & _).
  exists answer. split; [exact Hwritten|].
  injection Hwritten as <-. repeat split.
Defined.

End RetrievalQuery.

(** ** The retrieval client *)

Module RetrievalClient.

Import exec rm fsm clientstates retrievalclient.

#[local] Open Scope exec_scope.



Lemma stuckOn_spec paymentChannel deal :
  stuckOn paymentChannel deal = true ->
  Status deal = DealStatusInsufficientFunds
  /\ exists info,
       PaymentInfo deal = Some info /\ PayCh info = paymentChannel.
Proof.
  unfold stuckOn, DealStatus_eqb.
  destruct (DealStatus_eq_dec _ _) as [Hs|]; [|discriminate].
  destruct (PaymentInfo deal) as [info|]; [|discriminate].
  cbn. intros H. apply String.eqb_eq in H. eauto.
Qed.

(** The loop of TryRestartInsufficientFunds, deal by deal. *)
Lemma recheck_run c paymentChannel deals :
  let ran := recheck c paymentChannel deals in
  let stuck := filter (stuckOn paymentChannel) deals in
  (forall id evt,
      In (id, evt) (sent (fst ran)) ->
      evt = ClientEventRecheckFunds
      /\ exists deal, In deal stuck /\ ID deal = id)
  /\ (forall why,
         snd ran = Panic why ->
         exists deal,
           In deal deals
           /\ Status deal = DealStatusInsufficientFunds
           /\ PaymentInfo deal = None)
  /\ ((forall deal,
          In deal deals ->
          Status deal = DealStatusInsufficientFunds ->
          PaymentInfo deal <> None) ->
      (forall deal,
          In deal stuck -> Send c (ID deal) ClientEventRecheckFunds = None) ->
      ran = (map (fun deal => MachinesSend (ID deal) ClientEventRecheckFunds)
               stuck,
             Next tt)).
Proof.
  induction deals as [|deal deals IH]; cbv zeta.
  - cbn. repeat split; intros; settle.
  - destruct IH as (IHsent & IHpanic & IHall).
    cbn [recheck filter].
    destruct (recheck c paymentChannel deals) as [log o] eqn:Hrest.
    cbn [fst snd] in *.
    destruct (stuckOn paymentChannel deal) eqn:Hstuck.
    + destruct (stuckOn_spec _ _ Hstuck) as (Hs & info & Hinfo & Hch).
      rewrite Hs, Hinfo, Hch, String.eqb_refl. cbn.
      destruct (Send c (ID deal) ClientEventRecheckFunds) as [e|] eqn:Hsend;
        cbn.
      * split; [|split].
        -- intros id evt [H|[]]. injection H as <- <-.
           split; [reflexivity|]. exists deal. split; [now left|reflexivity].
        -- discriminate.
        -- intros _ Hok. specialize (Hok deal (or_introl eq_refl)).
           congruence.
      * split; [|split].
        -- intros id evt [H|H].
           ++ injection H as <- <-. split; [reflexivity|].
              exists deal. split; [now left|reflexivity].
           ++ destruct (IHsent _ _ H) as (-> & d & Hd & <-).
              split; [reflexivity|]. exists d. split; [now right|reflexivity].
        -- intros why ->.
           destruct (IHpanic why eq_refl) as (d & Hd & H1 & H2).
           exists d. split; [now right|auto].
        -- intros Hinfos Hok.
           pose proof (IHall (fun d Hd => Hinfos d (or_intror Hd))
                         (fun d Hd => Hok d (or_intror Hd))) as E.
           injection E as -> ->. reflexivity.
    + assert (Hstep :
        (if DealStatus_eqb (Status deal) DealStatusInsufficientFunds
         then
           match PaymentInfo deal with
           | None => panic "nil pointer dereference"
           | Some info =>
               if String.eqb (PayCh info) paymentChannel
               then
                 call (MachinesSend (ID deal) ClientEventRecheckFunds) ;;
                 failReturn (Send c (ID deal) ClientEventRecheckFunds) Some
               else ret tt
           end
         else ret tt)
        = (if DealStatus_eqb (Status deal) DealStatusInsufficientFunds
           then
             match PaymentInfo deal with
             | None => panic "nil pointer dereference"
             | Some _ =>
                 (ret tt : M Effect (option error) unit)
             end
           else ret tt)).
      { unfold stuckOn in Hstuck.
        destruct (DealStatus_eqb _ _); [|reflexivity].
        destruct (PaymentInfo deal) as [info|]; [|reflexivity].
        cbn in Hstuck. now rewrite Hstuck. }
      rewrite Hstep. clear Hstep.
      destruct (DealStatus_eqb (Status deal) DealStatusInsufficientFunds)
        eqn:Hs; cbn; [destruct (PaymentInfo deal) as [info|] eqn:Hinfo; cbn|].
      * split; [|split].
        -- intros id evt H. apply (IHsent _ _ H).
        -- intros why ->.
           destruct (IHpanic why eq_refl) as (d & Hd & H1 & H2).
           exists d. split; [now right|auto].
        -- intros Hinfos Hok.
           pose proof (IHall (fun d Hd => Hinfos d (or_intror Hd)) Hok) as E.
           injection E as -> ->. reflexivity.
      * assert (Hstatus : Status deal = DealStatusInsufficientFunds).
        { unfold DealStatus_eqb in Hs.
          now destruct (DealStatus_eq_dec _ _). }
        split; [|split].
        -- intros id evt [].
        -- intros why _. exists deal. split; [now left|auto].
        -- intros Hinfos _.
           now contradiction (Hinfos deal (or_introl eq_refl) Hstatus).
      * split; [|split].
        -- intros id evt H. apply (IHsent _ _ H).
        -- intros why ->.
           destruct (IHpanic why eq_refl) as (d & Hd & H1 & H2).
           exists d. split; [now right|auto].
        -- intros Hinfos Hok.
           pose proof (IHall (fun d Hd => Hinfos d (or_intror Hd)) Hok) as E.
           injection E as -> ->. reflexivity.
Qed.

(** TryRestartInsufficientFunds sends ClientEventRecheckFunds, and nothing
    else, to deals that are in DealStatusInsufficientFunds on the payment
    channel it is given, and to no other deal; when every such deal takes
    the event it has sent it to each of them, in the order of the list, and
    returns no error.  The table takes the event on each of them and moves
    it to DealStatusCheckFunds.  The payment channel of a deal is read only
    when the deal is in DealStatusInsufficientFunds: the function panics
    only on such a deal without PaymentInfo. *)
Theorem recheck_reaches_the_stuck_deals DealStatuses c paymentChannel deals :
  List c = inr deals ->
  let ran := run (TryRestartInsufficientFunds c paymentChannel) in
  let stuck := filter (stuckOn paymentChannel) deals in
  (forall id evt,
      In (id, evt) (sent (fst ran)) ->
      evt = ClientEventRecheckFunds
      /\ exists deal, In deal stuck /\ ID deal = id)
  /\ (forall deal,
         In deal stuck ->
         Apply DealStatuses deal ClientEventRecheckFunds
         = Applied (set_Status DealStatusCheckFunds deal))
  /\ (forall why,
         snd ran = exec.Panicked why ->
         exists deal,
           In deal deals
           /\ Status deal = DealStatusInsufficientFunds
           /\ PaymentInfo deal = None)
  /\ ((forall deal,
          In deal deals ->
          Status deal = DealStatusInsufficientFunds ->
          PaymentInfo deal <> None) ->
      (forall deal,
          In deal stuck -> Send c (ID deal) ClientEventRecheckFunds = None) ->
      ran = (MachinesList
             :: map (fun deal => MachinesSend (ID deal) ClientEventRecheckFunds)
                  stuck,
             Returned None)).
Proof.
  intros Hlist. cbv zeta.
  destruct (recheck_run c paymentChannel deals) as (Hsent & Hpanic & Hall).
  unfold TryRestartInsufficientFunds. rewrite Hlist. cbn.
  destruct (recheck c paymentChannel deals) as [log o] eqn:Hrest.
  cbn [fst snd] in *.
  split; [|split; [|split; [|]]].
  - intros id evt H. apply (Hsent id evt).
    destruct o; cbn in H; rewrite ?app_nil_r in H; exact H.
  - intros deal Hin. apply filter_In in Hin. destruct Hin as [_ Hstuck].
    destruct (stuckOn_spec _ _ Hstuck) as (Hs & _).
    unfold Apply. rewrite Hs. reflexivity.
  - intros why H. destruct o; cbn in H; try discriminate H.
    injection H as <-. now apply (Hpanic why0).
  - intros Hinfos Hok. specialize (Hall Hinfos Hok).
    injection Hall as -> ->. cbn. now rewrite app_nil_r.
Qed.

(** Three deals, the first and the last stuck on "paych", the second under
    way: the first and the last are sent ClientEventRecheckFunds. *)
Lemma recheck_reaches_the_stuck_deals_witness :
  run (TryRestartInsufficientFunds
         (readyClient [stuckDeal 1; ongoingDeal; stuckDeal 3]) "paych")
  = ([MachinesList; MachinesSend 1 ClientEventRecheckFunds;
      MachinesSend 3 ClientEventRecheckFunds],
     Returned None).
Proof.
  apply (proj2 (proj2 (proj2
           (recheck_reaches_the_stuck_deals (fun _ => "")
              (readyClient [stuckDeal 1; ongoingDeal; stuckDeal 3]) "paych"
              [stuckDeal 1; ongoingDeal; stuckDeal 3] eq_refl)))).
  - intros deal [<-|[<-|[<-|[]]]]; cbn; discriminate.
  - reflexivity.
Defined.

(** Query closes the stream it opened, once and as the last thing it does,
    however it ends; when no stream was opened (the addresses of the peer
    could not be looked up, or the network gave none) nothing is closed.
    The one query it writes carries the payload CID and the parameters it
    was given.  It returns a response only if the query was written without
    error, and then the response the stream read; after a failed write
    nothing is read and the error of the write is returned as it is. *)
Theorem query_closes_the_stream_it_opened c p payloadCID params :
  let ran := run (Query c p payloadCID params) in
  let stream := NewQueryStream c (RetrievalPeerID p) in
  let query := retrievalquery.mkQuery payloadCID params in
  (forall s,
      In (NetworkNewQueryStream (RetrievalPeerID p)) (fst ran) ->
      stream = inr s ->
      exists body,
        fst ran = (body ++ [StreamClose])%list /\ closes body = 0%nat)
  /\ (closes (fst ran) = 1%nat
      <-> In (NetworkNewQueryStream (RetrievalPeerID p)) (fst ran)
          /\ exists s, stream = inr s)
  /\ (closes (fst ran) <= 1)%nat
  /\ (forall q, In (StreamWriteQuery q) (fst ran) -> q = query)
  /\ (forall answer,
         snd ran = Returned (inr answer) ->
         exists s,
           stream = inr s
           /\ WriteQuery s query = None
           /\ ReadQueryResponse s = inr answer)
  /\ (forall s err,
         In (StreamWriteQuery query) (fst ran) ->
         stream = inr s ->
         WriteQuery s query = Some err ->
         snd ran = Returned (inl err)
         /\ ~ In StreamReadQueryResponse (fst ran)).
Proof.
  cbv zeta. unfold Query, addMultiaddrs, invoke, run, deferring, closes.
  destruct (GetChainHead c) as [e|[tok epoch]]; cbn;
    [|destruct (GetKnownAddresses c p tok) as [e|maddrs]; cbn;
      [|destruct maddrs as [|maddr maddrs]; cbn;
        (destruct (NewQueryStream c (RetrievalPeerID p)) as [e|s] eqn:Hs;
         cbn;
         [|destruct (WriteQuery s _) as [e|] eqn:Hwrite; cbn;
           [|destruct (ReadQueryResponse s) as [e|answer] eqn:Hread;
             cbn]])]];
    repeat match goal with |- _ /\ _ => split end;
    try lia; try reflexivity;
    try (intros; settle; eauto; congruence);
    try (intros; settle;
         match goal with
         | |- exists body, ?log = _ /\ _ =>
             exists (removelast log); split; reflexivity
         end);
    try (intros; settle; try discriminate; eauto 6;
         try congruence; fail);
    try (split;
         [intros H; first [discriminate H | split; [auto 10|eauto]]
         |intros (H & s' & H'); first [reflexivity | settle; discriminate]]);
    try (intros s' err H H1 H2; injection H1 as <-;
         rewrite Hwrite in H2; first [discriminate H2 | injection H2 as <-];
         split; [reflexivity|intros H'; settle]).
Qed.

(** The client whose streams are reset when written to: the stream is
    opened, the write fails, its error is returned and nothing is read. *)
Lemma query_closes_the_stream_it_opened_witness :
  let ran :=
    run (Query (readyClient []) (mkRetrievalPeer "t0provider" "provider")
           cid.Undef None) in
  snd ran = Returned (inl "stream reset")
  /\ ~ In StreamReadQueryResponse (fst ran).
Proof.
  cbv zeta.
  apply (proj2 (proj2 (proj2 (proj2 (proj2
           (query_closes_the_stream_it_opened (readyClient [])
              (mkRetrievalPeer "t0provider" "provider") cid.Undef None)))))
           (mkQueryStream (fun _ => Some "stream reset") (inl "EOF"))
           "stream reset");
    [cbn; auto 10|reflexivity|reflexivity].
Defined.

End RetrievalClient.

(** ** The storage client's ask query *)

Module StorageAskQuery.

Import exec storageclient.

#[local] Open Scope exec_scope.

#[local] Arguments String.append : simpl never.
#[local] Arguments String.eqb : simpl never.

(** GetAsk on a provider without a known address panics at its second
    line, which reads the first address before the list is tested for
    being empty: nothing has been asked of the network.  On a provider with
    an address the addresses are always added to the network.  An ask that
    is returned is the ask of the response and is for the miner asked; and
    since the signature is never looked at, a response is treated alike
    whatever its signature and whatever bytes were signed. *)
Theorem get_ask_reads_the_first_address net info :
  (InfoAddrs info = [] ->
   run (GetAsk net info)
   = ([PrintInfo info],
      Panicked "index out of range [0] with length 0"))
  /\ (forall addr addrs,
         InfoAddrs info = addr :: addrs ->
         exists rest,
           fst (run (GetAsk net info))
           = PrintInfo info :: PrintAddr addr
             :: NetAddAddrs (InfoPeerID info) (addr :: addrs) :: rest)
  /\ (forall ask,
         snd (run (GetAsk net info)) = Returned (inr ask) ->
         Miner ask = InfoAddress info
         /\ exists s out bytes signed,
              NewAskStream net (InfoPeerID info) = inr s
              /\ ReadAskResponse s = inr (out, bytes)
              /\ ResponseAsk out = Some signed
              /\ SignedAsk signed = Some ask)
  /\ (forall net' s s',
         NewAskStream net (InfoPeerID info) = inr s ->
         NewAskStream net' (InfoPeerID info) = inr s' ->
         WriteAskRequest s = WriteAskRequest s' ->
         unsigned (ReadAskResponse s) = unsigned (ReadAskResponse s') ->
         run (GetAsk net info) = run (GetAsk net' info)).
Proof.
  unfold GetAsk. repeat match goal with |- _ /\ _ => split end.
  - intros ->. reflexivity.
  - intros addr addrs ->. cbn.
    destruct (NewAskStream net (InfoPeerID info)) as [e|s]; cbn; eauto.
    destruct (WriteAskRequest s _) as [e|]; cbn; eauto.
    destruct (ReadAskResponse s) as [e|[out bytes]]; cbn; eauto.
    destruct (ResponseAsk out) as [signed|]; cbn; eauto.
    destruct (SignedAsk signed) as [ask|]; cbn; eauto.
    destruct (negb _); cbn; eauto.
  - intros ask. destruct (InfoAddrs info) as [|addr addrs]; cbn;
      [discriminate|].
    destruct (NewAskStream net (InfoPeerID info)) as [e|s]; cbn;
      [discriminate|].
    destruct (WriteAskRequest s _) as [e|]; cbn; [discriminate|].
    destruct (ReadAskResponse s) as [e|[out bytes]] eqn:Hread; cbn;
      [discriminate|].
    destruct (ResponseAsk out) as [signed|] eqn:Hout; cbn; [|discriminate].
    destruct (SignedAsk signed) as [ask'|] eqn:Hsigned; cbn; [|discriminate].
    destruct (String.eqb_spec (Miner ask') (InfoAddress info)) as [Hm|Hm];
      cbn; [|discriminate].
    intros H. injection H as <-. split; [exact Hm|].
    exists s, out, bytes, signed. auto.
  - intros net' s s' -> -> Hwrite Hread.
    destruct (InfoAddrs info) as [|addr addrs]; cbn; [reflexivity|].
    rewrite <- Hwrite.
    destruct (WriteAskRequest s _) as [e|]; cbn; [reflexivity|].
    unfold unsigned in Hread.
    destruct (ReadAskResponse s) as [e|[out bytes]],
      (ReadAskResponse s') as [e'|[out' bytes']]; cbn;
      try discriminate Hread.
    + injection Hread as <-. reflexivity.
    + injection Hread as Hread.
      destruct (ResponseAsk out) as [signed|],
        (ResponseAsk out') as [signed'|]; cbn in *;
        try discriminate Hread; [|reflexivity].
      injection Hread as ->. reflexivity.
Qed.

(** GetAsk on a provider without an address, and the same ask with and
    without a signature. *)
Lemma get_ask_reads_the_first_address_witness :
  snd (run (GetAsk (askingNetwork None) (askedProvider [])))
  = Panicked "index out of range [0] with length 0"
  /\ run (GetAsk (askingNetwork None) (askedProvider ["/ip4/10.0.0.2"]))
     = run (GetAsk (askingNetwork (Some "forged"))
              (askedProvider ["/ip4/10.0.0.2"])).
Proof.
  split.
  - now rewrite (proj1 (get_ask_reads_the_first_address (askingNetwork None)
                          (askedProvider [])) eq_refl).
  - exact (proj2 (proj2 (proj2
             (get_ask_reads_the_first_address (askingNetwork None)
                (askedProvider ["/ip4/10.0.0.2"]))))
             (askingNetwork (Some "forged")) _ _
             eq_refl eq_refl eq_refl eq_refl).
Defined.

End StorageAskQuery.

(** ** The storage provider's environment *)

Module StorageProviderEnvironment.

Import storagemarket providerstates exec storageprovider.

#[local] Arguments String.append : simpl never.

Lemma SendSignedResponse_run p resp :
  run (SendSignedResponse p resp)
  = let proposalCid := network.ResponseProposal resp in
    match DealStream p proposalCid with
    | inl err =>
        ([ConnsDealStream proposalCid],
         Returned (Some ("couldn't send response: " ++ err)))
    | inr s =>
        match sign p resp with
        | inl err =>
            ([ConnsDealStream proposalCid; Sign resp],
             Returned (Some ("failed to sign response message: " ++ err)))
        | inr sig =>
            match s (mkSignedResponse resp sig) with
            | Some err =>
                ([ConnsDealStream proposalCid; Sign resp;
                  StreamWriteDealResponse (mkSignedResponse resp sig);
                  Disconnected proposalCid],
                 Returned (Some err))
            | None =>
                ([ConnsDealStream proposalCid; Sign resp;
                  StreamWriteDealResponse (mkSignedResponse resp sig)],
                 Returned None)
            end
        end
    end.
Proof.
  unfold SendSignedResponse. cbv zeta.
  destruct (DealStream p _) as [e|s]; cbn; [reflexivity|].
  destruct (sign p resp) as [e|sig]; cbn; [reflexivity|].
  destruct (s _) as [e|]; reflexivity.
Qed.

(** SendSignedResponse drops the connection exactly when the response was
    signed and its write failed, and returns the error of the write as it
    is; it returns no error exactly when the stream of the proposal was
    found, the response signed and the write went through.  When the stream
    is not found nothing is signed, when signing fails nothing is written,
    and in both cases the connection is left alone. *)
Theorem response_is_sent_or_the_client_dropped p resp :
  let ran := run (SendSignedResponse p resp) in
  let proposalCid := network.ResponseProposal resp in
  (In (Disconnected proposalCid) (fst ran)
   <-> exists s sig err,
         DealStream p proposalCid = inr s
         /\ sign p resp = inr sig
         /\ s (mkSignedResponse resp sig) = Some err
         /\ snd ran = Returned (Some err))
  /\ (snd ran = Returned None
      <-> exists s sig,
            DealStream p proposalCid = inr s
            /\ sign p resp = inr sig
            /\ s (mkSignedResponse resp sig) = None)
  /\ (forall err,
         DealStream p proposalCid = inl err ->
         ran = ([ConnsDealStream proposalCid],
                Returned (Some ("couldn't send response: " ++ err))))
  /\ (forall s err,
         DealStream p proposalCid = inr s ->
         sign p resp = inl err ->
         ran = ([ConnsDealStream proposalCid; Sign resp],
                Returned
                  (Some ("failed to sign response message: " ++ err)))).
Proof.
  cbv zeta. unfold SendSignedResponse.
  destruct (DealStream p (network.ResponseProposal resp)) as [e|s] eqn:Hs;
    cbn.
  { repeat split; intros; settle; try reflexivity. }
  destruct (sign p resp) as [e|sig] eqn:Hsig; cbn.
  { repeat split; intros; settle; try reflexivity. }
  destruct (s (mkSignedResponse resp sig)) as [e|] eqn:Hwrite; cbn;
    repeat split; intros; settle; try reflexivity; eauto 10;
    try congruence.
Qed.

#[local] Arguments storageprovider.SendSignedResponse : simpl never.
#[local] Arguments exec.run : simpl never.

(** With the environment of a provider that has no custom decision logic,
    DecideOnProposal rejects no deal: it asks for the data when the
    response went out and reports the failed send otherwise.  While
    DecideOnProposal or RejectDeal runs, the connection of the proposal is
    dropped once if the stream of the proposal was found and the response
    signed (by the environment when the write failed, by the handler when it
    went through), and not at all if the stream was not found or the
    response could not be signed. *)
Theorem connection_is_dropped_once p others deal :
  let environment := providerDealEnvironment p others in
  let decide := logOf (DecideOnProposal environment deal) in
  let reject := logOf (RejectDeal environment deal) in
  let signable resp :=
    match DealStream p (network.ResponseProposal resp), sign p resp with
    | inr _, inr _ => true
    | _, _ => false
    end in
  (customDealDeciderFunc p = None ->
   (forall reason,
       ~ In (ProviderEventDealRejected reason) (triggered decide))
   /\ disconnections p decide
      = (if signable
              (network.mkResponse StorageDealWaitingForData ""
                 (ProposalCid deal))
         then 1 else 0)%nat)
  /\ disconnections p reject
     = (if signable
             (network.mkResponse StorageDealFailing (Message deal)
                (ProposalCid deal))
        then 1 else 0)%nat.
Proof.
  cbv zeta. split.
  - intros Hnone.
    unfold DecideOnProposal, logOf, disconnections. cbn.
    unfold storageprovider.RunCustomDecisionLogic. rewrite Hnone. cbn.
    rewrite !SendSignedResponse_run. cbn.
    destruct (DealStream p (ProposalCid deal)) as [e|s] eqn:Hs; cbn;
      [|destruct (sign p _) as [e|sig] eqn:Hsig; cbn;
        [|destruct (s _) as [e|] eqn:Hwrite; cbn]];
      (split; [intros reason H; settle|]);
      rewrite ?SendSignedResponse_run; cbn;
      rewrite ?Hs; cbn; rewrite ?Hsig; cbn; rewrite ?Hwrite; reflexivity.
  - unfold RejectDeal, logOf, disconnections. cbn.
    rewrite !SendSignedResponse_run. cbn.
    destruct (DealStream p (ProposalCid deal)) as [e|s] eqn:Hs; cbn;
      [|destruct (sign p _) as [e|sig] eqn:Hsig; cbn;
        [|destruct (s _) as [e|] eqn:Hwrite; cbn]];
      rewrite ?SendSignedResponse_run; cbn;
      rewrite ?Hs; cbn; rewrite ?Hsig; cbn; rewrite ?Hwrite; reflexivity.
Qed.

(** A provider without decision logic whose write fails: the environment
    drops the connection, once, and DecideOnProposal reports the failed
    send. *)
Lemma connection_is_dropped_once_witness :
  let environment :=
    providerDealEnvironment (plainProvider (Some "stream reset"))
      testdata.scenarioEnvironment in
  let log :=
    logOf (DecideOnProposal environment testdata.validDeal) in
  triggered log = [ProviderEventSendResponseFailed "stream reset"]
  /\ disconnections (plainProvider (Some "stream reset")) log = 1%nat.
Proof.
  cbv zeta. split; [reflexivity|].
  exact (proj2 (proj1 (connection_is_dropped_once
                         (plainProvider (Some "stream reset"))
                         testdata.scenarioEnvironment testdata.validDeal)
                  eq_refl)).
Defined.

End StorageProviderEnvironment.
